(** * User-profile serialization (number10.py): model and properties

    A shallow embedding of [UserProfile], [serialize_user_profile],
    [deserialize_user_profile], [_json_serializer] and
    [backup_deserialization_attempt], together with the parts of the Python
    runtime they call: text, the values of the [json] module, [json.dumps],
    [json.loads], [str()], [int()] and exceptions.

    The values are finite trees and the interpreter is taken without its
    limits. Left out are the limit on the digits of a conversion between an
    [int] and a text (4300 by default), the recursion limit, a mutable value
    held in two places, and what [open] and the codec refuse (a null
    character in a file name, a text that UTF-8 cannot write). The round
    trips are therefore stated of calls of [serialize_user_profile] and
    [update_preferences] that have returned, and the failures of the
    functions by what they raise when they do. *)

From Stdlib Require Import List NArith ZArith Lia Bool String Ascii.
From Stdlib Require Import Decimal DecimalN DecimalPos DecimalFacts SpecFloat.
Import ListNotations.

Set Implicit Arguments.
Set Warnings "-register-all".
Local Open Scope N_scope.

(** ** Text

    A Python [str] is a sequence of code points. *)

Definition pystr := list N.

(** Text written as a Rocq literal (ASCII only). *)
Definition py (s : string) : pystr :=
  map N_of_ascii (list_ascii_of_string s).

(** JSON text written as a Rocq literal: in the literal, the apostrophe
    stands for the double quote of the text. *)
Definition jtext (s : string) : pystr :=
  map (fun c => if c =? 39 then 34 else c) (py s).

Arguments py : simpl never.
Arguments jtext : simpl never.

Definition str_eqb (a b : pystr) : bool :=
  if list_eq_dec N.eq_dec a b then true else false.

(** [c in s] for a single character. *)
Definition str_contains (c : N) (s : pystr) : bool := existsb (N.eqb c) s.

(** The characters [str.strip()] removes: Unicode white space. *)
Definition is_space (c : N) : bool :=
  ((9 <=? c) && (c <=? 13)) || ((28 <=? c) && (c <=? 32)) ||
  (c =? 133) || (c =? 160) || (c =? 5760) ||
  ((8192 <=? c) && (c <=? 8202)) || (c =? 8232) || (c =? 8233) ||
  (c =? 8239) || (c =? 8287) || (c =? 12288).

Fixpoint lstrip (s : pystr) : pystr :=
  match s with
  | c :: s' => if is_space c then lstrip s' else s
  | [] => []
  end.

Definition strip (s : pystr) : pystr := List.rev (lstrip (List.rev (lstrip s))).

(** Python's [<=] on text: lexicographic on code points. *)
Fixpoint str_le (a b : pystr) : bool :=
  match a, b with
  | [], _ => true
  | _ :: _, [] => false
  | x :: a', y :: b' => (x <? y) || ((x =? y) && str_le a' b')
  end.

(** Decimal rendering of numbers, through the standard library's [Decimal]. *)

Fixpoint uint_chars (u : uint) : pystr :=
  match u with
  | Nil => []
  | D0 u => 48 :: uint_chars u
  | D1 u => 49 :: uint_chars u
  | D2 u => 50 :: uint_chars u
  | D3 u => 51 :: uint_chars u
  | D4 u => 52 :: uint_chars u
  | D5 u => 53 :: uint_chars u
  | D6 u => 54 :: uint_chars u
  | D7 u => 55 :: uint_chars u
  | D8 u => 56 :: uint_chars u
  | D9 u => 57 :: uint_chars u
  end.

(** [int.__repr__] *)
Definition int_repr (z : Z) : pystr :=
  match z with
  | Z0 => [48]
  | Zpos p => uint_chars (Pos.to_uint p)
  | Zneg p => 45 :: uint_chars (Pos.to_uint p)
  end.

Definition is_ascii_digit (c : N) : bool := (48 <=? c) && (c <=? 57).

(** One decimal digit put in front of a [uint]. *)
Definition uint_cons (c : N) (u : uint) : uint :=
  match c - 48 with
  | 0 => D0 u | 1 => D1 u | 2 => D2 u | 3 => D3 u | 4 => D4 u
  | 5 => D5 u | 6 => D6 u | 7 => D7 u | 8 => D8 u | _ => D9 u
  end.

(** ** Values

    The Python values the profile code handles: the types [json] knows,
    and three kinds of objects it does not. A float is its IEEE value; a
    [datetime] is given by its [isoformat()] and [repr()] texts; another
    object by the name of its class and the text [str()] returns for it,
    and, when it has a [__dict__], by the entries of that. A [dict] keeps
    its entries in insertion order. *)

Inductive pyval : Type :=
| VNone
| VBool (b : bool)
| VInt (z : Z)
| VFloat (f : spec_float)
| VStr (s : pystr)
| VList (l : list pyval)
| VTuple (l : list pyval)
| VDict (d : list (pyval * pyval))
| VDatetime (iso : pystr) (rep : pystr)
| VInstance (cls : pystr) (text : pystr) (attrs : list (pyval * pyval))
| VOpaque (cls : pystr) (text : pystr).

Definition dict := list (pyval * pyval).

(** Python truth value ([bool(v)]). *)
Definition truthy (v : pyval) : bool :=
  match v with
  | VNone => false
  | VBool b => b
  | VInt z => negb (z =? 0)%Z
  | VFloat (S754_zero _) => false
  | VFloat _ => true
  | VStr s => negb (str_eqb s [])
  | VList l | VTuple l => match l with [] => false | _ => true end
  | VDict d => match d with [] => false | _ => true end
  | VDatetime _ _ | VInstance _ _ _ | VOpaque _ _ => true
  end.

Definition is_str (v : pyval) : bool := match v with VStr _ => true | _ => false end.
(** [isinstance(v, int)]: [bool] is a subclass of [int]. *)
Definition is_int (v : pyval) : bool :=
  match v with VInt _ | VBool _ => true | _ => false end.
Definition is_float (v : pyval) : bool := match v with VFloat _ => true | _ => false end.
Definition is_dict (v : pyval) : bool := match v with VDict _ => true | _ => false end.

(** The integer an [int] (or [bool]) stands for in comparisons. *)
Definition int_value (v : pyval) : Z :=
  match v with VInt z => z | VBool true => 1%Z | _ => 0%Z end.

(** [type(v).__name__] *)
Definition type_name (v : pyval) : pystr :=
  match v with
  | VNone => py "NoneType" | VBool _ => py "bool" | VInt _ => py "int"
  | VFloat _ => py "float" | VStr _ => py "str" | VList _ => py "list"
  | VTuple _ => py "tuple" | VDict _ => py "dict"
  | VDatetime _ _ => py "datetime"
  | VInstance c _ _ | VOpaque c _ => c
  end.

(** [v == s] for a text [s]: only a [str] equals a [str]. *)
Definition eq_str (v : pyval) (s : pystr) : bool :=
  match v with VStr t => str_eqb t s | _ => false end.

(** ** Dictionaries *)

(** Equality of dictionary keys. Text, [None], integers and booleans are
    compared as Python does; the code below only ever looks up and stores
    text keys. *)
Definition key_eqb (a b : pyval) : bool :=
  match a, b with
  | VStr s, VStr t => str_eqb s t
  | VNone, VNone => true
  | (VInt _ | VBool _), (VInt _ | VBool _) => (int_value a =? int_value b)%Z
  | _, _ => false
  end.

(** [d.get(k)] / [k in d] for a text key. *)
Fixpoint dict_get (d : dict) (k : pystr) : option pyval :=
  match d with
  | [] => None
  | (k', v) :: d' => if eq_str k' k then Some v else dict_get d' k
  end.

Definition dict_has (d : dict) (k : pystr) : bool :=
  match dict_get d k with Some _ => true | None => false end.

Definition dict_get_default (d : dict) (k : pystr) (dflt : pyval) : pyval :=
  match dict_get d k with Some v => v | None => dflt end.

(** [d[k] = v]: an existing key keeps its place. *)
Fixpoint dict_setitem (d : dict) (k v : pyval) : dict :=
  match d with
  | [] => [(k, v)]
  | (k', v') :: d' =>
      if key_eqb k' k then (k', v) :: d' else (k', v') :: dict_setitem d' k v
  end.

(** [d.update(new)] *)
Definition dict_update (d new : dict) : dict :=
  fold_left (fun acc kv => dict_setitem acc (fst kv) (snd kv)) new d.

(** ** The Python runtime

    What the interpreter supplies and this repository does not define: the
    Unicode digit tables behind [str.isdigit] and [int()], [repr()] of a
    text, and the conversions between floats and text. The tables are fixed
    on the code points below U+0100, where the digit characters are the
    ASCII digits and the superscripts one, two and three, and only the
    ASCII digits have a decimal value. *)

Definition latin1_isdigit (c : N) : bool :=
  is_ascii_digit c || (c =? 178) || (c =? 179) || (c =? 185).

Definition latin1_decimal (c : N) : option N :=
  if is_ascii_digit c then Some (c - 48) else None.

Class PyRuntime : Type := {
  (** [c.isdigit()] *)
  uni_isdigit : N -> bool;
  (** the decimal value [int()] gives a character, if any *)
  uni_decimal : N -> option N;
  (** [repr(s)] for a text *)
  str_repr : pystr -> pystr;
  (** [float(s)] on a number token of the JSON grammar *)
  float_of_literal : pystr -> spec_float;
  (** [float.__repr__] *)
  float_repr : spec_float -> pystr;
  uni_isdigit_latin1 : forall c, c < 256 -> uni_isdigit c = latin1_isdigit c;
  uni_decimal_latin1 : forall c, c < 256 -> uni_decimal c = latin1_decimal c;
  uni_decimal_isdigit :
    forall c d, uni_decimal c = Some d -> uni_isdigit c = true /\ d < 10;
  (** the text of a float always has a character that is no digit
      (a point, an exponent, [inf] or [nan]) *)
  float_repr_not_digits :
    forall f, forallb uni_isdigit (float_repr f) = false
}.

(** ** Exceptions *)

Inductive exn_class : Type :=
| Exception
| ValueError | TypeError | KeyError | AttributeError | OverflowError
| JSONDecodeError
| OSError | FileNotFoundError | PermissionError
| SerializationError | DeserializationError.

Definition exn_class_eqb (a b : exn_class) : bool :=
  match a, b with
  | Exception, Exception | ValueError, ValueError | TypeError, TypeError
  | KeyError, KeyError | AttributeError, AttributeError
  | OverflowError, OverflowError | JSONDecodeError, JSONDecodeError
  | OSError, OSError | FileNotFoundError, FileNotFoundError
  | PermissionError, PermissionError
  | SerializationError, SerializationError
  | DeserializationError, DeserializationError => true
  | _, _ => false
  end.

(** [issubclass c base] in the exception hierarchy. [IOError] is [OSError]. *)
Definition subclass (c base : exn_class) : bool :=
  exn_class_eqb c base ||
  match base, c with
  | Exception, _ => true
  | ValueError, JSONDecodeError => true
  | OSError, (FileNotFoundError | PermissionError) => true
  | _, _ => false
  end.

(** A raised exception: its class and the text [str(e)] gives. *)
Record exn : Type := Exn { exn_cls : exn_class; exn_msg : pystr }.

Definition isinstance_exn (e : exn) (classes : list exn_class) : bool :=
  existsb (subclass (exn_cls e)) classes.

Arguments isinstance_exn : simpl never.

Inductive outcome (A : Type) : Type :=
| Ok (a : A)
| Raise (e : exn).
Arguments Ok {A} a.
Arguments Raise {A} e.

(** ** The world: clock, log and files

    [datetime.now().isoformat()] reads a clock; [logger] appends to a log;
    [open] reads and writes files. *)

Inductive level : Type := INFO | WARNING | ERROR.

Inductive file : Type :=
| Readable (text : pystr)      (* a file that can be read and written *)
| Denied                       (* a path that cannot be opened *).

Record world : Type := World {
  clock : nat -> pystr;        (* the successive readings of the clock *)
  ticks : nat;                 (* how many readings were taken *)
  log : list (level * pystr);
  files : list (pystr * file)
}.

Definition M (A : Type) : Type := world -> outcome A * world.

Definition ret {A} (a : A) : M A := fun w => (Ok a, w).
Definition raise {A} (c : exn_class) (msg : pystr) : M A :=
  fun w => (Raise (Exn c msg), w).
Definition reraise {A} (e : exn) : M A := fun w => (Raise e, w).
Definition bind {A B} (m : M A) (k : A -> M B) : M B :=
  fun w => match m w with
           | (Ok a, w') => k a w'
           | (Raise e, w') => (Raise e, w')
           end.
(** The [except] clauses of a [try]: the first clause one of whose classes
    the exception is an instance of handles it. *)
Definition clause (A : Type) : Type := (list exn_class * (exn -> M A))%type.

Fixpoint dispatch {A} (e : exn) (clauses : list (clause A)) : M A :=
  match clauses with
  | [] => fun w => (Raise e, w)
  | (classes, handler) :: rest =>
      if isinstance_exn e classes then handler e else dispatch e rest
  end.

(** [try: body except ... as e: ...] *)
Definition try_except {A} (body : M A) (clauses : list (clause A)) : M A :=
  fun w => match body w with
           | (Ok a, w') => (Ok a, w')
           | (Raise e, w') => dispatch e clauses w'
           end.
(** Lifting a computation that has no effect but may raise. *)
Definition lift {A} (o : outcome A) : M A := fun w => (o, w).

Declare Scope py_scope.
Delimit Scope py_scope with py_m.
Notation "x <- m ;; k" := (bind m (fun x => k))
  (at level 61, m at next level, right associativity) : py_scope.
Notation "m ;;; k" := (bind m (fun _ => k))
  (at level 61, right associativity) : py_scope.

(** [datetime.now().isoformat()] *)
Definition now_isoformat : M pyval :=
  fun w => (Ok (VStr (clock w (ticks w))),
            World (clock w) (S (ticks w)) (log w) (files w)).

(** [logger.info], [logger.warning], [logger.error] *)
Definition logger (l : level) (msg : pystr) : M unit :=
  fun w => (Ok tt, World (clock w) (ticks w) (log w ++ [(l, msg)]) (files w)).

Fixpoint lookup_file (fs : list (pystr * file)) (name : pystr) : option file :=
  match fs with
  | [] => None
  | (n, f) :: fs' => if str_eqb n name then Some f else lookup_file fs' name
  end.

Fixpoint store_file (fs : list (pystr * file)) (name text : pystr)
    : list (pystr * file) :=
  match fs with
  | [] => [(name, Readable text)]
  | (n, f) :: fs' =>
      if str_eqb n name then (n, Readable text) :: fs'
      else (n, f) :: store_file fs' name text
  end.

(** [with open(filename, 'r') as f: f.read()] *)
Definition read_file (name : pystr) : M pystr :=
  fun w => match lookup_file (files w) name with
           | Some (Readable text) => (Ok text, w)
           | Some Denied =>
               (Raise (Exn PermissionError (py "Permission denied")), w)
           | None =>
               (Raise (Exn FileNotFoundError (py "No such file or directory")), w)
           end.

(** [with open(filename, 'w') as f: f.write(text)] *)
Definition write_file (name text : pystr) : M unit :=
  fun w => match lookup_file (files w) name with
           | Some Denied =>
               (Raise (Exn PermissionError (py "Permission denied")), w)
           | _ => (Ok tt, World (clock w) (ticks w) (log w)
                             (store_file (files w) name text))
           end.

(** ** [str()], [repr()] and [int()] *)

Fixpoint join (sep : pystr) (parts : list pystr) : pystr :=
  match parts with
  | [] => []
  | [p] => p
  | p :: rest => p ++ sep ++ join sep rest
  end.

Section Conversions.
Context {R : PyRuntime}.

(** [s.isdigit()]: not empty, and every character is a digit. *)
Definition str_isdigit (s : pystr) : bool :=
  match s with [] => false | _ => forallb uni_isdigit s end.

Fixpoint py_repr (v : pyval) : pystr :=
  match v with
  | VNone => py "None"
  | VBool true => py "True"
  | VBool false => py "False"
  | VInt z => int_repr z
  | VFloat f => float_repr f
  | VStr s => str_repr s
  | VList l => py "[" ++ join (py ", ") (map py_repr l) ++ py "]"
  | VTuple l =>
      match l with
      | [x] => py "(" ++ py_repr x ++ py ",)"
      | _ => py "(" ++ join (py ", ") (map py_repr l) ++ py ")"
      end
  | VDict d =>
      py "{" ++
      join (py ", ")
        (map (fun kv => let '(k, x) := kv in py_repr k ++ py ": " ++ py_repr x) d)
      ++ py "}"
  | VDatetime _ rep => rep
  | VInstance _ text _ | VOpaque _ text => text
  end.

(** [str(v)], also what an f-string puts for [{v}]. *)
Definition py_str (v : pyval) : pystr :=
  match v with
  | VStr s => s
  | VDatetime iso _ => map (fun c => if c =? 84 then 32 else c) iso
  | _ => py_repr v
  end.

(** The digits of [int(s)]: decimal characters, single underscores
    between them. *)
Fixpoint int_digits (s : pystr) (acc : N) (after_digit : bool) : option N :=
  match s with
  | [] => if after_digit then Some acc else None
  | c :: s' =>
      if c =? 95 then
        if after_digit then int_digits s' acc false else None
      else match uni_decimal c with
           | Some d => int_digits s' (10 * acc + d) true
           | None => None
           end
  end.

(** [int(s)] for a text, base ten: white space around, an optional sign,
    digits. *)
Definition int_of_str (s : pystr) : outcome Z :=
  let bad := Raise (Exn ValueError
               (py "invalid literal for int() with base 10: " ++ str_repr s)) in
  let '(negative, digits) :=
    match strip s with
    | c :: t => if c =? 45 then (true, t)
                else if c =? 43 then (false, t)
                else (false, c :: t)
    | [] => (false, [])
    end in
  match int_digits digits 0 false with
  | Some n => Ok (if negative then - Z.of_N n else Z.of_N n)%Z
  | None => bad
  end.

(** [int(f)] for a float: truncation towards zero. *)
Definition int_of_float (f : spec_float) : outcome Z :=
  match f with
  | S754_zero _ => Ok 0%Z
  | S754_nan =>
      Raise (Exn ValueError (py "cannot convert float NaN to integer"))
  | S754_infinity _ =>
      Raise (Exn OverflowError (py "cannot convert float infinity to integer"))
  | S754_finite sg m e =>
      let mag := match e with
                 | Z0 => Zpos m
                 | Zpos k => Z.shiftl (Zpos m) (Zpos k)
                 | Zneg k => Z.shiftr (Zpos m) (Zpos k)
                 end in
      Ok (if sg then - mag else mag)%Z
  end.

(** [int(v)] *)
Definition py_int (v : pyval) : outcome pyval :=
  match v with
  | VInt z => Ok (VInt z)
  | VBool b => Ok (VInt (if b then 1 else 0))
  | VStr s => match int_of_str s with Ok z => Ok (VInt z) | Raise e => Raise e end
  | VFloat f => match int_of_float f with Ok z => Ok (VInt z) | Raise e => Raise e end
  | _ => Raise (Exn TypeError
           (py "int() argument must be a string, a bytes-like object or a real number, not '"
            ++ type_name v ++ py "'"))
  end.
End Conversions.

(** ** [json.dumps] *)

Definition hex_digit (d : N) : N := if d <? 10 then 48 + d else 87 + d.

(** [hex(n)] on four lower-case digits, as in a [\uXXXX] escape. *)
Definition hex4 (n : N) : pystr :=
  [hex_digit (n / 4096 mod 16); hex_digit (n / 256 mod 16);
   hex_digit (n / 16 mod 16); hex_digit (n mod 16)].

(** The replacement of one character inside a JSON string
    ([ESCAPE_DCT], and [ESCAPE_ASCII] when [ensure_ascii] holds). *)
Definition escape_char (ensure_ascii : bool) (c : N) : pystr :=
  if c =? 34 then [92; 34]
  else if c =? 92 then [92; 92]
  else if c =? 10 then [92; 110]
  else if c =? 13 then [92; 114]
  else if c =? 9 then [92; 116]
  else if c =? 8 then [92; 98]
  else if c =? 12 then [92; 102]
  else if c <? 32 then 92 :: 117 :: hex4 c
  else if ensure_ascii && (126 <? c) then
    if c <? 65536 then 92 :: 117 :: hex4 c
    else let v := c - 65536 in
         (92 :: 117 :: hex4 (55296 + v / 1024)) ++
         (92 :: 117 :: hex4 (56320 + v mod 1024))
  else [c].

Definition encode_str (ensure_ascii : bool) (s : pystr) : pystr :=
  34 :: flat_map (escape_char ensure_ascii) s ++ [34].

(** The hook passed as [default=] by [serialize_user_profile]. *)
Definition _json_serializer (obj : pyval) : outcome pyval :=
  match obj with
  | VDatetime iso _ => Ok (VStr iso)
  | VInstance _ _ attrs => Ok (VDict attrs)
  | _ => Raise (Exn TypeError
           (py "Object of type <class '" ++ type_name obj
            ++ py "'> is not JSON serializable"))
  end.

Section Encoder.
Context {R : PyRuntime}.
(** [indent], [ensure_ascii], and whether [default=_json_serializer]. *)
Variables (indent : option nat) (ensure_ascii custom : bool).

Definition floatstr (f : spec_float) : pystr :=
  match f with
  | S754_nan => py "NaN"
  | S754_infinity false => py "Infinity"
  | S754_infinity true => py "-Infinity"
  | _ => float_repr f
  end.

Definition newline_indent (lvl : nat) : pystr :=
  match indent with
  | Some n => 10 :: repeat 32 (n * lvl)
  | None => []
  end.

Definition item_separator : pystr :=
  match indent with Some _ => [44] | None => [44; 32] end.

Definition key_separator : pystr := [58; 32].

(** The text a dictionary key is written as. *)
Definition key_text (k : pyval) : outcome pystr :=
  match k with
  | VStr s => Ok s
  | VFloat f => Ok (floatstr f)
  | VBool true => Ok (py "true")
  | VBool false => Ok (py "false")
  | VNone => Ok (py "null")
  | VInt z => Ok (int_repr z)
  | _ => Raise (Exn TypeError
           (py "keys must be str, int, float, bool or None, not " ++ type_name k))
  end.

Definition encode_elems (enc : pyval -> outcome pystr)
    : list pyval -> outcome (list pystr) :=
  fix elems (l : list pyval) : outcome (list pystr) :=
    match l with
    | [] => Ok []
    | x :: l' =>
        match enc x with
        | Raise e => Raise e
        | Ok t => match elems l' with
                  | Raise e => Raise e
                  | Ok ts => Ok (t :: ts)
                  end
        end
    end.

Definition encode_items (enc : pyval -> outcome pystr)
    : list (pyval * pyval) -> outcome (list pystr) :=
  fix items (d : list (pyval * pyval)) : outcome (list pystr) :=
    match d with
    | [] => Ok []
    | (k, x) :: d' =>
        match key_text k with
        | Raise e => Raise e
        | Ok kt =>
            match enc x with
            | Raise e => Raise e
            | Ok t => match items d' with
                      | Raise e => Raise e
                      | Ok ts =>
                          Ok ((encode_str ensure_ascii kt ++ key_separator ++ t) :: ts)
                      end
            end
        end
    end.

(** A container's text from the texts of its entries. *)
Definition bracket (opening closing : N) (lvl : nat) (parts : list pystr)
    : pystr :=
  match parts with
  | [] => [opening; closing]
  | _ => opening :: newline_indent (S lvl)
         ++ join (item_separator ++ newline_indent (S lvl)) parts
         ++ newline_indent lvl ++ [closing]
  end.

Definition not_serializable {A} (v : pyval) : outcome A :=
  if custom then
    Raise (Exn TypeError
      (py "Object of type <class '" ++ type_name v
       ++ py "'> is not JSON serializable"))
  else
    Raise (Exn TypeError
      (py "Object of type " ++ type_name v ++ py " is not JSON serializable")).

(** [_iterencode], at nesting level [lvl]. An object the encoder does not
    know goes to the [default] hook and the hook's result is encoded in
    its place (see [encode_default]). *)
Fixpoint encode (lvl : nat) (v : pyval) {struct v} : outcome pystr :=
  match v with
  | VStr s => Ok (encode_str ensure_ascii s)
  | VNone => Ok (py "null")
  | VBool true => Ok (py "true")
  | VBool false => Ok (py "false")
  | VInt z => Ok (int_repr z)
  | VFloat f => Ok (floatstr f)
  | VList l | VTuple l =>
      match encode_elems (encode (S lvl)) l with
      | Raise e => Raise e
      | Ok parts => Ok (bracket 91 93 lvl parts)
      end
  | VDict d =>
      match encode_items (encode (S lvl)) d with
      | Raise e => Raise e
      | Ok parts => Ok (bracket 123 125 lvl parts)
      end
  | VDatetime iso _ =>
      if custom then Ok (encode_str ensure_ascii iso) else not_serializable v
  | VInstance _ _ attrs =>
      if custom then
        match encode_items (encode (S lvl)) attrs with
        | Raise e => Raise e
        | Ok parts => Ok (bracket 123 125 lvl parts)
        end
      else not_serializable v
  | VOpaque _ _ => not_serializable v
  end.
End Encoder.

(** [json.dumps(v)] *)
Definition json_dumps {R : PyRuntime} (v : pyval) : outcome pystr :=
  encode None true false 0 v.

(** [json.dumps(v, indent=2, ensure_ascii=False, default=_json_serializer)] *)
Definition json_dumps_profile {R : PyRuntime} (v : pyval) : outcome pystr :=
  encode (Some 2%nat) false true 0 v.

(** ** [json.loads]

    The scanner of the [json] module, on the text that remains to be read.
    Error messages are given without the position the module appends. The
    recursion of the scanner is bounded by fuel; [json_loads] gives it more
    fuel than the text has characters, which is enough ([scan_once_fuel]
    below). The interpreter's own limits (recursion depth, the optional
    limit on the digits of an integer literal) are not modelled. *)

Inductive pres (A : Type) : Type :=
| POk (a : A) (rest : pystr)
| PErr (msg : pystr)
| PFuel.
Arguments POk {A} a rest.
Arguments PErr {A} msg.
Arguments PFuel {A}.

Definition is_json_ws (c : N) : bool :=
  (c =? 32) || (c =? 9) || (c =? 10) || (c =? 13).

Fixpoint skip_ws (s : pystr) : pystr :=
  match s with
  | c :: s' => if is_json_ws c then skip_ws s' else s
  | [] => []
  end.

(** [s] without the prefix [p], when it starts with [p]. *)
Fixpoint strip_prefix (p s : pystr) : option pystr :=
  match p, s with
  | [], _ => Some s
  | x :: p', y :: s' => if x =? y then strip_prefix p' s' else None
  | _ :: _, [] => None
  end.

Definition hex_value (c : N) : option N :=
  if is_ascii_digit c then Some (c - 48)
  else if (97 <=? c) && (c <=? 102) then Some (c - 87)
  else if (65 <=? c) && (c <=? 70) then Some (c - 55)
  else None.

Definition hex4_value (a b c d : N) : option N :=
  match hex_value a, hex_value b, hex_value c, hex_value d with
  | Some x, Some y, Some z, Some t => Some (((x * 16 + y) * 16 + z) * 16 + t)
  | _, _, _, _ => None
  end.

(** The character a backslash escape other than [\u] stands for. *)
Definition unescape (c : N) : option N :=
  if c =? 34 then Some 34
  else if c =? 92 then Some 92
  else if c =? 47 then Some 47
  else if c =? 98 then Some 8
  else if c =? 102 then Some 12
  else if c =? 110 then Some 10
  else if c =? 114 then Some 13
  else if c =? 116 then Some 9
  else None.

Definition is_high_surrogate (u : N) : bool := (55296 <=? u) && (u <=? 56319).
Definition is_low_surrogate (u : N) : bool := (56320 <=? u) && (u <=? 57343).
Definition join_surrogates (hi lo : N) : N :=
  65536 + ((hi - 55296) * 1024 + (lo - 56320)).

Definition push (c : N) (r : pres pystr) : pres pystr :=
  match r with
  | POk s rest => POk (c :: s) rest
  | other => other
  end.

(** [scanstring], after the opening quote, in strict mode. *)
Fixpoint scanstring (s : pystr) : pres pystr :=
  match s with
  | [] => PErr (py "Unterminated string starting at")
  | c :: s1 =>
      if c =? 34 then POk [] s1
      else if c =? 92 then
        match s1 with
        | [] => PErr (py "Unterminated string starting at")
        | e :: s2 =>
            if e =? 117 then
              match s2 with
              | a :: b :: c' :: d :: s3 =>
                  match hex4_value a b c' d with
                  | None => PErr (py "Invalid \uXXXX escape")
                  | Some u =>
                      match s3 with
                      | bs :: uc :: h1 :: h2 :: h3 :: h4 :: s4 =>
                          if is_high_surrogate u && (bs =? 92) && (uc =? 117) then
                            match hex4_value h1 h2 h3 h4 with
                            | None => PErr (py "Invalid \uXXXX escape")
                            | Some u2 =>
                                if is_low_surrogate u2
                                then push (join_surrogates u u2) (scanstring s4)
                                else push u (scanstring s3)
                            end
                          else push u (scanstring s3)
                      | _ => push u (scanstring s3)
                      end
                  end
              | _ => PErr (py "Invalid \uXXXX escape")
              end
            else match unescape e with
                 | Some ch => push ch (scanstring s2)
                 | None => PErr (py "Invalid \escape")
                 end
        end
      else if c <? 32 then PErr (py "Invalid control character at")
      else push c (scanstring s1)
  end.

(** The longest prefix of ASCII digits, and what follows it. *)
Fixpoint span_digits (s : pystr) : pystr * pystr :=
  match s with
  | c :: s' =>
      if is_ascii_digit c
      then let '(ds, rest) := span_digits s' in (c :: ds, rest)
      else ([], s)
  | [] => ([], [])
  end.

Definition digits_uint (ds : pystr) : uint := fold_right uint_cons Nil ds.

(** [s.startswith('\ufeff')] *)
Definition has_bom (s : pystr) : bool :=
  match s with
  | c :: _ => c =? 65279
  | [] => false
  end.

(** The optional minus sign of a number. *)
Definition scan_sign (s : pystr) : bool * pystr :=
  match s with
  | c :: t => if c =? 45 then (true, t) else (false, s)
  | [] => (false, s)
  end.

(** The integer part of a number: [0], or a digit from 1 to 9 and the
    digits after it. *)
Definition scan_integer (s : pystr) : option (pystr * pystr) :=
  match s with
  | c :: s' =>
      if c =? 48 then Some ([c], s')
      else if is_ascii_digit c
      then let '(ds, rest) := span_digits s' in Some (c :: ds, rest)
      else None
  | [] => None
  end.

(** The fraction: a point and at least one digit, or nothing. *)
Definition scan_fraction (s : pystr) : pystr * pystr :=
  match s with
  | c :: r =>
      if c =? 46 then
        match span_digits r with
        | ([], _) => ([], s)
        | (fd, rest) => (c :: fd, rest)
        end
      else ([], s)
  | [] => ([], s)
  end.

(** The exponent: [e] or [E], an optional sign and at least one digit, or
    nothing. *)
Definition scan_exponent (s : pystr) : pystr * pystr :=
  match s with
  | c :: r =>
      if (c =? 101) || (c =? 69) then
        let '(sg, r') :=
          match r with
          | x :: t => if (x =? 43) || (x =? 45) then ([x], t) else ([], r)
          | [] => ([], r)
          end in
        match span_digits r' with
        | ([], _) => ([], s)
        | (ed, rest) => (c :: sg ++ ed, rest)
        end
      else ([], s)
  | [] => ([], s)
  end.

Section Decoder.
Context {R : PyRuntime}.

(** [_match_number]: an integer part, then an optional fraction and an
    optional exponent, each kept only when it has a digit. [None] is the
    scanner's [StopIteration]. *)
Definition match_number (s : pystr) : option (pyval * pystr) :=
  let '(neg, s1) := scan_sign s in
  match scan_integer s1 with
  | None => None
  | Some (ichars, r1) =>
      let '(frac, r2) := scan_fraction r1 in
      let '(expo, r3) := scan_exponent r2 in
      match frac, expo with
      | [], [] =>
          let n := Z.of_N (N.of_uint (digits_uint ichars)) in
          Some (VInt (if neg then - n else n)%Z, r3)
      | _, _ =>
          let lexeme := (if neg then [45] else []) ++ ichars ++ frac ++ expo in
          Some (VFloat (float_of_literal lexeme), r3)
      end
  end.

(** [JSONObject], at the position of a key. *)
Fixpoint parse_object (scan : pystr -> pres pyval) (n : nat) (acc : dict)
    (s : pystr) : pres pyval :=
  match n with
  | O => PFuel
  | S n' =>
      match s with
      | c :: s1 =>
          if c =? 34 then
            match scanstring s1 with
            | POk key s2 =>
                match skip_ws s2 with
                | c2 :: s3 =>
                    if c2 =? 58 then
                      match scan (skip_ws s3) with
                      | POk v s4 =>
                          let acc' := dict_setitem acc (VStr key) v in
                          match skip_ws s4 with
                          | c3 :: s5 =>
                              if c3 =? 125 then POk (VDict acc') s5
                              else if c3 =? 44
                              then parse_object scan n' acc' (skip_ws s5)
                              else PErr (py "Expecting ',' delimiter")
                          | [] => PErr (py "Expecting ',' delimiter")
                          end
                      | PErr m => PErr m
                      | PFuel => PFuel
                      end
                    else PErr (py "Expecting ':' delimiter")
                | [] => PErr (py "Expecting ':' delimiter")
                end
            | PErr m => PErr m
            | PFuel => PFuel
            end
          else PErr (py "Expecting property name enclosed in double quotes")
      | [] => PErr (py "Expecting property name enclosed in double quotes")
      end
  end.

(** [JSONArray], at the position of an element. *)
Fixpoint parse_array (scan : pystr -> pres pyval) (n : nat)
    (acc : list pyval) (s : pystr) : pres pyval :=
  match n with
  | O => PFuel
  | S n' =>
      match scan s with
      | POk v s1 =>
          match skip_ws s1 with
          | c :: s2 =>
              if c =? 93 then POk (VList (acc ++ [v])) s2
              else if c =? 44
              then parse_array scan n' (acc ++ [v]) (skip_ws s2)
              else PErr (py "Expecting ',' delimiter")
          | [] => PErr (py "Expecting ',' delimiter")
          end
      | PErr m => PErr m
      | PFuel => PFuel
      end
  end.

Definition constant (word : pystr) (v : pyval) (s : pystr)
    (otherwise : option (pyval * pystr)) : option (pyval * pystr) :=
  match strip_prefix word s with
  | Some rest => Some (v, rest)
  | None => otherwise
  end.

(** [scan_once] *)
Fixpoint scan_once (fuel : nat) (s : pystr) : pres pyval :=
  match fuel with
  | O => PFuel
  | S n =>
      match s with
      | [] => PErr (py "Expecting value")
      | c :: s' =>
          if c =? 34 then
            match scanstring s' with
            | POk t rest => POk (VStr t) rest
            | PErr m => PErr m
            | PFuel => PFuel
            end
          else if c =? 123 then
            match skip_ws s' with
            | c1 :: s1 =>
                if c1 =? 125 then POk (VDict []) s1
                else parse_object (scan_once n) n [] (c1 :: s1)
            | [] => PErr (py "Expecting property name enclosed in double quotes")
            end
          else if c =? 91 then
            match skip_ws s' with
            | c1 :: s1 =>
                if c1 =? 93 then POk (VList []) s1
                else parse_array (scan_once n) n [] (c1 :: s1)
            | [] => PErr (py "Expecting value")
            end
          else
            let scalar :=
              if c =? 110 then constant (py "null") VNone s None
              else if c =? 116 then constant (py "true") (VBool true) s None
              else if c =? 102 then constant (py "false") (VBool false) s None
              else if c =? 78 then constant (py "NaN") (VFloat S754_nan) s None
              else if c =? 73
              then constant (py "Infinity") (VFloat (S754_infinity false)) s None
              else if c =? 45
              then constant (py "-Infinity") (VFloat (S754_infinity true)) s
                     (match_number s)
              else match_number s in
            match scalar with
            | Some (v, rest) => POk v rest
            | None => PErr (py "Expecting value")
            end
      end
  end.

(** [json.loads(s)] *)
Definition json_loads (s : pystr) : outcome pyval :=
  if has_bom s then
    Raise (Exn JSONDecodeError (py "Unexpected UTF-8 BOM (decode using utf-8-sig)"))
  else
    match scan_once (S (List.length s)) (skip_ws s) with
    | POk v rest =>
        match skip_ws rest with
        | [] => Ok v
        | _ => Raise (Exn JSONDecodeError (py "Extra data"))
        end
    | PErr m => Raise (Exn JSONDecodeError m)
    | PFuel => Raise (Exn Exception (py "maximum recursion depth exceeded"))
    end.
End Decoder.

(** ** [UserProfile] *)

Local Open Scope py_scope.

(** [name] and [email] are text once the validators have passed; [age] is
    an [int], possibly a [bool]; the other attributes hold whatever value
    they were given. *)
Record UserProfile : Type := {
  name : pystr;
  age : pyval;
  email : pystr;
  preferences : pyval;
  created_at : pyval;
  last_updated : pyval
}.

Definition set_preferences (p : UserProfile) (v : pyval) : UserProfile :=
  {| name := name p; age := age p; email := email p; preferences := v;
     created_at := created_at p; last_updated := last_updated p |}.
Definition set_created_at (p : UserProfile) (v : pyval) : UserProfile :=
  {| name := name p; age := age p; email := email p;
     preferences := preferences p;
     created_at := v; last_updated := last_updated p |}.
Definition set_last_updated (p : UserProfile) (v : pyval) : UserProfile :=
  {| name := name p; age := age p; email := email p;
     preferences := preferences p;
     created_at := created_at p; last_updated := v |}.

Definition value_error {A} (msg : string) : outcome A :=
  Raise (Exn ValueError (py msg)).

(** The validators give back the text they have checked, which is how the
    record above gets its typed fields. *)
Definition _validate_name (v : pyval) : outcome pystr :=
  match v with
  | VStr s =>
      if str_eqb (strip s) [] then value_error "Name cannot be empty"
      else if (100 <? List.length s)%nat
      then value_error "Name too long (max 100 characters)"
      else Ok s
  | _ => value_error "Name must be a string"
  end.

Definition _validate_age (v : pyval) : outcome unit :=
  if negb (is_int v) then value_error "Age must be an integer"
  else if (int_value v <? 0)%Z || (150 <? int_value v)%Z
  then value_error "Age must be between 0 and 150"
  else Ok tt.

Definition _validate_email (v : pyval) : outcome pystr :=
  match v with
  | VStr s =>
      if negb (str_contains 64 s) || negb (str_contains 46 s)
      then value_error "Invalid email format"
      else Ok s
  | _ => value_error "Email must be a string"
  end.

(** [UserProfile(name, age, email, preferences)]; a call without
    [preferences] passes [VNone]. *)
Definition __init__ (name_ age_ email_ preferences_ : pyval) : M UserProfile :=
  n <- lift (_validate_name name_) ;;
  lift (_validate_age age_) ;;;
  e <- lift (_validate_email email_) ;;
  stamp <- now_isoformat ;;
  ret {| name := n; age := age_; email := e;
         preferences := if truthy preferences_ then preferences_ else VDict [];
         created_at := stamp;
         last_updated := stamp |}.

Section Profile.
Context {R : PyRuntime}.

(** The loop of [update_preferences] over [new_preferences.items()]. *)
Fixpoint check_preferences (items : dict) : outcome unit :=
  match items with
  | [] => Ok tt
  | (key, value) :: rest =>
      if negb (is_str key)
      then value_error "Preference keys must be strings"
      else match json_dumps value with
           | Ok _ => check_preferences rest
           | Raise e =>
               if isinstance_exn e [TypeError; ValueError] then
                 Raise (Exn ValueError
                   (py "Preference value for '" ++ py_str key
                    ++ py "' is not JSON serializable: " ++ exn_msg e))
               else Raise e
           end
  end.

(** [self.update_preferences(new_preferences)]. The method changes its
    receiver: the result carries the receiver as the call leaves it.
    Among the modelled values only a [dict] has an [update] method. *)
Definition update_preferences (self : UserProfile) (new_preferences : pyval)
    (w : world) : outcome unit * UserProfile * world :=
  match new_preferences with
  | VDict items =>
      match check_preferences items with
      | Raise e => (Raise e, self, w)
      | Ok _ =>
          match preferences self with
          | VDict d =>
              let self1 := set_preferences self (VDict (dict_update d items)) in
              match now_isoformat w with
              | (Ok stamp, w') => (Ok tt, set_last_updated self1 stamp, w')
              | (Raise e, w') => (Raise e, self1, w')
              end
          | other =>
              (Raise (Exn AttributeError
                 (py "'" ++ type_name other
                  ++ py "' object has no attribute 'update'")), self, w)
          end
      end
  | _ => (value_error "Preferences must be a dictionary", self, w)
  end.

Definition to_dict (self : UserProfile) : pyval :=
  VDict [ (VStr (py "name"), VStr (name self));
          (VStr (py "age"), age self);
          (VStr (py "email"), VStr (email self));
          (VStr (py "preferences"), preferences self);
          (VStr (py "created_at"), created_at self);
          (VStr (py "last_updated"), last_updated self);
          (VStr (py "_version"), VStr (py "1.0")) ].

(** [d[k]] *)
Definition dict_getitem (d : dict) (k : pystr) : outcome pyval :=
  match dict_get d k with
  | Some v => Ok v
  | None => Raise (Exn KeyError (str_repr k))
  end.

(** [v[k]] for a text [k] *)
Definition py_getitem (v : pyval) (k : pystr) : outcome pyval :=
  match v with
  | VDict d => dict_getitem d k
  | _ => Raise (Exn TypeError
           (py "'" ++ type_name v ++ py "' object is not subscriptable"))
  end.

(** [v.get(k, dflt)] *)
Definition py_get (v : pyval) (k : pystr) (dflt : pyval) : outcome pyval :=
  match v with
  | VDict d => Ok (dict_get_default d k dflt)
  | _ => Raise (Exn AttributeError
           (py "'" ++ type_name v ++ py "' object has no attribute 'get'"))
  end.

Fixpoint check_required (data : dict) (fields : list pystr) : M unit :=
  match fields with
  | [] => ret tt
  | field :: rest =>
      if negb (dict_has data field)
      then raise DeserializationError (py "Missing required field: " ++ field)
      else check_required data rest
  end.

(** [UserProfile.from_dict(data)] *)
Definition from_dict (data : dict) : M UserProfile :=
  try_except
    (check_required data [py "name"; py "age"; py "email"] ;;;
     name_ <- lift (dict_getitem data (py "name")) ;;
     age_ <- lift (dict_getitem data (py "age")) ;;
     email_ <- lift (dict_getitem data (py "email")) ;;
     profile <- __init__ name_ age_ email_
                  (dict_get_default data (py "preferences") (VDict [])) ;;
     let profile :=
       match dict_get data (py "created_at") with
       | Some v => set_created_at profile v
       | None => profile
       end in
     let profile :=
       match dict_get data (py "last_updated") with
       | Some v => set_last_updated profile v
       | None => profile
       end in
     ret profile)
    [ ([ValueError; TypeError],
       fun e => raise DeserializationError
                  (py "Invalid data in dictionary: " ++ exn_msg e)) ].

(** [if filename:] *)
Definition given (filename : option pystr) : option pystr :=
  match filename with
  | Some f => if str_eqb f [] then None else Some f
  | None => None
  end.

Definition fail_serialization (prefix : string) (e : exn) : M pystr :=
  let error_msg := py prefix ++ exn_msg e in
  logger ERROR error_msg ;;;
  raise SerializationError error_msg.

(** [serialize_user_profile(profile, filename)] *)
Definition serialize_user_profile (profile : UserProfile)
    (filename : option pystr) : M pystr :=
  try_except
    (logger INFO (py "Starting serialization for user: " ++ name profile) ;;;
     let profile_dict := to_dict profile in
     json_data <- lift (json_dumps_profile profile_dict) ;;
     try_except
       (parsed_back <- lift (json_loads json_data) ;;
        n <- lift (py_getitem parsed_back (py "name")) ;;
        if negb (eq_str n (name profile))
        then raise SerializationError
               (py "Data integrity check failed during serialization")
        else ret tt)
       [ ([KeyError; JSONDecodeError],
          fun e => raise SerializationError
                     (py "Serialization integrity check failed: " ++ exn_msg e)) ] ;;;
     match given filename with
     | Some f =>
         try_except
           (write_file f json_data ;;;
            logger INFO (py "Profile successfully saved to: " ++ f))
           [ ([OSError],
              fun e => raise SerializationError
                (py "Failed to write to file '" ++ f ++ py "': " ++ exn_msg e));
             ([PermissionError],
              fun e => raise SerializationError
                (py "Permission denied writing to file '" ++ f ++ py "': "
                 ++ exn_msg e)) ]
     | None => ret tt
     end ;;;
     logger INFO (py "Successfully serialized profile for: " ++ name profile) ;;;
     ret json_data)
    [ ([TypeError; ValueError],
       fail_serialization "Data type error during serialization: ");
      ([AttributeError],
       fail_serialization "Invalid object structure during serialization: ");
      ([Exception],
       fail_serialization "Unexpected error during serialization: ") ].

Definition fail_deserialization (prefix : string) (e : exn) : M UserProfile :=
  let error_msg := py prefix ++ exn_msg e in
  logger ERROR error_msg ;;;
  raise DeserializationError error_msg.

(** [deserialize_user_profile(json_data, filename)] *)
Definition deserialize_user_profile (json_data : pystr)
    (filename : option pystr) : M UserProfile :=
  try_except
    (json_data <-
       match given filename with
       | Some f =>
           try_except
             (text <- read_file f ;;
              logger INFO (py "Successfully read data from: " ++ f) ;;;
              ret text)
             [ ([FileNotFoundError],
                fun _ => raise DeserializationError (py "File not found: " ++ f));
               ([OSError],
                fun e => raise DeserializationError
                  (py "Error reading file '" ++ f ++ py "': " ++ exn_msg e));
               ([PermissionError],
                fun e => raise DeserializationError
                  (py "Permission denied reading file '" ++ f ++ py "': "
                   ++ exn_msg e)) ]
       | None => ret json_data
       end ;;
     if str_eqb json_data []
     then raise DeserializationError
            (py "No JSON data provided for deserialization")
     else
     parsed_data <-
       try_except (lift (json_loads json_data))
         [ ([JSONDecodeError],
            fun e => raise DeserializationError
                       (py "Invalid JSON format: " ++ exn_msg e)) ] ;;
     match parsed_data with
     | VDict data =>
         let version := dict_get_default data (py "_version") (VStr (py "1.0")) in
         (if negb (eq_str version (py "1.0"))
          then logger WARNING
                 (py "Loading data with different schema version: "
                  ++ py_str version)
          else ret tt) ;;;
         profile <- from_dict data ;;
         logger INFO (py "Successfully deserialized profile for: "
                      ++ name profile) ;;;
         ret profile
     | _ => raise DeserializationError
              (py "JSON data must represent a dictionary")
     end)
    [ ([KeyError],
       fail_deserialization "Missing required field in JSON data: ");
      ([ValueError],
       fail_deserialization "Data validation error during deserialization: ");
      ([Exception],
       fail_deserialization "Unexpected error during deserialization: ") ].

(** The [age] argument [backup_deserialization_attempt] builds. *)
Definition backup_age (age_ : pyval) : outcome pyval :=
  if (is_int age_ || is_float age_ || is_str age_) && str_isdigit (py_str age_)
  then py_int age_
  else Ok (VInt 0).

(** [backup_deserialization_attempt(json_data)] *)
Definition backup_deserialization_attempt (json_data : pystr)
    : M (option UserProfile) :=
  try_except
    (logger WARNING (py "Attempting backup deserialization for corrupted data") ;;;
     parsed_data <- lift (json_loads json_data) ;;
     name_ <- lift (py_get parsed_data (py "name") (VStr (py "Unknown User"))) ;;
     age_ <- lift (py_get parsed_data (py "age") (VInt 0)) ;;
     email_ <- lift (py_get parsed_data (py "email")
                       (VStr (py "unknown@example.com"))) ;;
     preferences_ <- lift (py_get parsed_data (py "preferences") (VDict [])) ;;
     age_arg <- lift (backup_age age_) ;;
     profile <- __init__
                  (VStr (if truthy name_ then py_str name_ else py "Unknown User"))
                  age_arg
                  (VStr (if truthy email_ then py_str email_
                         else py "unknown@example.com"))
                  (if is_dict preferences_ then preferences_ else VDict []) ;;
     logger INFO (py "Backup deserialization successful for: " ++ name profile) ;;;
     ret (Some profile))
    [ ([Exception],
       fun e => logger ERROR (py "Backup deserialization failed: " ++ exn_msg e) ;;;
                ret None) ].
End Profile.

(** ** A runtime to run the model on

    The Unicode tables are those of the code points below U+0100 (no other
    character counts as a digit); [repr()] of a text puts it between
    apostrophes; of the floats only the zeros and the infinities are
    written, and only the tokens of the zeros are read, every other float
    token reading as NaN. It serves to evaluate the model on texts without
    other float tokens. *)

#[export, refine] Instance latin1_runtime : PyRuntime := {|
  uni_isdigit := latin1_isdigit;
  uni_decimal := latin1_decimal;
  str_repr := fun s => 39 :: s ++ [39];
  float_of_literal := fun t =>
    if str_eqb t (py "0.0") then S754_zero false
    else if str_eqb t (py "-0.0") then S754_zero true
    else S754_nan;
  float_repr := fun f =>
    match f with
    | S754_zero false => py "0.0"
    | S754_zero true => py "-0.0"
    | S754_infinity false => py "inf"
    | S754_infinity true => py "-inf"
    | _ => py "nan"
    end;
  uni_isdigit_latin1 := fun c _ => eq_refl;
  uni_decimal_latin1 := fun c _ => eq_refl;
  uni_decimal_isdigit := _;
  float_repr_not_digits := _
|}.
Proof.
  - intros c d. unfold latin1_decimal, latin1_isdigit, is_ascii_digit.
    destruct ((48 <=? c) && (c <=? 57)) eqn:E; [|discriminate].
    intros [= <-]. split; [reflexivity|].
    apply andb_prop in E as [E1 E2].
    apply N.leb_le in E1, E2. lia.
  - intros [[]|[]| |]; reflexivity.
Defined.

(** A world to run the examples in: no log, no files, and a clock that
    counts seconds. *)
Definition world0 : world :=
  {| clock := fun n => py "2024-01-01T00:00:0" ++ int_repr (Z.of_nat n);
     ticks := 0; log := []; files := [] |}.

(** * The vocabulary of the properties *)

(** ** Outcomes and worlds *)

Definition succeeds {A} (m : M A) (w : world) : Prop :=
  exists a w', m w = (Ok a, w').

Definition fails_with {A} (c : exn_class) (m : M A) (w : world) : Prop :=
  exists msg w', m w = (Raise (Exn c msg), w').

(** The world after one reading of the clock. *)
Definition tick (w : world) : world :=
  World (clock w) (S (ticks w)) (log w) (files w).

(** The world after one more line of log. *)
Definition logged (l : level) (msg : pystr) (w : world) : world :=
  World (clock w) (ticks w) (log w ++ [(l, msg)]) (files w).

Definition new_profile (n : pystr) (a : pyval) (e : pystr) (p : pyval)
    (w : world) : UserProfile :=
  {| name := n; age := a; email := e;
     preferences := if truthy p then p else VDict [];
     created_at := VStr (clock w (ticks w));
     last_updated := VStr (clock w (ticks w)) |}.

(** A computation whose result is the same in every world. *)
Definition world_independent {A} (m : M A) : Prop :=
  forall w w', fst (m w) = fst (m w').

(** ** Valid fields *)

Definition valid_name (v : pyval) : Prop := exists n, _validate_name v = Ok n.
Definition valid_age (v : pyval) : Prop := _validate_age v = Ok tt.
Definition valid_email (v : pyval) : Prop := exists e, _validate_email v = Ok e.

(** ** Inputs of the examples *)

(** The call of the repository's own scenario named
    "Non-serializable preferences". *)
Definition an_object : pyval :=
  VOpaque (py "object") (py "<object object at 0x7f3a5c0b4e50>").

Definition scenario_preferences : pyval :=
  VDict [(VStr (py "complex_obj"), an_object)].

Definition documented_corrupted : pystr :=
  jtext "{'name': 'John', 'age': 'invalid', 'email': 'john@example.com', 'preferences': {}}".

(** The same record with the one-character age U+00B2, superscript two. *)
Definition superscript_age : pystr :=
  jtext "{'name': 'John', 'age': '" ++ [178]
  ++ jtext "', 'email': 'john@example.com', 'preferences': {}}".

Definition stale_record : pystr :=
  jtext "{'name': 'Ann', 'age': 30, 'email': 'ann@example.com', 'created_at': '2025-06-01T12:00:00', 'last_updated': '2020-01-01T08:30:00'}".

(** A profile whose preferences hold a [datetime], which
    [_json_serializer] writes as its [isoformat()] text. *)
Definition since_preferences : pyval :=
  VDict [(VStr (py "since"),
          VDatetime (py "2024-05-01T09:30:00")
                    (py "datetime.datetime(2024, 5, 1, 9, 30)"))].

(** ** Recovery and decoding *)

Section Vocabulary.
Context {R : PyRuntime}.

(** The arguments [backup_deserialization_attempt] passes to the
    constructor, for a parsed record [d]. *)
Definition recovered_name (d : dict) : pyval :=
  let name_ := dict_get_default d (py "name") (VStr (py "Unknown User")) in
  VStr (if truthy name_ then py_str name_ else py "Unknown User").

Definition recovered_email (d : dict) : pyval :=
  let email_ := dict_get_default d (py "email") (VStr (py "unknown@example.com")) in
  VStr (if truthy email_ then py_str email_ else py "unknown@example.com").

Definition recovered_preferences (d : dict) : pyval :=
  let preferences_ := dict_get_default d (py "preferences") (VDict []) in
  if is_dict preferences_ then preferences_ else VDict [].

Definition raw_age (d : dict) : pyval := dict_get_default d (py "age") (VInt 0).

Definition warned (w : world) : world :=
  logged WARNING (py "Attempting backup deserialization for corrupted data") w.

Definition recovery_failed (e : exn) (w : world) : world :=
  logged ERROR (py "Backup deserialization failed: " ++ exn_msg e) w.

(** The timestamps [from_dict] restores from the record. *)
Definition restore_metadata (d : dict) (P : UserProfile) : UserProfile :=
  let P1 := match dict_get d (py "created_at") with
            | Some v => set_created_at P v
            | None => P
            end in
  match dict_get d (py "last_updated") with
  | Some v => set_last_updated P1 v
  | None => P1
  end.

(** The world after the check of the schema version. *)
Definition version_checked (d : dict) (w : world) : world :=
  let version := dict_get_default d (py "_version") (VStr (py "1.0")) in
  if negb (eq_str version (py "1.0"))
  then logged WARNING
         (py "Loading data with different schema version: " ++ py_str version) w
  else w.
End Vocabulary.

(** [last_updated >= created_at], for timestamps that are texts. *)
Definition stamps_ordered (P : UserProfile) : Prop :=
  match created_at P, last_updated P with
  | VStr c, VStr u => str_le c u = true
  | _, _ => False
  end.

(** The timestamp a decoded profile gets for a key of the record: the
    stored value, or the reading of the clock. *)
Definition decoded_stamp (d : dict) (key : pystr) (w : world) : pyval :=
  match dict_get d key with
  | Some v => v
  | None => VStr (clock w (ticks w))
  end.

(** ** Values and texts of the interchange format *)

Fixpoint keys_distinct (d : dict) : bool :=
  match d with
  | [] => true
  | (k, _) :: d' =>
      negb (existsb (fun kv => key_eqb k (fst kv)) d') && keys_distinct d'
  end.

(** The values that are written and read back as they are: [None],
    booleans, integers, floats, texts, lists of such values, and
    dictionaries of such values under distinct text keys. *)
Fixpoint plain (v : pyval) : bool :=
  match v with
  | VNone | VBool _ | VInt _ | VFloat _ | VStr _ => true
  | VList l => forallb plain l
  | VDict d =>
      forallb (fun kv => let '(k, x) := kv in is_str k && plain x) d
      && keys_distinct d
  | _ => false
  end.

(** The floats a value holds, keys apart. *)
Fixpoint floats (v : pyval) : list spec_float :=
  match v with
  | VFloat f => [f]
  | VList l | VTuple l => flat_map floats l
  | VDict d | VInstance _ _ d =>
      flat_map (fun kv => let '(_, x) := kv in floats x) d
  | _ => []
  end.

(** A text that is, whole, a number of the JSON grammar with a fraction or
    an exponent: the tokens the scanner reads as a float. *)
Definition float_token (t : pystr) : bool :=
  let '(_, s1) := scan_sign t in
  match scan_integer s1 with
  | None => false
  | Some (_, r1) =>
      let '(frac, r2) := scan_fraction r1 in
      let '(expo, r3) := scan_exponent r2 in
      match r3 with
      | [] => match frac, expo with [], [] => false | _, _ => true end
      | _ :: _ => false
      end
  end.

(** What Python promises of a float other than NaN: [repr] writes it as
    such a token, and [float] reads the token back as the same float
    ([float(repr(x)) == x]); the infinities are written and read as the
    words [Infinity] and [-Infinity]. NaN is left out: what is read back is
    NaN again, and no NaN is equal to another. *)
Definition float_reads_back {R : PyRuntime} (f : spec_float) : Prop :=
  match f with
  | S754_nan => False
  | S754_infinity _ => True
  | _ => float_token (float_repr f) = true /\
         float_of_literal (float_repr f) = f
  end.

(** A bound on the fuel the scanner needs for a value. *)
Fixpoint size (v : pyval) : nat :=
  match v with
  | VList l => S (list_sum (map size l) + List.length l)
  | VDict d =>
      S (list_sum (map (fun kv => let '(_, x) := kv in size x) d) + List.length d)
  | _ => 1
  end.

(** What follows a value in the encoder's output: nothing, a comma or a
    line break. *)
Definition ends_token (rest : pystr) : Prop :=
  match rest with
  | [] => True
  | c :: _ => c = 44 \/ c = 10
  end.

(** The first character of a value's text: no white space, no closing
    bracket, no byte order mark. *)
Definition starts_value (t : pystr) : Prop :=
  match t with
  | [] => False
  | c :: _ => is_json_ws c = false /\ c <> 93 /\ c <> 125 /\ c <> 65279
  end.

Definition number_start (s : pystr) : Prop :=
  match s with
  | [] => False
  | c :: s' =>
      is_ascii_digit c = true \/
      (c = 45 /\ match s' with
                 | c' :: _ => is_ascii_digit c' = true
                 | [] => False
                 end)
  end.

Section ReadingBack.
Context {R : PyRuntime}.
Variable n : nat.
Variable scan : pystr -> pres pyval.

(** A value [x] with its text [t]: the scanner at hand reads [t] back. *)
Definition scans_back (x : pyval) (t : pystr) : Prop :=
  starts_value t /\
  forall rest, ends_token rest -> scan (t ++ rest) = POk x rest.

(** An entry of a dictionary with its text. *)
Definition entry_scans_back (kv : pyval * pyval) (part : pystr) : Prop :=
  exists k t,
    fst kv = VStr k /\ part = encode_str false k ++ key_separator ++ t /\
    scans_back (snd kv) t.

(** The text of [x] at some level is [t], and every scanner with enough
    fuel reads it back. *)
Definition read_back (x : pyval) (t : pystr) : Prop :=
  starts_value t /\ (size x <= List.length t)%nat /\
  forall fuel rest,
    (size x < fuel)%nat -> ends_token rest ->
    scan_once fuel (t ++ rest) = POk x rest.

Definition reads_back (v : pyval) : Prop :=
  forall lvl, exists t, encode (Some n) false true lvl v = Ok t /\ read_back v t.
End ReadingBack.

(** The number a text of ASCII digits writes. *)
Definition decimal_value (s : pystr) : N :=
  fold_left (fun acc c => 10 * acc + (c - 48)) s 0.

(** What a scanner must do for the loops over it to end. *)
Definition consumes (bound : nat) (scan : pystr -> pres pyval) : Prop :=
  forall s, (List.length s < bound)%nat ->
    scan s <> PFuel /\
    forall v rest, scan s = POk v rest ->
                   (List.length rest < List.length s)%nat.

(** * The vocabulary of the further properties *)

(** ** Decoding *)

(** What [deserialize_user_profile] puts in front of the message of an
    exception that leaves its body. *)
Definition unexpected_decoding : pystr :=
  py "Unexpected error during deserialization: ".

(** How the three clauses that close [deserialize_user_profile] start
    their messages. *)
Definition decoding_prefixes : list pystr :=
  [ py "Missing required field in JSON data: ";
    py "Data validation error during deserialization: ";
    unexpected_decoding ].

Definition required_fields : list pystr := [py "name"; py "age"; py "email"].

(** The first required field a record lacks. *)
Definition first_missing (d : dict) : option pystr :=
  find (fun f => negb (dict_has d f)) required_fields.

(** The line of log an unknown schema version leaves. *)
Definition version_warning {R : PyRuntime} (d : dict) : list (level * pystr) :=
  let version := dict_get_default d (py "_version") (VStr (py "1.0")) in
  if eq_str version (py "1.0") then []
  else [(WARNING,
         py "Loading data with different schema version: " ++ py_str version)].

(** A text that parses to a record with a valid name, age and email. *)
Definition decodable {R : PyRuntime} (text : pystr) : Prop :=
  exists d n a e,
    json_loads text = Ok (VDict d) /\
    dict_get d (py "name") = Some n /\ valid_name n /\
    dict_get d (py "age") = Some a /\ valid_age a /\
    dict_get d (py "email") = Some e /\ valid_email e.

(** ** Profiles *)

(** The constraints on the fields of a profile: a name, an age and an
    email that the validators accept, and preferences that are truthy or
    the empty mapping. *)
Definition well_formed (P : UserProfile) : Prop :=
  valid_name (VStr (name P)) /\ valid_age (age P) /\
  valid_email (VStr (email P)) /\
  (truthy (preferences P) = true \/ preferences P = VDict []).

(** The values of Python's own types, whose attributes are known: all but
    the objects of other classes. Of these only a [dict] has an [update]
    method. *)
Definition builtin (v : pyval) : bool :=
  match v with
  | VInstance _ _ _ | VOpaque _ _ => false
  | _ => true
  end.

(** An entry [update_preferences] lets through: a text key and a value
    [json.dumps] accepts. *)
Definition acceptable_entry {R : PyRuntime} (kv : pyval * pyval) : Prop :=
  is_str (fst kv) = true /\ exists t, json_dumps (snd kv) = Ok t.

(** The profile a successful [update_preferences] leaves, in a world [w],
    when the preferences were the mapping [d]. *)
Definition updated (self : UserProfile) (d items : dict) (w : world)
    : UserProfile :=
  set_last_updated (set_preferences self (VDict (dict_update d items)))
    (VStr (clock w (ticks w))).

(** ** Files *)

(** A plain file name, one that every file system holds: printable ASCII
    characters, no slash, 255 at most. *)
Definition simple_name (f : pystr) : bool :=
  match f with [] => false | _ => true end
  && (List.length f <=? 255)%nat
  && forallb (fun c => (32 <=? c) && (c <? 127) && negb (c =? 47)) f.

(** A name [open] can write to: not one of the files that deny access. *)
Definition writable (w : world) (f : pystr) : Prop :=
  lookup_file (files w) f <> Some Denied.

(** ** Encoding *)

Definition unexpected_encoding : pystr :=
  py "Unexpected error during serialization: ".

(** The lines a successful [serialize_user_profile] adds to the log. *)
Definition serialization_log (P : UserProfile) (filename : option pystr)
    : list (level * pystr) :=
  [(INFO, py "Starting serialization for user: " ++ name P)]
  ++ match given filename with
     | Some f => [(INFO, py "Profile successfully saved to: " ++ f)]
     | None => []
     end
  ++ [(INFO, py "Successfully serialized profile for: " ++ name P)].

(** The files after a text has been written under a name. *)
Definition written (filename : option pystr) (text : pystr)
    (fs : list (pystr * file)) : list (pystr * file) :=
  match given filename with
  | Some f => store_file fs f text
  | None => fs
  end.

Section EncodingSteps.
Context {R : PyRuntime}.

(** The round-trip validation, step 3 of [serialize_user_profile]. *)
Definition integrity_check (P : UserProfile) (json_data : pystr) : M unit :=
  try_except
    (parsed_back <- lift (json_loads json_data) ;;
     n <- lift (py_getitem parsed_back (py "name")) ;;
     if negb (eq_str n (name P))
     then raise SerializationError
            (py "Data integrity check failed during serialization")
     else ret tt)
    [ ([KeyError; JSONDecodeError],
       fun e => raise SerializationError
                  (py "Serialization integrity check failed: " ++ exn_msg e)) ].

(** The clauses that close [serialize_user_profile]. *)
Definition serialization_clauses : list (clause pystr) :=
  [ ([TypeError; ValueError],
     fail_serialization "Data type error during serialization: ");
    ([AttributeError],
     fail_serialization "Invalid object structure during serialization: ");
    ([Exception],
     fail_serialization "Unexpected error during serialization: ") ].

(** The world in which [serialize_user_profile] does its work. *)
Definition started (P : UserProfile) (w : world) : world :=
  logged INFO (py "Starting serialization for user: " ++ name P) w.

(** The world a successful [serialize_user_profile] leaves. *)
Definition serialized (P : UserProfile) (filename : option pystr)
    (text : pystr) (w : world) : world :=
  World (clock w) (ticks w) (log w ++ serialization_log P filename)
    (written filename text (files w)).
End EncodingSteps.

(** ** Recovery *)

Section RecoveryVocabulary.
Context {R : PyRuntime}.

(** The age the recovery gives a record whose age strict decoding accepts:
    an integer as it is, a boolean as zero. *)
Definition recovered_valid_age (a : pyval) : pyval :=
  match a with
  | VInt z => VInt z
  | _ => VInt 0
  end.

(** The world a successful recovery of a profile leaves. *)
Definition recovered (P : UserProfile) (w : world) : world :=
  logged INFO (py "Backup deserialization successful for: " ++ name P)
    (tick (warned w)).
End RecoveryVocabulary.

(** ** What [json.loads] makes of an encoded value *)

(** The keys the encoder writes without a float conversion. *)
Definition is_key (k : pyval) : bool :=
  match k with
  | VStr _ | VInt _ | VBool _ | VNone => true
  | _ => false
  end.

(** The text such a key is written as (see [key_text]). *)
Definition key_name (k : pyval) : pystr :=
  match k with
  | VStr s => s
  | VBool true => py "true"
  | VBool false => py "false"
  | VNone => py "null"
  | VInt z => int_repr z
  | _ => []
  end.

Fixpoint names_distinct (l : list pystr) : bool :=
  match l with
  | [] => true
  | s :: l' => negb (existsb (str_eqb s) l') && names_distinct l'
  end.

(** The values [serialize_user_profile] writes to a text that reads as one
    value only: no float, no object without a [__dict__], and in every
    mapping keys whose texts differ. *)
Fixpoint portable (v : pyval) : bool :=
  match v with
  | VNone | VBool _ | VInt _ | VStr _ | VDatetime _ _ => true
  | VList l | VTuple l => forallb portable l
  | VDict d | VInstance _ _ d =>
      forallb (fun kv => let '(k, x) := kv in is_key k && portable x) d
      && names_distinct (map (fun kv => key_name (fst kv)) d)
  | VFloat _ | VOpaque _ _ => false
  end.

(** The value that comes back: a tuple as a list, a key as its text, a
    [datetime] as its [isoformat()] text, an object as the mapping of its
    attributes. *)
Fixpoint jsonify (v : pyval) : pyval :=
  match v with
  | VList l | VTuple l => VList (map jsonify l)
  | VDict d | VInstance _ _ d =>
      VDict (map (fun kv => let '(k, x) := kv in (VStr (key_name k), jsonify x)) d)
  | VDatetime iso _ => VStr iso
  | _ => v
  end.

(** The profile that comes back from the text of a profile. *)
Definition read_profile (P : UserProfile) : UserProfile :=
  {| name := name P; age := age P; email := email P;
     preferences := if truthy (jsonify (preferences P))
                    then jsonify (preferences P) else VDict [];
     created_at := jsonify (created_at P);
     last_updated := jsonify (last_updated P) |}.

Section ComingBack.
Context {R : PyRuntime}.
Variable n : nat.

(** A portable value has a text, at every level, and the scanner reads the
    text back as the value [jsonify] gives. *)
Definition comes_back (v : pyval) : Prop :=
  portable v = true ->
  forall lvl, exists t,
    encode (Some n) false true lvl v = Ok t /\ read_back (jsonify v) t.
End ComingBack.

(** ** What a call leaves alone *)

(** A computation that leaves the files as they are, whatever it returns. *)
Definition keeps_files {A} (m : M A) : Prop :=
  forall w r w', m w = (r, w') -> files w' = files w.

(** ** What the constructor accepts, spelt out *)

(** A text that is not blank and has at most 100 characters, blanks
    included. *)
Definition acceptable_name (v : pyval) : Prop :=
  exists s, v = VStr s /\ strip s <> [] /\ (List.length s <= 100)%nat.

(** An integer from 0 to 150, or a boolean. *)
Definition acceptable_age (v : pyval) : Prop :=
  (exists z, v = VInt z /\ (0 <= z <= 150)%Z) \/ (exists b, v = VBool b).

(** A text with an [@] and a full stop, anywhere. *)
Definition acceptable_email (v : pyval) : Prop :=
  exists s, v = VStr s /\ In 64 s /\ In 46 s.

(** ** Examples *)

(** The profile of the examples, constructed in [world0] with the
    preferences given. *)
Definition example_profile (prefs : pyval) : UserProfile :=
  new_profile (py "Ann") (VInt 30) (py "ann@example.com") prefs world0.

(** * Properties *)

Lemma str_eqb_eq a b : str_eqb a b = true <-> a = b.
Proof. unfold str_eqb. destruct (list_eq_dec N.eq_dec a b); split; congruence. Qed.

Lemma str_eqb_refl a : str_eqb a a = true.
Proof. now apply str_eqb_eq. Qed.


(** ** Running the monad *)

(** The constructor validates name, age and email in this order, then
    stamps the profile. *)
Lemma init_spec name_ age_ email_ prefs w :
  __init__ name_ age_ email_ prefs w =
  match _validate_name name_ with
  | Raise x => (Raise x, w)
  | Ok n =>
      match _validate_age age_ with
      | Raise x => (Raise x, w)
      | Ok _ =>
          match _validate_email email_ with
          | Raise x => (Raise x, w)
          | Ok e => (Ok (new_profile n age_ e prefs w), tick w)
          end
      end
  end.
Proof.
  unfold __init__, bind, lift, ret, now_isoformat.
  destruct (_validate_name name_); [|reflexivity].
  destruct (_validate_age age_); [|reflexivity].
  destruct (_validate_email email_); reflexivity.
Qed.

Lemma validate_name_class v e : _validate_name v = Raise e -> exn_cls e = ValueError.
Proof.
  unfold _validate_name, value_error. destruct v; try (intros [= <-]; reflexivity).
  destruct (str_eqb _ _); [intros [= <-]; reflexivity|].
  destruct (_ <? _)%nat; [intros [= <-]; reflexivity|discriminate].
Qed.

Lemma validate_age_class v e : _validate_age v = Raise e -> exn_cls e = ValueError.
Proof.
  unfold _validate_age, value_error.
  destruct (negb _); [intros [= <-]; reflexivity|].
  destruct (_ || _); [intros [= <-]; reflexivity|discriminate].
Qed.

Lemma validate_email_class v e : _validate_email v = Raise e -> exn_cls e = ValueError.
Proof.
  unfold _validate_email, value_error. destruct v; try (intros [= <-]; reflexivity).
  destruct (_ || _); [intros [= <-]; reflexivity|discriminate].
Qed.

(** The constructor raises nothing but [ValueError], and then leaves the
    world as it was. *)
Lemma init_raises name_ age_ email_ prefs w e w' :
  __init__ name_ age_ email_ prefs w = (Raise e, w') ->
  exn_cls e = ValueError /\ w' = w.
Proof.
  rewrite init_spec.
  destruct (_validate_name name_) eqn:En.
  - destruct (_validate_age age_) eqn:Ea.
    + destruct (_validate_email email_) eqn:Ee; [discriminate|].
      intros [= <- <-]. split; [eapply validate_email_class; eauto|reflexivity].
    + intros [= <- <-]. split; [eapply validate_age_class; eauto|reflexivity].
  - intros [= <- <-]. split; [eapply validate_name_class; eauto|reflexivity].
Qed.

Lemma init_ok name_ age_ email_ prefs w P w' :
  __init__ name_ age_ email_ prefs w = (Ok P, w') ->
  _validate_name name_ = Ok (name P) /\ _validate_age age_ = Ok tt /\
  _validate_email email_ = Ok (email P) /\
  P = new_profile (name P) age_ (email P) prefs w /\ w' = tick w.
Proof.
  rewrite init_spec.
  destruct (_validate_name name_) eqn:En; [|discriminate].
  destruct (_validate_age age_) as [[]|] eqn:Ea; [|discriminate].
  destruct (_validate_email email_) eqn:Ee; [|discriminate].
  intros [= <- <-]. simpl. auto.
Qed.

(** ** Validation boundaries *)

Lemma init_succeeds name_ age_ email_ prefs w :
  valid_name name_ -> valid_age age_ -> valid_email email_ ->
  succeeds (__init__ name_ age_ email_ prefs) w.
Proof.
  intros [n Hn] Ha [e He]. unfold succeeds. rewrite init_spec, Hn, Ha, He.
  eauto.
Qed.

Lemma init_fails_age name_ age_ email_ prefs w :
  valid_name name_ -> (int_value age_ < 0 \/ 150 < int_value age_)%Z ->
  is_int age_ = true ->
  fails_with ValueError (__init__ name_ age_ email_ prefs) w.
Proof.
  intros [n Hn] Hr Hi. unfold fails_with. rewrite init_spec, Hn.
  unfold _validate_age. rewrite Hi. simpl.
  replace ((int_value age_ <? 0)%Z || (150 <? int_value age_)%Z) with true.
  - unfold value_error. eauto.
  - symmetry. apply orb_true_iff. rewrite !Z.ltb_lt. exact Hr.
Qed.

(** C4. With the other fields valid, construction succeeds for age 0 and
    age 150 and fails with [ValueError] (the code's validation error) for
    age -1 and age 151; a name of 100 characters that is not blank succeeds
    and any name of 101 characters fails; the email a@b.c succeeds, abc and
    a@b fail. *)
Theorem C4_validation_boundaries :
  forall (name_ age_ email_ prefs : pyval) (w : world),
    valid_name name_ -> valid_age age_ -> valid_email email_ ->
    succeeds (__init__ name_ (VInt 0) email_ prefs) w /\
    succeeds (__init__ name_ (VInt 150) email_ prefs) w /\
    fails_with ValueError (__init__ name_ (VInt (-1)) email_ prefs) w /\
    fails_with ValueError (__init__ name_ (VInt 151) email_ prefs) w /\
    (forall s, List.length s = 100%nat -> strip s <> [] ->
       succeeds (__init__ (VStr s) age_ email_ prefs) w) /\
    (forall s, List.length s = 101%nat ->
       fails_with ValueError (__init__ (VStr s) age_ email_ prefs) w) /\
    succeeds (__init__ name_ age_ (VStr (py "a@b.c")) prefs) w /\
    fails_with ValueError (__init__ name_ age_ (VStr (py "abc")) prefs) w /\
    fails_with ValueError (__init__ name_ age_ (VStr (py "a@b")) prefs) w.
Proof.
  intros name_ age_ email_ prefs w Hn Ha He.
  repeat split.
  - apply init_succeeds; auto. reflexivity.
  - apply init_succeeds; auto. reflexivity.
  - apply init_fails_age; auto. simpl. lia.
  - apply init_fails_age; auto. simpl. lia.
  - intros s Hlen Hs. apply init_succeeds; auto.
    exists s. unfold _validate_name.
    destruct (str_eqb (strip s) []) eqn:E.
    + apply str_eqb_eq in E. contradiction.
    + rewrite Hlen. reflexivity.
  - intros s Hlen. unfold fails_with. rewrite init_spec.
    unfold _validate_name.
    destruct (str_eqb (strip s) []); unfold value_error; [eauto|].
    rewrite Hlen. simpl. eauto.
  - apply init_succeeds; auto. exists (py "a@b.c"). reflexivity.
  - destruct Hn as [n Hn]. unfold fails_with.
    rewrite init_spec, Hn, Ha. simpl. unfold value_error. eauto.
  - destruct Hn as [n Hn]. unfold fails_with.
    rewrite init_spec, Hn, Ha. simpl. unfold value_error. eauto.
Qed.

Lemma C4_validation_boundaries_witness :
  succeeds (__init__ (VStr (py "Ada")) (VInt 0) (VStr (py "ada@example.com")) VNone) world0 /\
  fails_with ValueError
    (__init__ (VStr (py "Ada")) (VInt 151) (VStr (py "ada@example.com")) VNone) world0.
Proof.
  destruct (@C4_validation_boundaries (VStr (py "Ada")) (VInt 36)
              (VStr (py "ada@example.com")) VNone world0)
    as (H0 & _ & _ & H151 & _).
  - exists (py "Ada"). reflexivity.
  - reflexivity.
  - exists (py "ada@example.com"). reflexivity.
  - split; assumption.
Defined.

(** ** Induction on values *)

Section PyvalInd.
Variable P : pyval -> Prop.
Hypothesis HNone : P VNone.
Hypothesis HBool : forall b, P (VBool b).
Hypothesis HInt : forall z, P (VInt z).
Hypothesis HFloat : forall f, P (VFloat f).
Hypothesis HStr : forall s, P (VStr s).
Hypothesis HList : forall l, Forall P l -> P (VList l).
Hypothesis HTuple : forall l, Forall P l -> P (VTuple l).
Hypothesis HDict :
  forall d, Forall (fun kv => P (fst kv) /\ P (snd kv)) d -> P (VDict d).
Hypothesis HDatetime : forall iso rep, P (VDatetime iso rep).
Hypothesis HInstance :
  forall cls text attrs,
    Forall (fun kv => P (fst kv) /\ P (snd kv)) attrs ->
    P (VInstance cls text attrs).
Hypothesis HOpaque : forall cls text, P (VOpaque cls text).

Lemma pyval_rect' (v : pyval) : P v.
Proof.
  revert v. fix IH 1. intros v.
  assert (all : forall l, Forall P l).
  { induction l as [|x l IHl]; constructor; [apply IH|exact IHl]. }
  assert (all2 : forall d : list (pyval * pyval),
             Forall (fun kv => P (fst kv) /\ P (snd kv)) d).
  { induction d as [|[k x] d IHd]; constructor; [|exact IHd].
    split; apply IH. }
  destruct v.
  - apply HNone.
  - apply HBool.
  - apply HInt.
  - apply HFloat.
  - apply HStr.
  - apply HList, all.
  - apply HTuple, all.
  - apply HDict, all2.
  - apply HDatetime.
  - apply HInstance, all2.
  - apply HOpaque.
Qed.
End PyvalInd.

(** ** What the encoder raises *)

Section EncoderFacts.
Context {R : PyRuntime}.
Variables (indent : option nat) (ensure_ascii : bool).

Lemma key_text_class k e : key_text k = Raise e -> exn_cls e = TypeError.
Proof.
  destruct k as [| [] | | | | | | | | |]; simpl; try discriminate;
    intros [= <-]; reflexivity.
Qed.

Lemma not_serializable_class A custom v e :
  @not_serializable custom A v = Raise e -> exn_cls e = TypeError.
Proof. unfold not_serializable. destruct custom; intros [= <-]; reflexivity. Qed.

Lemma encode_elems_class enc l e :
  Forall (fun x => forall e, enc x = Raise e -> exn_cls e = TypeError) l ->
  encode_elems enc l = Raise e -> exn_cls e = TypeError.
Proof.
  induction 1 as [|x l Hx _ IH]; simpl; [discriminate|].
  destruct (enc x) eqn:Ex.
  - destruct (encode_elems enc l); [discriminate|].
    intros [= <-]. auto.
  - intros [= <-]. auto.
Qed.

Lemma encode_items_class enc d e :
  Forall (fun kv => forall e, enc (snd kv) = Raise e -> exn_cls e = TypeError) d ->
  encode_items ensure_ascii enc d = Raise e -> exn_cls e = TypeError.
Proof.
  induction 1 as [|[k x] d Hx _ IH]; simpl; [discriminate|].
  destruct (key_text k) eqn:Ek.
  - destruct (enc x) eqn:Ex.
    + destruct (encode_items ensure_ascii enc d); [discriminate|].
      intros [= <-]. auto.
    + intros [= <-]. simpl in Hx. auto.
  - intros [= <-]. eapply key_text_class; eauto.
Qed.

(** Whatever the options, the encoder raises nothing but [TypeError]. *)
Lemma encode_class custom v :
  forall lvl e,
    encode indent ensure_ascii custom lvl v = Raise e -> exn_cls e = TypeError.
Proof.
  induction v as [| [] | | | | l IH | l IH | d IH | | c t attrs IH |]
    using pyval_rect'; intros lvl e; simpl; try discriminate.
  - destruct (encode_elems _ l) eqn:E; [discriminate|]. intros [= <-].
    eapply encode_elems_class; [|exact E].
    eapply Forall_impl; [|exact IH]. simpl. eauto.
  - destruct (encode_elems _ l) eqn:E; [discriminate|]. intros [= <-].
    eapply encode_elems_class; [|exact E].
    eapply Forall_impl; [|exact IH]. simpl. eauto.
  - destruct (encode_items _ _ d) eqn:E; [discriminate|]. intros [= <-].
    eapply encode_items_class; [|exact E].
    eapply Forall_impl; [|exact IH]. simpl. intros kv [_ H]. eauto.
  - destruct custom; [discriminate|]. apply not_serializable_class.
  - destruct custom; [|apply not_serializable_class].
    destruct (encode_items _ _ attrs) eqn:E; [discriminate|]. intros [= <-].
    eapply encode_items_class; [|exact E].
    eapply Forall_impl; [|exact IH]. simpl. intros kv [_ H]. eauto.
  - apply not_serializable_class.
Qed.

(** The encoder treats an object it does not know as the [default] hook
    says: it encodes the hook's result, or raises what the hook raises. *)
Lemma encode_default lvl v :
  (exists a b, v = VDatetime a b) \/ (exists a b c, v = VInstance a b c) \/
  (exists a b, v = VOpaque a b) ->
  encode indent ensure_ascii true lvl v =
  match _json_serializer v with
  | Ok v' => encode indent ensure_ascii true lvl v'
  | Raise e => Raise e
  end.
Proof.
  intros [(a & b & ->) | [(a & b & c & ->) | (a & b & ->)]]; reflexivity.
Qed.
End EncoderFacts.

(** ** Preferences at construction and at update *)

(** C3. The constructor does not look at the preference values: the call
    [UserProfile("Test", 25, "test@example.com", {"complex_obj": object()})]
    returns a profile holding the object, although [json.dumps] rejects the
    object; the failure only comes when the profile is serialized. *)
Theorem C3_preferences_unchecked_at_construction :
  forall (R : PyRuntime) (w : world),
    fails_with TypeError (lift (json_dumps an_object)) w /\
    exists P,
      __init__ (VStr (py "Test")) (VInt 25) (VStr (py "test@example.com"))
        scenario_preferences w = (Ok P, tick w) /\
      preferences P = scenario_preferences /\
      fails_with SerializationError (serialize_user_profile P None) (tick w).
Proof.
  intros R w. split.
  - unfold fails_with, lift. do 2 eexists. reflexivity.
  - eexists. split; [reflexivity|]. split; [reflexivity|].
    unfold fails_with. do 2 eexists. reflexivity.
Qed.

Section UpdatePreferences.
Context {R : PyRuntime}.

Lemma json_dumps_class v e : json_dumps v = Raise e -> exn_cls e = TypeError.
Proof. apply encode_class. Qed.

Lemma check_preferences_rejects items k v e :
  In (k, v) items -> json_dumps v = Raise e ->
  exists msg, check_preferences items = Raise (Exn ValueError msg).
Proof.
  induction items as [|[key value] items IH]; intros Hin Hv; [contradiction|].
  simpl. destruct (is_str key); simpl; [|unfold value_error; eauto].
  destruct (json_dumps value) eqn:Ed.
  - destruct Hin as [[= -> ->]|Hin]; [congruence|]. auto.
  - unfold isinstance_exn. rewrite (json_dumps_class _ Ed). simpl. eauto.
Qed.

Lemma check_preferences_names_key items msg :
  Forall (fun kv => is_str (fst kv) = true) items ->
  check_preferences items = Raise (Exn ValueError msg) ->
  exists k v e,
    In (VStr k, v) items /\ json_dumps v = Raise e /\
    msg = py "Preference value for '" ++ k
          ++ py "' is not JSON serializable: " ++ exn_msg e.
Proof.
  induction 1 as [|[key value] items Hk _ IH]; simpl; [discriminate|].
  simpl in Hk. rewrite Hk. simpl.
  destruct (json_dumps value) eqn:Ed.
  - intros H. destruct (IH H) as (k & v & e & Hin & Hv & ->).
    exists k, v, e. auto.
  - unfold isinstance_exn. rewrite (json_dumps_class _ Ed). simpl.
    intros [= <-]. destruct key; try discriminate.
    exists s, value, e. simpl. auto.
Qed.
End UpdatePreferences.

(** C5. When some value of [newEntries] is rejected by [json.dumps], the
    update fails with [ValueError] and leaves the profile (every field,
    [last_updated] included) and the world as they were; for a mapping with
    text keys the message names the key of a rejected value. *)
Theorem C5_update_preferences_atomic :
  forall (R : PyRuntime) (self : UserProfile) (newEntries : dict) (w : world)
         (k v : pyval) (e : exn),
    In (k, v) newEntries -> json_dumps v = Raise e ->
    exists msg,
      update_preferences self (VDict newEntries) w
        = (Raise (Exn ValueError msg), self, w) /\
      (Forall (fun kv => is_str (fst kv) = true) newEntries ->
       exists k' v' e',
         In (VStr k', v') newEntries /\ json_dumps v' = Raise e' /\
         msg = py "Preference value for '" ++ k'
               ++ py "' is not JSON serializable: " ++ exn_msg e').
Proof.
  intros R self newEntries w k v e Hin Hv.
  destruct (check_preferences_rejects _ _ _ Hin Hv) as [msg Hmsg].
  exists msg. split.
  - unfold update_preferences. rewrite Hmsg. reflexivity.
  - intros Hkeys. eapply check_preferences_names_key; eauto.
Qed.

Lemma C5_update_preferences_atomic_witness :
  exists msg,
    update_preferences
      (new_profile (py "Ada") (VInt 36) (py "ada@example.com")
         (VDict [(VStr (py "theme"), VStr (py "dark"))]) world0)
      (VDict [(VStr (py "lang"), VStr (py "en")); (VStr (py "k"), an_object)])
      world0
    = (Raise (Exn ValueError msg),
       new_profile (py "Ada") (VInt 36) (py "ada@example.com")
         (VDict [(VStr (py "theme"), VStr (py "dark"))]) world0,
       world0).
Proof.
  destruct (@C5_update_preferences_atomic latin1_runtime
              (new_profile (py "Ada") (VInt 36) (py "ada@example.com")
                 (VDict [(VStr (py "theme"), VStr (py "dark"))]) world0)
              [(VStr (py "lang"), VStr (py "en")); (VStr (py "k"), an_object)]
              world0 (VStr (py "k")) an_object
              (Exn TypeError (py "Object of type object is not JSON serializable")))
    as [msg [H _]].
  - simpl. auto.
  - reflexivity.
  - exists msg. exact H.
Defined.

(** ** Exceptions caught *)

Lemma subclass_Exception c : subclass c Exception = true.
Proof. destruct c; reflexivity. Qed.

Lemma isinstance_Exception e : isinstance_exn e [Exception] = true.
Proof. unfold isinstance_exn. simpl. now rewrite subclass_Exception. Qed.

Lemma bind_ok {A B} (m : M A) (k : A -> M B) w a w1 :
  m w = (Ok a, w1) -> bind m k w = k a w1.
Proof. unfold bind. now intros ->. Qed.

Lemma bind_raise {A B} (m : M A) (k : A -> M B) w e w1 :
  m w = (Raise e, w1) -> bind m k w = (Raise e, w1).
Proof. unfold bind. now intros ->. Qed.

Lemma try_ok {A} (body : M A) clauses w a w1 :
  body w = (Ok a, w1) -> try_except body clauses w = (Ok a, w1).
Proof. unfold try_except. now intros ->. Qed.

Lemma try_raise {A} (body : M A) clauses w e w1 :
  body w = (Raise e, w1) -> try_except body clauses w = dispatch e clauses w1.
Proof. unfold try_except. now intros ->. Qed.

Section Decode.
Context {R : PyRuntime}.

(** Whatever the body of [deserialize_user_profile] raises, the function
    raises [DeserializationError]. *)
Lemma deserialize_dispatch e w :
  fails_with DeserializationError
    (dispatch e
       [ ([KeyError],
          fail_deserialization "Missing required field in JSON data: ");
         ([ValueError],
          fail_deserialization "Data validation error during deserialization: ");
         ([Exception],
          fail_deserialization "Unexpected error during deserialization: ") ]) w.
Proof.
  unfold fails_with. cbn [dispatch].
  destruct (isinstance_exn e [KeyError]); [do 2 eexists; reflexivity|].
  destruct (isinstance_exn e [ValueError]); [do 2 eexists; reflexivity|].
  rewrite isinstance_Exception. do 2 eexists; reflexivity.
Qed.

(** [deserialize_user_profile] returns a profile or raises
    [DeserializationError], nothing else. *)
Lemma deserialize_total json_data filename w :
  succeeds (deserialize_user_profile json_data filename) w \/
  fails_with DeserializationError
    (deserialize_user_profile json_data filename) w.
Proof.
  unfold deserialize_user_profile.
  match goal with |- context [try_except ?b ?c] => set (body := b) end.
  destruct (body w) as [[P|e] w1] eqn:E.
  - left. exists P, w1. now apply try_ok.
  - right. unfold fails_with. erewrite try_raise by exact E.
    apply deserialize_dispatch.
Qed.
End Decode.

(** C8. A text that [json.loads] does not parse makes
    [deserialize_user_profile] raise [DeserializationError]; the parser's
    own exception does not come out. *)
Theorem C8_malformed_text_decode :
  forall (R : PyRuntime) (text : pystr) (w : world) (e : exn),
    json_loads text = Raise e ->
    fails_with DeserializationError (deserialize_user_profile text None) w.
Proof.
  intros R text w e He.
  unfold deserialize_user_profile.
  match goal with |- context [try_except ?b ?c] => set (body := b) end.
  assert (Hb : exists e1 w1, body w = (Raise e1, w1)).
  { subst body. cbn [given].
    erewrite bind_ok by reflexivity.
    destruct (str_eqb text []); [do 2 eexists; reflexivity|].
    assert (Hp : exists e1 w1,
               try_except (lift (json_loads text))
                 [ ([JSONDecodeError],
                    fun e => raise DeserializationError
                               (py "Invalid JSON format: " ++ exn_msg e)) ] w
               = (Raise e1, w1)).
    { erewrite try_raise by (unfold lift; rewrite He; reflexivity).
      cbn [dispatch].
      destruct (isinstance_exn e [JSONDecodeError]); do 2 eexists; reflexivity. }
    destruct Hp as (e1 & w1 & Hp).
    exists e1, w1. now apply bind_raise. }
  destruct Hb as (e1 & w1 & Hb).
  unfold fails_with. erewrite try_raise by exact Hb. apply deserialize_dispatch.
Qed.

Lemma C8_malformed_text_decode_witness :
  fails_with DeserializationError
    (deserialize_user_profile (jtext "{invalid json}") None) world0.
Proof.
  apply (@C8_malformed_text_decode latin1_runtime (jtext "{invalid json}") world0
           (Exn JSONDecodeError
              (py "Expecting property name enclosed in double quotes"))).
  vm_compute. reflexivity.
Defined.

(** ** Recovery *)

Section Recovery.
Context {R : PyRuntime}.

Lemma backup_handler e w :
  dispatch e
    [ ([Exception],
       fun e => logger ERROR (py "Backup deserialization failed: " ++ exn_msg e) ;;;
                ret (@None UserProfile)) ] w
  = (Ok None, recovery_failed e w).
Proof. cbn [dispatch]. rewrite isinstance_Exception. reflexivity. Qed.

(** The recovery never raises. *)
Lemma backup_returns text w :
  succeeds (backup_deserialization_attempt text) w.
Proof.
  unfold backup_deserialization_attempt.
  match goal with |- context [try_except ?b ?c] => set (body := b) end.
  destruct (body w) as [[r|e] w1] eqn:E.
  - exists r, w1. now apply try_ok.
  - unfold succeeds. erewrite try_raise by exact E.
    rewrite backup_handler. eauto.
Qed.

Lemma backup_parse_failure text w e :
  json_loads text = Raise e ->
  backup_deserialization_attempt text w
  = (Ok None, recovery_failed e (warned w)).
Proof.
  intros He. unfold backup_deserialization_attempt.
  erewrite try_raise; [apply backup_handler|].
  erewrite bind_ok by reflexivity.
  apply bind_raise. unfold lift. now rewrite He.
Qed.

Lemma backup_not_a_record text w v :
  json_loads text = Ok v -> is_dict v = false ->
  exists e, backup_deserialization_attempt text w
            = (Ok None, recovery_failed e (warned w)).
Proof.
  intros Hv Hd. unfold backup_deserialization_attempt. eexists.
  erewrite try_raise; [apply backup_handler|].
  erewrite bind_ok by reflexivity.
  erewrite bind_ok by (unfold lift; rewrite Hv; reflexivity).
  apply bind_raise. destruct v; try discriminate; reflexivity.
Qed.

(** What the recovery does with a parsed record. *)
Lemma backup_record text w d :
  json_loads text = Ok (VDict d) ->
  backup_deserialization_attempt text w =
  match backup_age (raw_age d) with
  | Raise e => (Ok None, recovery_failed e (warned w))
  | Ok a =>
      match __init__ (recovered_name d) a (recovered_email d)
              (recovered_preferences d) (warned w) with
      | (Ok P, w1) =>
          (Ok (Some P),
           logged INFO (py "Backup deserialization successful for: " ++ name P) w1)
      | (Raise e, w1) => (Ok None, recovery_failed e w1)
      end
  end.
Proof.
  intros Hd. unfold backup_deserialization_attempt.
  match goal with |- context [try_except ?b ?c] => set (body := b) end.
  assert (Hb : body w =
    match backup_age (raw_age d) with
    | Raise e => (Raise e, warned w)
    | Ok a =>
        match __init__ (recovered_name d) a (recovered_email d)
                (recovered_preferences d) (warned w) with
        | (Ok P, w1) =>
            (Ok (Some P),
             logged INFO (py "Backup deserialization successful for: " ++ name P) w1)
        | (Raise e, w1) => (Raise e, w1)
        end
    end).
  { subst body.
    erewrite bind_ok by reflexivity.
    erewrite bind_ok by (unfold lift; rewrite Hd; reflexivity).
    do 4 (erewrite bind_ok by reflexivity).
    fold (raw_age d).
    destruct (backup_age (raw_age d)) as [a|e] eqn:Ea.
    - erewrite bind_ok by reflexivity.
      fold (recovered_name d) (recovered_email d) (recovered_preferences d).
      destruct (__init__ _ _ _ _ (warned w)) as [[P|e] w1] eqn:Ei.
      + erewrite bind_ok by exact Ei. reflexivity.
      + now apply bind_raise.
    - now apply bind_raise. }
  destruct (backup_age (raw_age d)) as [a|e].
  - destruct (__init__ _ _ _ _ (warned w)) as [[P|e] w1].
    + now apply try_ok.
    + erewrite try_raise by exact Hb. apply backup_handler.
  - erewrite try_raise by exact Hb. apply backup_handler.
Qed.
End Recovery.

(** C7. For every text the recovery returns, a profile or nothing, and
    never raises; it returns nothing when the text does not parse, when the
    parsed value is no record, when [int()] rejects the age, and when the
    constructor rejects the recovered fields. *)
Theorem C7_recovery_total :
  forall (R : PyRuntime) (text : pystr) (w : world),
    (exists r w', backup_deserialization_attempt text w = (Ok r, w')) /\
    (forall e, json_loads text = Raise e ->
       exists w', backup_deserialization_attempt text w = (Ok None, w')) /\
    (forall d a e w1,
       json_loads text = Ok (VDict d) ->
       backup_age (raw_age d) = Ok a ->
       __init__ (recovered_name d) a (recovered_email d)
         (recovered_preferences d) (warned w) = (Raise e, w1) ->
       exists w', backup_deserialization_attempt text w = (Ok None, w')).
Proof.
  intros R text w. split; [apply backup_returns|]. split.
  - intros e He. erewrite backup_parse_failure by exact He. eauto.
  - intros d a e w1 Hd Ha Hi.
    erewrite backup_record by exact Hd. rewrite Ha, Hi. eauto.
Qed.

(** ** The age the recovery accepts *)

Section RecoveredAge.
Context {R : PyRuntime}.

Lemma isdigit_latin1 c s :
  c < 256 -> str_isdigit (c :: s) = latin1_isdigit c && forallb uni_isdigit s.
Proof. intros H. simpl. now rewrite uni_isdigit_latin1. Qed.

(** A text with a character that is no digit leaves the age at 0. *)
Lemma backup_age_default v :
  str_isdigit (py_str v) = false -> backup_age v = Ok (VInt 0).
Proof. unfold backup_age. intros ->. now rewrite andb_false_r. Qed.

Lemma documented_parse :
  json_loads documented_corrupted =
  Ok (VDict [ (VStr (py "name"), VStr (py "John"));
              (VStr (py "age"), VStr (py "invalid"));
              (VStr (py "email"), VStr (py "john@example.com"));
              (VStr (py "preferences"), VDict []) ]).
Proof. vm_compute. reflexivity. Qed.

Lemma superscript_parse :
  json_loads superscript_age =
  Ok (VDict [ (VStr (py "name"), VStr (py "John"));
              (VStr (py "age"), VStr [178]);
              (VStr (py "email"), VStr (py "john@example.com"));
              (VStr (py "preferences"), VDict []) ]).
Proof. vm_compute. reflexivity. Qed.

(** [isdigit()] lets superscript two through and [int()] rejects it. *)
Lemma superscript_backup_age :
  exists msg, backup_age (VStr [178]) = Raise (Exn ValueError msg).
Proof.
  unfold backup_age. cbn [is_int is_float is_str orb andb py_str].
  rewrite isdigit_latin1 by reflexivity.
  change (latin1_isdigit 178 && forallb uni_isdigit []) with true.
  cbn [py_int]. unfold int_of_str.
  change (strip [178]) with [178].
  cbn [int_digits N.eqb Pos.eqb].
  rewrite uni_decimal_latin1 by reflexivity.
  change (latin1_decimal 178) with (@None N).
  eexists. reflexivity.
Qed.
End RecoveredAge.

(** C6. On the documented input the recovery returns a profile with age 0,
    name John and email john@example.com. On the same record with the age
    superscript two (U+00B2), whose text is not made of decimal digits, it returns
    nothing instead of a profile with age 0: [str.isdigit] counts the
    superscript as a digit and [int()] then raises. *)
Theorem C6_recovery_age_coercion :
  forall (R : PyRuntime) (w : world),
    (exists P w',
       backup_deserialization_attempt documented_corrupted w = (Ok (Some P), w') /\
       age P = VInt 0 /\ name P = py "John" /\ email P = py "john@example.com") /\
    (exists w',
       backup_deserialization_attempt superscript_age w = (Ok None, w')).
Proof.
  intros R w. split.
  - erewrite backup_record by apply documented_parse.
    rewrite backup_age_default.
    + do 2 eexists. split; [reflexivity|]. repeat split.
    + change (raw_age _) with (VStr (py "invalid")).
      cbn [py_str]. change (py "invalid") with (105 :: py "nvalid").
      rewrite isdigit_latin1 by reflexivity. reflexivity.
  - erewrite backup_record by apply superscript_parse.
    change (raw_age _) with (VStr [178]).
    destruct superscript_backup_age as [msg ->]. eauto.
Qed.

(** ** Decoding a record *)

Section DecodeRecord.
Context {R : PyRuntime}.

Lemma check_required_ok d fields w :
  forallb (dict_has d) fields = true -> check_required d fields w = (Ok tt, w).
Proof.
  induction fields as [|f fields IH]; simpl; [reflexivity|].
  intros H. apply andb_prop in H as [-> H]. simpl. auto.
Qed.

Lemma from_dict_ok d n a e w P w1 :
  dict_get d (py "name") = Some n ->
  dict_get d (py "age") = Some a ->
  dict_get d (py "email") = Some e ->
  __init__ n a e (dict_get_default d (py "preferences") (VDict [])) w = (Ok P, w1) ->
  from_dict d w = (Ok (restore_metadata d P), w1).
Proof.
  intros Hn Ha He Hi. unfold from_dict. apply try_ok.
  erewrite bind_ok
    by (apply check_required_ok; unfold dict_has; cbn [forallb];
        rewrite Hn, Ha, He; reflexivity).
  unfold dict_getitem. rewrite Hn, Ha, He.
  do 3 (erewrite bind_ok by reflexivity).
  erewrite bind_ok by exact Hi. reflexivity.
Qed.

Lemma json_loads_nonempty text v : json_loads text = Ok v -> text <> [].
Proof. intros H ->. discriminate. Qed.

Lemma deserialize_record text d w P w1 :
  json_loads text = Ok (VDict d) ->
  from_dict d (version_checked d w) = (Ok P, w1) ->
  deserialize_user_profile text None w =
  (Ok P, logged INFO (py "Successfully deserialized profile for: " ++ name P) w1).
Proof.
  intros Hd Hf. unfold deserialize_user_profile. apply try_ok.
  cbn [given]. erewrite bind_ok by reflexivity.
  destruct (str_eqb text []) eqn:E.
  { apply str_eqb_eq in E. now apply json_loads_nonempty in Hd. }
  erewrite bind_ok
    by (apply try_ok; unfold lift; rewrite Hd; reflexivity).
  assert (Hv : (if negb (eq_str (dict_get_default d (py "_version") (VStr (py "1.0")))
                           (py "1.0"))
                then logger WARNING
                       (py "Loading data with different schema version: "
                        ++ py_str (dict_get_default d (py "_version") (VStr (py "1.0"))))
                else ret tt) w = (Ok tt, version_checked d w)).
  { unfold version_checked. destruct (negb _); reflexivity. }
  cbv beta iota zeta.
  erewrite bind_ok by exact Hv.
  erewrite bind_ok by exact Hf. reflexivity.
Qed.
End DecodeRecord.

(** C10. [deserialize_user_profile] does not check that the preferences of
    the record are a mapping: whatever value the record gives, with name,
    age and email valid, decoding succeeds; a truthy value (a non-empty
    text or array, say) becomes the profile's preferences as it is, a falsy
    one is replaced by the empty mapping. *)
Theorem C10_preferences_not_checked_on_decode :
  forall (R : PyRuntime) (text : pystr) (d : dict) (n a e v : pyval) (w : world),
    json_loads text = Ok (VDict d) ->
    dict_get d (py "name") = Some n -> valid_name n ->
    dict_get d (py "age") = Some a -> valid_age a ->
    dict_get d (py "email") = Some e -> valid_email e ->
    dict_get d (py "preferences") = Some v ->
    exists P w',
      deserialize_user_profile text None w = (Ok P, w') /\
      preferences P = (if truthy v then v else VDict []).
Proof.
  intros R text d n a e v w Hd Hn [n' Vn] Ha Va He [e' Ve] Hv.
  assert (Hi : __init__ n a e (dict_get_default d (py "preferences") (VDict []))
                 (version_checked d w)
               = (Ok (new_profile n' a e' v (version_checked d w)),
                  tick (version_checked d w))).
  { rewrite init_spec, Vn, Va, Ve. unfold dict_get_default. now rewrite Hv. }
  do 2 eexists. split.
  - eapply deserialize_record; [exact Hd|].
    eapply from_dict_ok; eauto.
  - unfold restore_metadata.
    destruct (dict_get d (py "created_at")), (dict_get d (py "last_updated"));
      reflexivity.
Qed.

Lemma C10_preferences_not_checked_on_decode_witness :
  exists P w',
    deserialize_user_profile
      (jtext "{'name': 'Ann', 'age': 30, 'email': 'ann@example.com', 'preferences': ['dark', 2]}")
      None world0 = (Ok P, w') /\
    preferences P = VList [VStr (py "dark"); VInt 2].
Proof.
  destruct (@C10_preferences_not_checked_on_decode latin1_runtime
    (jtext "{'name': 'Ann', 'age': 30, 'email': 'ann@example.com', 'preferences': ['dark', 2]}")
    [ (VStr (py "name"), VStr (py "Ann")); (VStr (py "age"), VInt 30);
      (VStr (py "email"), VStr (py "ann@example.com"));
      (VStr (py "preferences"), VList [VStr (py "dark"); VInt 2]) ]
    (VStr (py "Ann")) (VInt 30) (VStr (py "ann@example.com"))
    (VList [VStr (py "dark"); VInt 2]) world0) as (P & w' & H1 & H2).
  - vm_compute. reflexivity.
  - reflexivity.
  - exists (py "Ann"). reflexivity.
  - reflexivity.
  - reflexivity.
  - reflexivity.
  - exists (py "ann@example.com"). reflexivity.
  - reflexivity.
  - exists P, w'. split; [exact H1|exact H2].
Defined.

(** ** Timestamps *)

Lemma str_le_refl s : str_le s s = true.
Proof.
  induction s as [|c s IH]; simpl; [reflexivity|].
  now rewrite N.eqb_refl, IH, orb_true_r.
Qed.

Lemma bind_inv {A B} (m : M A) (k : A -> M B) w b w2 :
  bind m k w = (Ok b, w2) ->
  exists a w1, m w = (Ok a, w1) /\ k a w1 = (Ok b, w2).
Proof.
  unfold bind. destruct (m w) as [[a|e] w1]; [eauto|discriminate].
Qed.

Lemma try_inv {A} (body : M A) clauses w a w1 :
  try_except body clauses w = (Ok a, w1) ->
  body w = (Ok a, w1) \/
  exists e w2, body w = (Raise e, w2) /\ dispatch e clauses w2 = (Ok a, w1).
Proof.
  unfold try_except. destruct (body w) as [[a'|e] w2]; eauto.
Qed.

Lemma new_profile_stamps n a e p w :
  last_updated (new_profile n a e p w) = created_at (new_profile n a e p w) /\
  stamps_ordered (new_profile n a e p w).
Proof. split; [reflexivity|]. unfold stamps_ordered. simpl. apply str_le_refl. Qed.

Section Timestamps.
Context {R : PyRuntime}.

Lemma from_dict_inv d w P w1 :
  from_dict d w = (Ok P, w1) ->
  exists n a e P0,
    dict_get d (py "name") = Some n /\ dict_get d (py "age") = Some a /\
    dict_get d (py "email") = Some e /\
    __init__ n a e (dict_get_default d (py "preferences") (VDict [])) w
      = (Ok P0, w1) /\
    P = restore_metadata d P0.
Proof.
  unfold from_dict. intros H. apply try_inv in H as [H|(e & w2 & _ & H)].
  2:{ cbn [dispatch] in H. destruct (isinstance_exn _ _); discriminate. }
  apply bind_inv in H as ([] & w0 & Hc & H).
  assert (w0 = w) as ->.
  { revert Hc. cbn [check_required].
    repeat (match goal with
            | |- context [negb (dict_has ?d ?f)] =>
                destruct (negb (dict_has d f)); [discriminate|]
            end).
    now intros [= <-]. }
  unfold dict_getitem in H.
  destruct (dict_get d (py "name")) as [n|];
    [|apply bind_inv in H as (? & ? & [=] & _)].
  apply bind_inv in H as (n' & w3 & [= <- <-] & H).
  destruct (dict_get d (py "age")) as [a|];
    [|apply bind_inv in H as (? & ? & [=] & _)].
  apply bind_inv in H as (a' & w3 & [= <- <-] & H).
  destruct (dict_get d (py "email")) as [e|];
    [|apply bind_inv in H as (? & ? & [=] & _)].
  apply bind_inv in H as (e' & w3 & [= <- <-] & H).
  apply bind_inv in H as (P0 & w3 & Hi & H).
  exists n, a, e, P0. unfold ret in H. injection H as <- <-.
  repeat split; auto.
Qed.

Lemma version_checked_clock d w :
  clock (version_checked d w) = clock w /\
  ticks (version_checked d w) = ticks w.
Proof. unfold version_checked. destruct (negb _); split; reflexivity. Qed.

(** A profile that [deserialize_user_profile] returns for a text was built
    by the constructor from the fields of the parsed record, and then given
    the record's timestamps. *)
Lemma deserialize_inv text w P w' :
  deserialize_user_profile text None w = (Ok P, w') ->
  exists d n a e P0 w1,
    json_loads text = Ok (VDict d) /\
    dict_get d (py "name") = Some n /\ dict_get d (py "age") = Some a /\
    dict_get d (py "email") = Some e /\
    __init__ n a e (dict_get_default d (py "preferences") (VDict []))
      (version_checked d w) = (Ok P0, w1) /\
    P = restore_metadata d P0.
Proof.
  unfold deserialize_user_profile. intros H.
  apply try_inv in H as [H|(e & w2 & _ & H)].
  2:{ destruct (deserialize_dispatch e w2) as (msg & w3 & Hd).
      rewrite Hd in H. discriminate. }
  cbn [given] in H. apply bind_inv in H as (t & w0 & [= <- <-] & H).
  destruct (str_eqb text []); [discriminate|].
  apply bind_inv in H as (v & w0 & Hp & H).
  apply try_inv in Hp as [Hp|(e & w2 & _ & Hp)].
  2:{ cbn [dispatch] in Hp. destruct (isinstance_exn _ _); discriminate. }
  unfold lift in Hp. injection Hp as Hp <-.
  destruct v; try discriminate.
  apply bind_inv in H as ([] & w0 & Hv & H).
  assert (w0 = version_checked d w) as ->.
  { unfold version_checked. destruct (negb _); now injection Hv as <-. }
  apply bind_inv in H as (P1 & w1 & Hf & H).
  apply bind_inv in H as ([] & w3 & _ & H). injection H as <- _.
  apply from_dict_inv in Hf as (n & a & e & P0 & Hn & Ha & He & Hi & ->).
  exists d, n, a, e, P0, w1. repeat split; auto.
Qed.

Lemma backup_inv text w P w' :
  backup_deserialization_attempt text w = (Ok (Some P), w') ->
  exists n a e p w0, __init__ n a e p w0 = (Ok P, tick w0).
Proof.
  destruct (json_loads text) as [v|e] eqn:Ev.
  - destruct v;
      try (destruct (@backup_not_a_record _ text w _ Ev eq_refl) as [e ->];
           discriminate).
    erewrite backup_record by exact Ev.
    destruct (backup_age _); [|discriminate].
    destruct (__init__ _ _ _ _ _) as [[P0|e] w1] eqn:Ei; [|discriminate].
    intros [= <- _].
    destruct (init_ok _ _ _ _ _ Ei) as (_ & _ & _ & _ & ->). eauto 10.
  - erewrite backup_parse_failure by exact Ev. discriminate.
Qed.

Lemma update_inv self new w self' w' :
  update_preferences self new w = (Ok tt, self', w') ->
  created_at self' = created_at self /\
  last_updated self' = VStr (clock w (ticks w)).
Proof.
  unfold update_preferences. destruct new; try discriminate.
  destruct (check_preferences d); [|discriminate].
  destruct (preferences self); try discriminate.
  simpl. intros [= <- _]. split; reflexivity.
Qed.
End Timestamps.

(** C2, as the code has it. A profile from the constructor or from the
    recovery has [last_updated = created_at]. [update_preferences] keeps
    [created_at] and stamps [last_updated] with the clock, so the order
    holds when the clock does not read before [created_at]. A decoded
    profile takes [created_at] and [last_updated] from the record as they
    are, where the record has them, and the fresh stamp otherwise: the order
    holds when the record has neither, and is not checked otherwise. *)
Theorem C2_timestamps_amended :
  forall (R : PyRuntime) (w : world),
    (forall n a e p P w',
       __init__ n a e p w = (Ok P, w') ->
       last_updated P = created_at P /\ stamps_ordered P) /\
    (forall text P w',
       backup_deserialization_attempt text w = (Ok (Some P), w') ->
       last_updated P = created_at P /\ stamps_ordered P) /\
    (forall self new self' w' c,
       update_preferences self new w = (Ok tt, self', w') ->
       created_at self = VStr c -> str_le c (clock w (ticks w)) = true ->
       stamps_ordered self') /\
    (forall text P w',
       deserialize_user_profile text None w = (Ok P, w') ->
       exists d,
         json_loads text = Ok (VDict d) /\
         created_at P = decoded_stamp d (py "created_at") w /\
         last_updated P = decoded_stamp d (py "last_updated") w /\
         (dict_get d (py "created_at") = None ->
          dict_get d (py "last_updated") = None -> stamps_ordered P)).
Proof.
  intros R w. repeat split.
  - destruct (init_ok _ _ _ _ _ H) as (_ & _ & _ & -> & _). reflexivity.
  - destruct (init_ok _ _ _ _ _ H) as (_ & _ & _ & -> & _).
    apply new_profile_stamps.
  - destruct (backup_inv _ _ H) as (n & a & e & p & w0 & Hi).
    destruct (init_ok _ _ _ _ _ Hi) as (_ & _ & _ & -> & _). reflexivity.
  - destruct (backup_inv _ _ H) as (n & a & e & p & w0 & Hi).
    destruct (init_ok _ _ _ _ _ Hi) as (_ & _ & _ & -> & _).
    apply new_profile_stamps.
  - intros self new self' w' c Hu Hc Hle.
    destruct (update_inv _ _ _ Hu) as [H1 H2].
    unfold stamps_ordered. now rewrite H1, H2, Hc.
  - intros text P w' H.
    destruct (deserialize_inv _ _ H)
      as (d & n & a & e & P0 & w1 & Hd & _ & _ & _ & Hi & ->).
    destruct (init_ok _ _ _ _ _ Hi) as (_ & _ & _ & -> & _).
    destruct (version_checked_clock d w) as [Hc Ht].
    exists d. unfold decoded_stamp, restore_metadata, stamps_ordered.
    split; [exact Hd|].
    destruct (dict_get d (py "created_at")), (dict_get d (py "last_updated"));
      simpl; rewrite ?Hc, ?Ht; repeat split; try discriminate.
    intros _ _. apply str_le_refl.
Qed.

(** C2 as stated fails: decoding a record whose [last_updated] is earlier
    than its [created_at] returns a profile with these two timestamps. *)
Lemma C2_counterexample :
  exists P w',
    deserialize_user_profile stale_record None world0 = (Ok P, w') /\
    created_at P = VStr (py "2025-06-01T12:00:00") /\
    last_updated P = VStr (py "2020-01-01T08:30:00") /\
    ~ stamps_ordered P.
Proof.
  do 2 eexists. split; [vm_compute; reflexivity|].
  split; [reflexivity|]. split; [reflexivity|].
  unfold stamps_ordered. vm_compute. discriminate.
Qed.

Lemma C2_timestamps_amended_witness :
  last_updated
    (new_profile (py "Ann") (VInt 30) (py "ann@example.com") VNone world0)
  = created_at
      (new_profile (py "Ann") (VInt 30) (py "ann@example.com") VNone world0) /\
  stamps_ordered
    (new_profile (py "Ann") (VInt 30) (py "ann@example.com") VNone world0).
Proof.
  exact (proj1 (@C2_timestamps_amended latin1_runtime world0)
           (VStr (py "Ann")) (VInt 30) (VStr (py "ann@example.com")) VNone
           (new_profile (py "Ann") (VInt 30) (py "ann@example.com") VNone world0)
           (tick world0) eq_refl).
Defined.

(** ** Encoding does not depend on the world *)

Lemma wi_ret {A} (a : A) : world_independent (ret a).
Proof. intros w w'. reflexivity. Qed.

Lemma wi_raise {A} c msg : world_independent (@raise A c msg).
Proof. intros w w'. reflexivity. Qed.

Lemma wi_lift {A} (o : outcome A) : world_independent (lift o).
Proof. intros w w'. reflexivity. Qed.

Lemma wi_logger l msg : world_independent (logger l msg).
Proof. intros w w'. reflexivity. Qed.

Lemma wi_bind {A B} (m : M A) (k : A -> M B) :
  world_independent m -> (forall a, world_independent (k a)) ->
  world_independent (bind m k).
Proof.
  intros Hm Hk w w'. unfold bind. specialize (Hm w w').
  destruct (m w) as [[a|e] w1], (m w') as [[a'|e'] w1']; simpl in Hm;
    try discriminate; injection Hm as <-; [apply Hk|reflexivity].
Qed.

Lemma wi_dispatch {A} e (clauses : list (clause A)) :
  Forall (fun c => forall e, world_independent (snd c e)) clauses ->
  world_independent (dispatch e clauses).
Proof.
  induction 1 as [|[classes h] clauses Hh _ IH]; simpl.
  - intros w w'. reflexivity.
  - destruct (isinstance_exn e classes); [apply Hh|exact IH].
Qed.

Lemma wi_try {A} (body : M A) clauses :
  world_independent body ->
  Forall (fun c => forall e, world_independent (snd c e)) clauses ->
  world_independent (try_except body clauses).
Proof.
  intros Hb Hc w w'. unfold try_except. specialize (Hb w w').
  destruct (body w) as [[a|e] w1], (body w') as [[a'|e'] w1']; simpl in Hb;
    try discriminate; injection Hb as <-; [reflexivity|].
  now apply wi_dispatch.
Qed.

Lemma serialize_world_independent {R : PyRuntime} (P : UserProfile) :
  world_independent (serialize_user_profile P None).
Proof.
  unfold serialize_user_profile, fail_serialization.
  apply wi_try.
  - apply wi_bind; [apply wi_logger|intros _].
    apply wi_bind; [apply wi_lift|intros json_data].
    apply wi_bind.
    + apply wi_try.
      * apply wi_bind; [apply wi_lift|intros parsed_back].
        apply wi_bind; [apply wi_lift|intros n].
        destruct (negb _); [apply wi_raise|apply wi_ret].
      * repeat constructor.
    + intros _. cbn [given].
      apply wi_bind; [apply wi_ret|intros _].
      apply wi_bind; [apply wi_logger|intros _]. apply wi_ret.
  - repeat constructor.
Qed.

(** C9. Two runs of [serialize_user_profile] on the same profile, one after
    the other, have the same outcome: the same text, character for
    character, or the same error. *)
Theorem C9_deterministic_encode :
  forall (R : PyRuntime) (P : UserProfile) (w : world),
    fst (serialize_user_profile P None (snd (serialize_user_profile P None w)))
    = fst (serialize_user_profile P None w).
Proof. intros R P w. apply serialize_world_independent. Qed.

(** ** Reading back what the encoder writes *)

(** *** Strings *)

Lemma hex_value_digit d : d < 16 -> hex_value (hex_digit d) = Some d.
Proof.
  intros H. destruct d as [|p]; [reflexivity|].
  do 4 (destruct p as [p|p|]; try reflexivity; try lia).
Qed.

Lemma hex4_value_hex4 n :
  n < 65536 ->
  match hex4 n with
  | [a; b; c; d] => hex4_value a b c d = Some n
  | _ => False
  end.
Proof.
  intros H. unfold hex4, hex4_value.
  rewrite !hex_value_digit by (apply N.mod_lt; discriminate).
  f_equal. zify. Z.to_euclidean_division_equations. lia.
Qed.

(** What [scanstring] does after a [\u] escape that is no high surrogate. *)
Lemma scan_after_u u s3 :
  is_high_surrogate u = false ->
  match s3 with
  | bs :: uc :: h1 :: h2 :: h3 :: h4 :: s4 =>
      if is_high_surrogate u && (bs =? 92) && (uc =? 117) then
        match hex4_value h1 h2 h3 h4 with
        | None => PErr (py "Invalid \uXXXX escape")
        | Some u2 =>
            if is_low_surrogate u2
            then push (join_surrogates u u2) (scanstring s4)
            else push u (scanstring s3)
        end
      else push u (scanstring s3)
  | _ => push u (scanstring s3)
  end = push u (scanstring s3).
Proof.
  intros ->. do 6 (destruct s3 as [|? s3]; [reflexivity|]). reflexivity.
Qed.

Lemma scanstring_escaped s rest :
  scanstring (flat_map (escape_char false) s ++ 34 :: rest) = POk s rest.
Proof.
  induction s as [|c s IH]; [reflexivity|].
  cbn [flat_map]. rewrite <- app_assoc.
  set (tail := flat_map (escape_char false) s ++ 34 :: rest) in *.
  unfold escape_char.
  destruct (c =? 34) eqn:E34.
  { apply N.eqb_eq in E34 as ->. simpl. now rewrite IH. }
  destruct (c =? 92) eqn:E92.
  { apply N.eqb_eq in E92 as ->. simpl. now rewrite IH. }
  destruct (c =? 10) eqn:E10.
  { apply N.eqb_eq in E10 as ->. simpl. now rewrite IH. }
  destruct (c =? 13) eqn:E13.
  { apply N.eqb_eq in E13 as ->. simpl. now rewrite IH. }
  destruct (c =? 9) eqn:E9.
  { apply N.eqb_eq in E9 as ->. simpl. now rewrite IH. }
  destruct (c =? 8) eqn:E8.
  { apply N.eqb_eq in E8 as ->. simpl. now rewrite IH. }
  destruct (c =? 12) eqn:E12.
  { apply N.eqb_eq in E12 as ->. simpl. now rewrite IH. }
  destruct (c <? 32) eqn:E32.
  - apply N.ltb_lt in E32.
    assert (Hh := @hex4_value_hex4 c ltac:(lia)).
    destruct (hex4 c) as [|h1 [|h2 [|h3 [|h4 [|? ?]]]]]; try contradiction.
    cbn [andb List.app scanstring N.eqb Pos.eqb].
    rewrite Hh, scan_after_u, IH; [reflexivity|].
    unfold is_high_surrogate. apply andb_false_intro1. apply N.leb_gt. lia.
  - cbn [andb List.app scanstring]. rewrite E34, E92, E32, IH. reflexivity.
Qed.

(** *** White space *)

Lemma skip_ws_spaces k s : skip_ws (repeat 32 k ++ s) = skip_ws s.
Proof. induction k; simpl; auto. Qed.

Lemma skip_ws_newline_indent n lvl s :
  skip_ws (newline_indent (Some n) lvl ++ s) = skip_ws s.
Proof. unfold newline_indent. simpl. apply skip_ws_spaces. Qed.

Lemma skip_ws_start c s : is_json_ws c = false -> skip_ws (c :: s) = c :: s.
Proof. simpl. now intros ->. Qed.

(** *** Numbers *)

Lemma span_digits_end rest : ends_token rest -> span_digits rest = ([], rest).
Proof. destruct rest as [|c r]; [reflexivity|]. intros [-> | ->]; reflexivity. Qed.

Lemma span_digits_uint u rest :
  ends_token rest -> span_digits (uint_chars u ++ rest) = (uint_chars u, rest).
Proof.
  intros H. induction u; simpl; rewrite ?IHu; auto using span_digits_end.
Qed.

Lemma digits_uint_chars u : digits_uint (uint_chars u) = u.
Proof. induction u; simpl; unfold digits_uint in *; simpl; now rewrite ?IHu. Qed.

Lemma scan_fraction_end rest : ends_token rest -> scan_fraction rest = ([], rest).
Proof. destruct rest as [|c r]; [reflexivity|]. intros [-> | ->]; reflexivity. Qed.

Lemma scan_exponent_end rest : ends_token rest -> scan_exponent rest = ([], rest).
Proof. destruct rest as [|c r]; [reflexivity|]. intros [-> | ->]; reflexivity. Qed.

Lemma nzhead_not_D0 u u' : nzhead u <> D0 u'.
Proof. induction u; simpl; auto; discriminate. Qed.

(** The decimal writing of a positive number does not start with 0. *)
Lemma to_uint_head p : forall u, Pos.to_uint p <> D0 u.
Proof.
  intros u H.
  assert (Hn := DecimalPos.Unsigned.to_of (Pos.to_uint p)).
  rewrite DecimalPos.Unsigned.of_to in Hn. simpl in Hn.
  rewrite H in Hn. unfold unorm in Hn. simpl in Hn.
  destruct (nzhead u) eqn:E; try discriminate.
  - injection Hn as ->. now apply (DecimalPos.Unsigned.to_uint_nonzero p).
  - now apply nzhead_not_D0 in E.
Qed.

Lemma scan_integer_pos p rest :
  ends_token rest ->
  scan_integer (uint_chars (Pos.to_uint p) ++ rest)
  = Some (uint_chars (Pos.to_uint p), rest).
Proof.
  intros H.
  assert (H0 := to_uint_head p).
  assert (Hn := DecimalPos.Unsigned.to_uint_nonnil p).
  destruct (Pos.to_uint p) as [|u|u|u|u|u|u|u|u|u|u];
    [contradiction|now contradiction (H0 u)|..];
    simpl; now rewrite span_digits_uint.
Qed.

Section NumberFacts.
Context {R : PyRuntime}.

Lemma match_number_int z rest :
  ends_token rest -> match_number (int_repr z ++ rest) = Some (VInt z, rest).
Proof.
  intros H. destruct z as [|p|p].
  - unfold match_number. simpl.
    now rewrite scan_fraction_end, scan_exponent_end.
  - unfold match_number.
    assert (Hs : scan_sign (uint_chars (Pos.to_uint p) ++ rest)
                 = (false, uint_chars (Pos.to_uint p) ++ rest)).
    { assert (Hn := DecimalPos.Unsigned.to_uint_nonnil p).
      destruct (Pos.to_uint p); [contradiction|reflexivity..]. }
    cbn [int_repr]. rewrite Hs, scan_integer_pos by exact H.
    rewrite scan_fraction_end, scan_exponent_end by exact H.
    rewrite digits_uint_chars.
    change (N.of_uint (Pos.to_uint p)) with (Pos.of_uint (Pos.to_uint p)).
    now rewrite DecimalPos.Unsigned.of_to.
  - unfold match_number. cbn [int_repr List.app scan_sign N.eqb Pos.eqb].
    rewrite scan_integer_pos by exact H.
    rewrite scan_fraction_end, scan_exponent_end by exact H.
    rewrite digits_uint_chars.
    change (N.of_uint (Pos.to_uint p)) with (Pos.of_uint (Pos.to_uint p)).
    now rewrite DecimalPos.Unsigned.of_to.
Qed.
End NumberFacts.

(** *** Values of the interchange format *)

Lemma uint_chars_head u rest :
  u <> Nil ->
  exists c t, uint_chars u ++ rest = c :: t /\ is_ascii_digit c = true.
Proof. destruct u; [contradiction|..]; intros _; simpl; eauto. Qed.

Lemma int_repr_number_start z rest : number_start (int_repr z ++ rest).
Proof.
  destruct z as [|p|p]; simpl.
  - now left.
  - destruct (uint_chars_head rest (DecimalPos.Unsigned.to_uint_nonnil p))
      as (c & t & -> & Hc). now left.
  - right. split; [reflexivity|].
    destruct (uint_chars_head rest (DecimalPos.Unsigned.to_uint_nonnil p))
      as (c & t & -> & Hc). exact Hc.
Qed.

Lemma int_repr_starts_value z rest : starts_value (int_repr z ++ rest).
Proof.
  assert (H := int_repr_number_start z rest).
  destruct (int_repr z ++ rest) as [|c s]; [contradiction|].
  simpl. unfold is_ascii_digit in H.
  destruct H as [H|[-> _]].
  - apply andb_prop in H as [H1 H2]. apply N.leb_le in H1, H2.
    unfold is_json_ws.
    repeat split; try lia.
    repeat (apply orb_false_intro); apply N.eqb_neq; lia.
  - repeat split; discriminate.
Qed.

Section ScanScalars.
Context {R : PyRuntime}.

(** A text that starts like a number is scanned as a number. *)
Lemma scan_once_number n s v rest :
  number_start s -> match_number s = Some (v, rest) ->
  scan_once (S n) s = POk v rest.
Proof.
  destruct s as [|c s']; [contradiction|].
  intros [Hd|[-> Hd]] Hm.
  - unfold is_ascii_digit in Hd.
    apply andb_prop in Hd as [H1 H2]. apply N.leb_le in H1, H2.
    cbn [scan_once].
    repeat match goal with
           | |- context [c =? ?k] =>
               replace (c =? k) with false by (symmetry; apply N.eqb_neq; lia)
           end.
    now rewrite Hm.
  - destruct s' as [|c' s'']; [contradiction|].
    unfold is_ascii_digit in Hd.
    apply andb_prop in Hd as [H1 H2]. apply N.leb_le in H1, H2.
    cbn [scan_once N.eqb Pos.eqb].
    unfold constant.
    replace (strip_prefix (py "-Infinity") (45 :: c' :: s'')) with (@None pystr).
    + now rewrite Hm.
    + change (py "-Infinity") with (45 :: 73 :: py "nfinity").
      cbn [strip_prefix]. change (45 =? 45) with true. cbv iota.
      replace (73 =? c') with false by (symmetry; apply N.eqb_neq; lia).
      reflexivity.
Qed.

Lemma scan_once_int n z rest :
  ends_token rest -> scan_once (S n) (int_repr z ++ rest) = POk (VInt z) rest.
Proof.
  intros H. apply scan_once_number.
  - apply int_repr_number_start.
  - now apply match_number_int.
Qed.

Lemma scan_once_str n s rest :
  scan_once (S n) (encode_str false s ++ rest) = POk (VStr s) rest.
Proof.
  unfold encode_str. cbn [List.app scan_once N.eqb Pos.eqb].
  rewrite <- app_assoc. cbn [List.app].
  now rewrite scanstring_escaped.
Qed.
End ScanScalars.

(** *** Floats *)

Lemma ends_token_not_digit c rest :
  ends_token (c :: rest) ->
  is_ascii_digit c = false /\ (c =? 45) = false /\ (c =? 48) = false /\
  (c =? 46) = false /\ (c =? 101) = false /\ (c =? 69) = false /\
  (c =? 43) = false.
Proof. intros [-> | ->]; repeat split; reflexivity. Qed.

Lemma span_digits_app s rest ds r :
  span_digits s = (ds, r) -> ends_token rest ->
  span_digits (s ++ rest) = (ds, r ++ rest) /\ s = ds ++ r.
Proof.
  revert ds r. induction s as [|c s IH]; intros ds r H Hr.
  - injection H as <- <-. split; [|reflexivity].
    now apply span_digits_end.
  - cbn [span_digits List.app] in *.
    destruct (is_ascii_digit c).
    + destruct (span_digits s) as [ds' r'] eqn:E. injection H as <- <-.
      destruct (IH _ _ eq_refl Hr) as [-> ->]. split; reflexivity.
    + injection H as <- <-. split; reflexivity.
Qed.

Lemma scan_sign_app s rest neg r :
  scan_sign s = (neg, r) -> ends_token rest ->
  scan_sign (s ++ rest) = (neg, r ++ rest) /\
  s = (if neg then [45] else []) ++ r.
Proof.
  intros H Hr. destruct s as [|c s].
  - injection H as <- <-. split; [|reflexivity].
    destruct rest as [|c rest]; [reflexivity|].
    destruct (@ends_token_not_digit _ _ Hr) as (_ & E & _).
    cbn [List.app scan_sign]. now rewrite E.
  - cbn [List.app scan_sign] in *. destruct (c =? 45) eqn:E.
    + injection H as <- <-. apply N.eqb_eq in E as ->. split; reflexivity.
    + injection H as <- <-. split; reflexivity.
Qed.

Lemma scan_integer_app s rest a r :
  scan_integer s = Some (a, r) -> ends_token rest ->
  scan_integer (s ++ rest) = Some (a, r ++ rest) /\ s = a ++ r.
Proof.
  intros H Hr. destruct s as [|c s]; [discriminate|].
  cbn [List.app scan_integer] in *. destruct (c =? 48).
  - injection H as <- <-. split; reflexivity.
  - destruct (is_ascii_digit c); [|discriminate].
    destruct (span_digits s) as [ds r'] eqn:E. injection H as <- <-.
    destruct (@span_digits_app _ _ _ _ E Hr) as [-> ->]. split; reflexivity.
Qed.

Lemma scan_integer_start s a r :
  scan_integer s = Some (a, r) ->
  exists c s', s = c :: s' /\ is_ascii_digit c = true.
Proof.
  destruct s as [|c s]; [discriminate|]. cbn [scan_integer].
  destruct (c =? 48) eqn:E.
  - apply N.eqb_eq in E as ->. intros _. now exists 48, s.
  - destruct (is_ascii_digit c) eqn:E'; [|discriminate]. intros _.
    now exists c, s.
Qed.

Lemma scan_fraction_app s rest a r :
  scan_fraction s = (a, r) -> ends_token rest ->
  scan_fraction (s ++ rest) = (a, r ++ rest) /\ s = a ++ r.
Proof.
  intros H Hr. destruct s as [|c s].
  - injection H as <- <-. split; [|reflexivity].
    now apply scan_fraction_end.
  - cbn [List.app scan_fraction] in *. destruct (c =? 46).
    + destruct (span_digits s) as [ds r'] eqn:E.
      destruct (@span_digits_app _ _ _ _ E Hr) as [-> ->].
      destruct ds as [|x ds]; injection H as <- <-; split; reflexivity.
    + injection H as <- <-. split; reflexivity.
Qed.

Lemma scan_exponent_app s rest a r :
  scan_exponent s = (a, r) -> ends_token rest ->
  scan_exponent (s ++ rest) = (a, r ++ rest) /\ s = a ++ r.
Proof.
  intros H Hr. destruct s as [|c s].
  - injection H as <- <-. split; [|reflexivity].
    now apply scan_exponent_end.
  - cbn [List.app scan_exponent] in *.
    destruct ((c =? 101) || (c =? 69)); [|injection H as <- <-; split; reflexivity].
    destruct s as [|x t].
    + cbn [List.app span_digits] in *. injection H as <- <-.
      destruct rest as [|y rest]; [split; reflexivity|].
      destruct (@ends_token_not_digit _ _ Hr) as (_ & E45 & _ & _ & _ & _ & E43).
      rewrite E43, E45. cbn [orb]. rewrite span_digits_end by exact Hr.
      split; reflexivity.
    + cbn [List.app] in *. destruct ((x =? 43) || (x =? 45)).
      * destruct (span_digits t) as [ds r'] eqn:E.
        destruct (@span_digits_app _ _ _ _ E Hr) as [-> ->].
        destruct ds as [|y ds]; injection H as <- <-; split; try reflexivity;
          cbn [List.app]; now rewrite <- app_assoc.
      * destruct (span_digits (x :: t)) as [ds r'] eqn:E.
        change (x :: t ++ rest) with ((x :: t) ++ rest).
        destruct (@span_digits_app _ _ _ _ E Hr) as [-> Hs].
        destruct ds as [|y ds]; injection H as <- <-; split; try reflexivity;
          cbn [List.app]; now rewrite Hs.
Qed.

Section FloatFacts.
Context {R : PyRuntime}.

(** The scanner reads a float token, alone before the end of a value, as
    the float of that token. *)
Lemma match_number_float t rest :
  float_token t = true -> ends_token rest ->
  match_number (t ++ rest) = Some (VFloat (float_of_literal t), rest) /\
  number_start (t ++ rest).
Proof.
  unfold float_token, match_number. intros H Hr.
  destruct (scan_sign t) as [neg s1] eqn:Es.
  destruct (scan_integer s1) as [[ichars r1]|] eqn:Ei; [|discriminate].
  destruct (scan_fraction r1) as [frac r2] eqn:Ef.
  destruct (scan_exponent r2) as [expo r3] eqn:Ee.
  destruct r3 as [|? ?]; [|discriminate].
  destruct (@scan_sign_app _ _ _ _ Es Hr) as [-> Ht].
  destruct (@scan_integer_app _ _ _ _ Ei Hr) as [-> Hs1].
  destruct (@scan_fraction_app _ _ _ _ Ef Hr) as [-> Hr1].
  destruct (@scan_exponent_app _ _ _ _ Ee Hr) as [-> Hr2].
  assert (Hlex : (if neg then [45] else []) ++ ichars ++ frac ++ expo = t).
  { rewrite Ht, Hs1, Hr1, Hr2, List.app_nil_r. reflexivity. }
  split.
  - cbn [List.app]. rewrite Hlex.
    destruct frac, expo; try discriminate; reflexivity.
  - destruct (@scan_integer_start _ _ _ Ei) as (c & s' & -> & Hc).
    rewrite Ht. destruct neg; cbn [List.app number_start].
    + right. split; [reflexivity|exact Hc].
    + left. exact Hc.
Qed.

Lemma number_start_value s : number_start s -> starts_value s.
Proof.
  destruct s as [|c s]; [contradiction|]. simpl.
  unfold is_ascii_digit. intros [H|[-> _]].
  - apply andb_prop in H as [H1 H2]. apply N.leb_le in H1, H2.
    unfold is_json_ws.
    repeat split; try lia.
    repeat (apply orb_false_intro); apply N.eqb_neq; lia.
  - repeat split; discriminate.
Qed.

Lemma scan_once_float n f rest :
  float_reads_back f -> ends_token rest ->
  scan_once (S n) (floatstr f ++ rest) = POk (VFloat f) rest.
Proof.
  intros Hf Hr. destruct f as [s|[]| |s m e]; try contradiction;
    try reflexivity.
  - destruct Hf as [Ht Hv].
    destruct (@match_number_float _ _ Ht Hr) as [Hm Hst].
    cbn [floatstr]. rewrite Hv in Hm. now apply scan_once_number.
  - destruct Hf as [Ht Hv].
    destruct (@match_number_float _ _ Ht Hr) as [Hm Hst].
    cbn [floatstr]. rewrite Hv in Hm. now apply scan_once_number.
Qed.

Lemma floatstr_starts_value f :
  float_reads_back f -> starts_value (floatstr f).
Proof.
  intros Hf. destruct f as [s|[]| |s m e]; try contradiction;
    try (cbv; repeat split; discriminate).
  - destruct Hf as [Ht _].
    destruct (@match_number_float _ [] Ht I) as [_ Hst].
    rewrite List.app_nil_r in Hst. now apply number_start_value.
  - destruct Hf as [Ht _].
    destruct (@match_number_float _ [] Ht I) as [_ Hst].
    rewrite List.app_nil_r in Hst. now apply number_start_value.
Qed.
End FloatFacts.

(** *** Lists and dictionaries *)

Lemma join_cons2 sep (t t' : pystr) ts :
  join sep (t :: t' :: ts) = t ++ sep ++ join sep (t' :: ts).
Proof. reflexivity. Qed.

Lemma starts_value_app t s : starts_value t -> starts_value (t ++ s).
Proof. destruct t; [contradiction|]. auto. Qed.

Lemma skip_ws_value t : starts_value t -> skip_ws t = t.
Proof.
  destruct t as [|c t]; [contradiction|]. intros [H _]. now apply skip_ws_start.
Qed.

Lemma starts_value_join sep t ts s : starts_value t -> starts_value (join sep (t :: ts) ++ s).
Proof.
  intros H. destruct ts.
  - now apply starts_value_app.
  - rewrite join_cons2, <- app_assoc. now apply starts_value_app.
Qed.

Section Containers.
Context {R : PyRuntime}.
Variable n : nat.
Variable scan : pystr -> pres pyval.

Lemma ends_token_newline lvl s : ends_token (newline_indent (Some n) lvl ++ s).
Proof. simpl. now right. Qed.

Lemma parse_array_back l ts :
  Forall2 (scans_back scan) l ts -> l <> [] ->
  forall loop_fuel acc lvl rest,
    (List.length l <= loop_fuel)%nat ->
    parse_array scan loop_fuel acc
      (join (44 :: newline_indent (Some n) (S lvl)) ts
       ++ newline_indent (Some n) lvl ++ 93 :: rest)
    = POk (VList (acc ++ l)) rest.
Proof.
  induction 1 as [|x t l ts [Hst Hx] Hrest IH]; [contradiction|].
  intros _ loop_fuel acc lvl rest Hlen.
  destruct loop_fuel as [|f]; [simpl in Hlen; lia|].
  destruct Hrest as [|x' t' l' ts' Hx' Hrest'].
  - cbn [join parse_array].
    rewrite Hx by apply ends_token_newline.
    rewrite skip_ws_newline_indent. cbn [skip_ws is_json_ws N.eqb Pos.eqb orb].
    reflexivity.
  - rewrite join_cons2, <- !app_assoc. cbn [parse_array].
    rewrite Hx by (simpl; now left).
    cbn [List.app skip_ws is_json_ws N.eqb Pos.eqb orb].
    rewrite skip_ws_newline_indent.
    rewrite skip_ws_value by (apply starts_value_join; apply Hx').
    rewrite IH; [|discriminate|simpl in *; lia].
    now rewrite <- app_assoc.
Qed.

Lemma dict_setitem_fresh acc k v :
  existsb (fun kv => key_eqb (fst kv) k) acc = false ->
  dict_setitem acc k v = acc ++ [(k, v)].
Proof.
  induction acc as [|[k' v'] acc IH]; simpl; [reflexivity|].
  intros H. apply orb_false_elim in H as [-> H]. now rewrite IH.
Qed.

Lemma keys_distinct_fresh acc k v d :
  keys_distinct (acc ++ (k, v) :: d) = true ->
  existsb (fun kv => key_eqb (fst kv) k) acc = false.
Proof.
  induction acc as [|[k' v'] acc IH]; simpl; [reflexivity|].
  intros H. apply andb_prop in H as [H1 H2].
  rewrite (IH H2), orb_false_r.
  apply negb_true_iff in H1. rewrite existsb_app in H1.
  apply orb_false_elim in H1 as [_ H1]. simpl in H1.
  now apply orb_false_elim in H1 as [H1 _].
Qed.

Lemma starts_value_entry kv part s :
  entry_scans_back scan kv part -> starts_value (part ++ s).
Proof.
  intros (k & t & _ & -> & _). unfold encode_str. simpl.
  repeat split; discriminate.
Qed.

Lemma parse_object_back d parts :
  Forall2 (entry_scans_back scan) d parts -> d <> [] ->
  forall loop_fuel acc lvl rest,
    (List.length d <= loop_fuel)%nat ->
    keys_distinct (acc ++ d) = true ->
    parse_object scan loop_fuel acc
      (join (44 :: newline_indent (Some n) (S lvl)) parts
       ++ newline_indent (Some n) lvl ++ 125 :: rest)
    = POk (VDict (acc ++ d)) rest.
Proof.
  induction 1 as [|[key x] part d parts (k & t & Hk & -> & Hst & Hx) Hrest IH];
    [contradiction|].
  cbn [fst snd] in Hk, Hx. subst key.
  intros _ loop_fuel acc lvl rest Hlen Hkeys.
  destruct loop_fuel as [|f]; [simpl in Hlen; lia|].
  assert (Hset : dict_setitem acc (VStr k) x = acc ++ [(VStr k, x)]).
  { apply dict_setitem_fresh. eapply keys_distinct_fresh; eauto. }
  destruct Hrest as [|kv' part' d' parts' Hx' Hrest'].
  - cbn [join]. unfold encode_str, key_separator.
    rewrite <- !app_assoc.
    cbn [List.app parse_object N.eqb Pos.eqb].
    rewrite <- app_assoc. cbn [List.app].
    rewrite scanstring_escaped.
    cbn [skip_ws is_json_ws N.eqb Pos.eqb orb].
    rewrite skip_ws_value by (now apply starts_value_app).
    rewrite Hx by apply ends_token_newline.
    rewrite skip_ws_newline_indent. cbn [skip_ws is_json_ws N.eqb Pos.eqb orb].
    now rewrite Hset.
  - rewrite join_cons2. unfold encode_str, key_separator.
    rewrite <- !app_assoc.
    cbn [List.app parse_object N.eqb Pos.eqb].
    rewrite <- app_assoc. cbn [List.app].
    rewrite scanstring_escaped.
    cbn [skip_ws is_json_ws N.eqb Pos.eqb orb].
    rewrite skip_ws_value by (now apply starts_value_app).
    rewrite Hx by (simpl; now left).
    cbn [List.app skip_ws is_json_ws N.eqb Pos.eqb orb].
    rewrite skip_ws_newline_indent.
    rewrite skip_ws_value
      by (destruct parts'; [|rewrite join_cons2, <- app_assoc];
          eapply starts_value_entry; eauto).
    rewrite Hset, IH; [|discriminate|simpl in *; lia|now rewrite <- app_assoc].
    now rewrite <- app_assoc.
Qed.
End Containers.

(** *** Every plain value is read back *)

Lemma length_join_bound (sep : pystr) (ts : list pystr) :
  (list_sum (map (@List.length N) ts) + List.length ts
   <= S (List.length (join (44%N :: sep) ts)))%nat.
Proof.
  induction ts as [|t [|t' ts] IH].
  - simpl. lia.
  - cbn [join map list_sum fold_right List.length]. lia.
  - rewrite join_cons2, !length_app.
    cbn [map list_sum fold_right List.length] in *. lia.
Qed.

Section RoundTrip.
Context {R : PyRuntime}.
Variable n : nat.

Lemma elems_read_back l lvl :
  Forall (fun x => plain x = true ->
                   Forall float_reads_back (floats x) -> reads_back n x) l ->
  forallb plain l = true ->
  Forall float_reads_back (flat_map floats l) ->
  exists ts,
    encode_elems (encode (Some n) false true lvl) l = Ok ts /\
    Forall2 read_back l ts.
Proof.
  induction 1 as [|x l Hx _ IH]; simpl; intros Hp Hf.
  - exists []. split; [reflexivity|constructor].
  - apply andb_prop in Hp as [Hpx Hpl]. apply Forall_app in Hf as [Hfx Hfl].
    destruct (Hx Hpx Hfx lvl) as (t & -> & Ht).
    destruct (IH Hpl Hfl) as (ts & -> & Hts).
    exists (t :: ts). split; [reflexivity|now constructor].
Qed.

Lemma items_read_back d lvl :
  Forall (fun kv =>
            (plain (fst kv) = true ->
             Forall float_reads_back (floats (fst kv)) -> reads_back n (fst kv)) /\
            (plain (snd kv) = true ->
             Forall float_reads_back (floats (snd kv)) -> reads_back n (snd kv)))
    d ->
  forallb (fun kv => let '(k, x) := kv in is_str k && plain x) d = true ->
  Forall float_reads_back
    (flat_map (fun kv => let '(_, x) := kv in floats x) d) ->
  exists parts,
    encode_items false (encode (Some n) false true lvl) d = Ok parts /\
    Forall2 (fun kv part =>
               exists k t, fst kv = VStr k /\
                           part = encode_str false k ++ key_separator ++ t /\
                           read_back (snd kv) t) d parts.
Proof.
  induction 1 as [|[k x] d [_ Hx] _ IH]; simpl; intros Hp Hf.
  - exists []. split; [reflexivity|constructor].
  - apply andb_prop in Hp as [Hpx Hpl]. apply andb_prop in Hpx as [Hk Hpx].
    apply Forall_app in Hf as [Hfx Hfl].
    destruct k as [| | | |key| | | | | |]; try discriminate.
    cbn [fst snd key_text] in *.
    destruct (Hx Hpx Hfx lvl) as (t & -> & Ht).
    destruct (IH Hpl Hfl) as (parts & -> & Hparts).
    eexists. split; [reflexivity|]. constructor; [|exact Hparts].
    exists key, t. auto.
Qed.

Lemma read_back_scans l ts f :
  Forall2 read_back l ts -> (list_sum (map size l) < f)%nat ->
  Forall2 (scans_back (scan_once f)) l ts.
Proof.
  induction 1 as [|x t l ts (Hs & _ & Hx) _ IH]; [constructor|].
  cbn [map list_sum fold_right]. intros Hf.
  constructor.
  - split; [exact Hs|]. intros rest Hr. apply Hx; [lia|exact Hr].
  - apply IH. unfold list_sum. lia.
Qed.

Lemma items_read_back_scans d parts f :
  Forall2 (fun kv part =>
             exists k t, fst kv = VStr k /\
                         part = encode_str false k ++ key_separator ++ t /\
                         read_back (snd kv) t) d parts ->
  (list_sum (map (fun kv => let '(_, x) := kv in size x) d) < f)%nat ->
  Forall2 (entry_scans_back (scan_once f)) d parts.
Proof.
  induction 1 as [|[k0 x] part d parts (k & t & Hk & Hp & Hs & _ & Hx) _ IH];
    [constructor|].
  cbn [map list_sum fold_right]. intros Hf.
  constructor.
  - exists k, t. repeat split; auto.
    intros rest Hr. apply Hx; [simpl; lia|exact Hr].
  - apply IH. unfold list_sum. lia.
Qed.

Lemma read_back_sizes l ts :
  Forall2 read_back l ts ->
  (list_sum (map size l) <= list_sum (map (@List.length N) ts))%nat /\
  List.length l = List.length ts.
Proof.
  induction 1 as [|x t l ts (_ & Hs & _) _ [IH1 IH2]]; [split; reflexivity|].
  cbn [map list_sum fold_right List.length]. unfold list_sum in IH1.
  split; lia.
Qed.

Lemma items_read_back_sizes d parts :
  Forall2 (fun kv part =>
             exists k t, fst kv = VStr k /\
                         part = encode_str false k ++ key_separator ++ t /\
                         read_back (snd kv) t) d parts ->
  (list_sum (map (fun kv => let '(_, x) := kv in size x) d)
   <= list_sum (map (@List.length N) parts))%nat /\
  List.length d = List.length parts.
Proof.
  induction 1 as [|[k0 x] part d parts (k & t & _ & -> & _ & Hs & _) _ [IH1 IH2]];
    [split; reflexivity|].
  cbn [map list_sum fold_right List.length]. unfold list_sum in IH1.
  rewrite !length_app. simpl in Hs. split; lia.
Qed.
End RoundTrip.

Section PlainValues.
Context {R : PyRuntime}.
Variable n : nat.

Lemma read_back_word (word : string) v :
  (forall f rest, scan_once (S f) (py word ++ rest) = POk v rest) ->
  starts_value (py word) -> size v = 1%nat ->
  read_back v (py word).
Proof.
  intros Hscan Hst Hsize. split; [exact Hst|]. split.
  - rewrite Hsize. destruct (py word); [contradiction|simpl; lia].
  - intros [|f] rest Hf _; [lia|apply Hscan].
Qed.

Lemma read_back_list lvl l ts :
  Forall2 (read_back) l ts ->
  read_back (VList l) (bracket (Some n) 91 93 lvl ts).
Proof.
  intros H. destruct (read_back_sizes H) as [Hsum Hlen].
  destruct H as [|x t l ts Hx Hrest].
  - split; [simpl; repeat split; discriminate|]. split; [simpl; lia|].
    intros [|f] rest Hf _; [lia|reflexivity].
  - unfold bracket. cbn [item_separator List.app].
    set (l0 := x :: l) in *. set (ts0 := t :: ts) in *.
    assert (H0 : Forall2 read_back l0 ts0) by now constructor.
    split; [simpl; repeat split; discriminate|]. split.
    + assert (Hj := length_join_bound (newline_indent (Some n) (S lvl)) ts0).
      cbn [size List.length]. rewrite !length_app. cbn [List.length].
      assert (Hn : (1 <= List.length (newline_indent (Some n) (S lvl)))%nat)
        by (simpl; lia).
      fold l0. lia.
    + intros [|f] rest Hf _; [lia|].
      cbn [size] in Hf. fold l0 in Hf.
      cbn [List.app scan_once N.eqb Pos.eqb].
      rewrite <- !app_assoc. rewrite skip_ws_newline_indent.
      assert (Hst : starts_value
                      (join (44 :: newline_indent (Some n) (S lvl)) ts0
                       ++ newline_indent (Some n) lvl ++ [93] ++ rest))
        by (apply starts_value_join; apply Hx).
      rewrite skip_ws_value by exact Hst.
      destruct (join _ ts0 ++ _) as [|c1 s1] eqn:E; [contradiction|].
      destruct Hst as (_ & H93 & _ & _).
      apply N.eqb_neq in H93. rewrite H93. rewrite <- E.
      eapply parse_array_back with (acc := []).
      * apply read_back_scans; [exact H0|fold l0; lia].
      * discriminate.
      * fold l0. lia.
Qed.

Lemma read_back_dict lvl d parts :
  Forall2 (fun kv part =>
             exists k t, fst kv = VStr k /\
                         part = encode_str false k ++ key_separator ++ t /\
                         read_back (snd kv) t) d parts ->
  keys_distinct d = true ->
  read_back (VDict d) (bracket (Some n) 123 125 lvl parts).
Proof.
  intros H Hkeys. destruct (items_read_back_sizes H) as [Hsum Hlen].
  destruct H as [|kv part d parts Hx Hrest].
  - split; [simpl; repeat split; discriminate|]. split; [simpl; lia|].
    intros [|f] rest Hf _; [lia|reflexivity].
  - unfold bracket. cbn [item_separator List.app].
    set (d0 := kv :: d) in *. set (parts0 := part :: parts) in *.
    assert (H0 : Forall2 (fun kv part =>
             exists k t, fst kv = VStr k /\
                         part = encode_str false k ++ key_separator ++ t /\
                         read_back (snd kv) t) d0 parts0) by now constructor.
    split; [simpl; repeat split; discriminate|]. split.
    + assert (Hj := length_join_bound (newline_indent (Some n) (S lvl)) parts0).
      cbn [size List.length]. rewrite !length_app. cbn [List.length].
      assert (Hn : (1 <= List.length (newline_indent (Some n) (S lvl)))%nat)
        by (simpl; lia).
      fold d0.
      match goal with
      | |- (S (?a + _) <= _)%nat =>
          match type of Hsum with (?b <= _)%nat => change b with a in Hsum end
      end.
      unfold pystr in *. lia.
    + intros [|f] rest Hf _; [lia|].
      cbn [size] in Hf. fold d0 in Hf.
      match type of Hf with
      | (S (?a + _) < _)%nat => assert (Hf' : (a < f)%nat) by lia
      end.
      cbn [List.app scan_once N.eqb Pos.eqb].
      rewrite <- !app_assoc. rewrite skip_ws_newline_indent.
      assert (Hs := items_read_back_scans H0 Hf').
      assert (Hst : starts_value
                      (join (44 :: newline_indent (Some n) (S lvl)) parts0
                       ++ newline_indent (Some n) lvl ++ [125] ++ rest)).
      { subst parts0. inversion Hs as [|? ? ? ? He _]; subst.
        destruct parts; [|rewrite join_cons2, <- app_assoc];
          eapply starts_value_entry; eauto. }
      rewrite skip_ws_value by exact Hst.
      destruct (join _ parts0 ++ _) as [|c1 s1] eqn:E; [contradiction|].
      destruct Hst as (_ & _ & H125 & _).
      apply N.eqb_neq in H125. rewrite H125. rewrite <- E.
      eapply parse_object_back with (acc := []).
      * exact Hs.
      * discriminate.
      * fold d0. lia.
      * exact Hkeys.
Qed.

(** A plain value has a text, whatever the level, and the scanner reads
    the text back as the value. *)
Lemma plain_reads_back v :
  plain v = true -> Forall float_reads_back (floats v) -> reads_back n v.
Proof.
  induction v as [| [] | | | | l IH | l IH | d IH | | c t attrs IH |]
    using pyval_rect'; intros Hp Hf lvl; try discriminate.
  - exists (py "null"). split; [reflexivity|].
    apply read_back_word; [reflexivity| |reflexivity].
    cbv. repeat split; discriminate.
  - exists (py "true"). split; [reflexivity|].
    apply read_back_word; [reflexivity| |reflexivity].
    cbv. repeat split; discriminate.
  - exists (py "false"). split; [reflexivity|].
    apply read_back_word; [reflexivity| |reflexivity].
    cbv. repeat split; discriminate.
  - exists (int_repr z). split; [reflexivity|].
    assert (Hst := int_repr_starts_value z []). rewrite List.app_nil_r in Hst.
    split; [exact Hst|]. split.
    + destruct (int_repr z); [contradiction|simpl; lia].
    + intros [|fu] rest Hfu Hr; [lia|now apply scan_once_int].
  - exists (floatstr f). split; [reflexivity|].
    cbn [floats] in Hf. apply Forall_inv in Hf.
    assert (Hst := floatstr_starts_value _ Hf).
    split; [exact Hst|]. split.
    + destruct (floatstr f); [contradiction|simpl; lia].
    + intros [|fu] rest Hfu Hr; [lia|now apply scan_once_float].
  - exists (encode_str false s). split; [reflexivity|].
    split; [simpl; repeat split; discriminate|]. split; [simpl; lia|].
    intros [|fu] rest Hfu Hr; [lia|apply scan_once_str].
  - cbn [plain] in Hp. cbn [floats] in Hf.
    destruct (@elems_read_back _ n l (S lvl) IH Hp Hf) as (ts & Hts & H2).
    exists (bracket (Some n) 91 93 lvl ts). cbn [encode]. rewrite Hts.
    split; [reflexivity|]. now apply read_back_list.
  - cbn [plain] in Hp. apply andb_prop in Hp as [Hp Hkeys]. cbn [floats] in Hf.
    destruct (@items_read_back _ n d (S lvl) IH Hp Hf) as (parts & Hparts & H2).
    exists (bracket (Some n) 123 125 lvl parts). cbn [encode]. rewrite Hparts.
    split; [reflexivity|]. now apply read_back_dict.
Qed.

(** [json.loads] gives back every plain value that [json.dumps] has
    written with an indentation. *)
Lemma loads_dumps v t :
  plain v = true -> Forall float_reads_back (floats v) ->
  encode (Some n) false true 0 v = Ok t ->
  json_loads t = Ok v.
Proof.
  intros Hp Hf He.
  destruct (plain_reads_back v Hp Hf 0%nat) as (t' & He' & Hst & Hsize & Hscan).
  rewrite He in He'. injection He' as <-.
  unfold json_loads.
  replace (has_bom t) with false.
  - rewrite skip_ws_value by exact Hst.
    specialize (Hscan (S (List.length t)) [] ltac:(lia) I).
    rewrite List.app_nil_r in Hscan. now rewrite Hscan.
  - destruct t as [|c t]; [reflexivity|].
    destruct Hst as (_ & _ & _ & Hb). symmetry. now apply N.eqb_neq.
Qed.
End PlainValues.

(** ** Round trip *)

Lemma validate_name_ok v s : _validate_name v = Ok s -> v = VStr s.
Proof.
  unfold _validate_name, value_error. destruct v; try discriminate.
  destruct (str_eqb _ _); [discriminate|].
  destruct (_ <? _)%nat; [discriminate|]. now intros [= ->].
Qed.

Lemma validate_email_ok v s : _validate_email v = Ok s -> v = VStr s.
Proof.
  unfold _validate_email, value_error. destruct v; try discriminate.
  destruct (_ || _); [discriminate|]. now intros [= ->].
Qed.

Lemma validate_age_plain v : _validate_age v = Ok tt -> plain v = true.
Proof.
  unfold _validate_age, value_error. destruct v; try discriminate; reflexivity.
Qed.

Lemma validate_age_floats v : _validate_age v = Ok tt -> floats v = [].
Proof.
  unfold _validate_age, value_error. destruct v; try discriminate; reflexivity.
Qed.

Lemma default_preferences_idem p :
  (if truthy (if truthy p then p else VDict []) then
     (if truthy p then p else VDict [])
   else VDict [])
  = (if truthy p then p else VDict []).
Proof. destruct (truthy p) eqn:E; [now rewrite E|reflexivity]. Qed.

Section RoundTripProfile.
Context {R : PyRuntime}.

Lemma to_dict_plain P :
  plain (age P) = true -> plain (preferences P) = true ->
  plain (created_at P) = true -> plain (last_updated P) = true ->
  plain (to_dict P) = true.
Proof.
  intros Ha Hp Hc Hu. unfold to_dict. cbn [plain forallb is_str andb].
  now rewrite Ha, Hp, Hc, Hu.
Qed.

Lemma to_dict_floats P :
  floats (age P) = [] ->
  Forall float_reads_back (floats (preferences P)) ->
  Forall float_reads_back (floats (created_at P)) ->
  Forall float_reads_back (floats (last_updated P)) ->
  Forall float_reads_back (floats (to_dict P)).
Proof.
  intros Ha Hp Hc Hu. unfold to_dict. cbn [floats flat_map List.app].
  rewrite Ha, List.app_nil_r. cbn [List.app].
  repeat (apply Forall_app; split); trivial.
Qed.

(** A profile whose fields are plain is serialized, to a text that
    [json.loads] reads back as the profile's dictionary. *)
Lemma serialize_plain P w :
  plain (to_dict P) = true ->
  Forall float_reads_back (floats (to_dict P)) ->
  exists text w',
    serialize_user_profile P None w = (Ok text, w') /\
    json_loads text = Ok (to_dict P).
Proof.
  intros Hp Hf.
  destruct (plain_reads_back 2 (to_dict P) Hp Hf 0%nat) as (text & Henc & _).
  assert (Hl : json_loads text = Ok (to_dict P)) by (eapply loads_dumps; eauto).
  exists text. eexists. split; [|exact Hl].
  unfold serialize_user_profile. apply try_ok.
  erewrite bind_ok by reflexivity.
  erewrite bind_ok
    by (unfold lift, json_dumps_profile; rewrite Henc; reflexivity).
  erewrite bind_ok.
  2:{ apply try_ok.
      erewrite bind_ok by (unfold lift; rewrite Hl; reflexivity).
      erewrite bind_ok by reflexivity.
      cbn [eq_str]. rewrite str_eqb_refl. reflexivity. }
  cbn [given]. reflexivity.
Qed.
End RoundTripProfile.

(** C1, as the code has it. Take a profile constructed with preferences
    that are [None] or a plain value: texts, integers, booleans, [None],
    floats other than NaN, lists and dictionaries with distinct text keys of
    such values. Whenever [serialize_user_profile] returns a text for it,
    [deserialize_user_profile] of that text gives the same profile back:
    name, age, email, preferences, [created_at] and [last_updated]. (The
    floats are read back by what Python promises of [repr] and [float].) *)
Theorem C1_round_trip_amended :
  forall (R : PyRuntime) (name_ age_ email_ prefs : pyval) (w : world)
         (P : UserProfile) (w1 : world) (text : pystr) (w2 : world),
    plain prefs = true ->
    Forall float_reads_back (floats prefs) ->
    __init__ name_ age_ email_ prefs w = (Ok P, w1) ->
    serialize_user_profile P None w1 = (Ok text, w2) ->
    exists w3, deserialize_user_profile text None w2 = (Ok P, w3).
Proof.
  intros R name_ age_ email_ prefs w P w1 text0 w20 Hplain Hfloats Hinit Hser.
  destruct (init_ok _ _ _ _ _ Hinit) as (Hn & Ha & He & HP & _).
  assert (Hpp : plain (preferences P) = true).
  { rewrite HP. simpl. now destruct (truthy prefs). }
  assert (Hpf : Forall float_reads_back (floats (preferences P))).
  { rewrite HP. simpl. destruct (truthy prefs); [exact Hfloats|constructor]. }
  assert (Hd : plain (to_dict P) = true).
  { apply to_dict_plain; auto.
    - rewrite HP. simpl. now apply validate_age_plain.
    - now rewrite HP.
    - now rewrite HP. }
  assert (Hdf : Forall float_reads_back (floats (to_dict P))).
  { apply to_dict_floats; auto.
    - rewrite HP. simpl. now apply validate_age_floats.
    - rewrite HP. constructor.
    - rewrite HP. constructor. }
  destruct (serialize_plain P w1 Hd Hdf) as (text & w2 & Hs & Hl).
  rewrite Hs in Hser. injection Hser as <- <-.
  unfold to_dict in Hl.
  match type of Hl with _ = Ok (VDict ?d0) => set (d := d0) in * end.
  set (w' := version_checked d w2).
  apply validate_name_ok in Hn as Hn'. apply validate_email_ok in He as He'.
  assert (Hage : age P = age_) by (rewrite HP; reflexivity).
  assert (Hi : __init__ (VStr (name P)) (age P) (VStr (email P))
                 (dict_get_default d (py "preferences") (VDict [])) w'
               = (Ok (new_profile (name P) (age P) (email P) (preferences P) w'),
                  tick w')).
  { rewrite init_spec, <- Hn', <- He', Hn, He, Hage, Ha. reflexivity. }
  assert (Hf : from_dict d w' = (Ok P, tick w')).
  { erewrite from_dict_ok; [| | | |exact Hi]; try reflexivity.
    assert (Hpi : (if truthy (preferences P) then preferences P else VDict [])
                  = preferences P).
    { rewrite HP. cbn [preferences new_profile].
      apply default_preferences_idem. }
    f_equal. unfold restore_metadata, new_profile.
    change (dict_get d (py "created_at")) with (Some (created_at P)).
    change (dict_get d (py "last_updated")) with (Some (last_updated P)).
    rewrite Hpi. destruct P. reflexivity. }
  eexists.
  erewrite deserialize_record by eauto. reflexivity.
Qed.

Lemma C1_round_trip_amended_witness :
  exists w3,
    deserialize_user_profile
      (jtext "{
  'name': 'Integrity Test',
  'age': 30,
  'email': 'test@example.com',
  'preferences': {
    'setting': 'value',
    'ratio': 0.0,
    'limit': Infinity,
    'sizes': [
      12,
      -3
    ]
  },
  'created_at': '2024-01-01T00:00:00',
  'last_updated': '2024-01-01T00:00:00',
  '_version': '1.0'
}")
      None
      (logged INFO (py "Successfully serialized profile for: Integrity Test")
         (logged INFO (py "Starting serialization for user: Integrity Test")
            (tick world0)))
    = (Ok (new_profile (py "Integrity Test") (VInt 30) (py "test@example.com")
             (VDict [(VStr (py "setting"), VStr (py "value"));
                     (VStr (py "ratio"), VFloat (S754_zero false));
                     (VStr (py "limit"), VFloat (S754_infinity false));
                     (VStr (py "sizes"), VList [VInt 12; VInt (-3)])])
             world0), w3).
Proof.
  apply (@C1_round_trip_amended latin1_runtime
           (VStr (py "Integrity Test")) (VInt 30) (VStr (py "test@example.com"))
           (VDict [(VStr (py "setting"), VStr (py "value"));
                   (VStr (py "ratio"), VFloat (S754_zero false));
                   (VStr (py "limit"), VFloat (S754_infinity false));
                   (VStr (py "sizes"), VList [VInt 12; VInt (-3)])])
           world0 _ (tick world0)).
  - reflexivity.
  - repeat constructor.
  - reflexivity.
  - vm_compute. reflexivity.
Defined.

(** C1 as stated fails: the profile below is validly constructed and is
    serialized and deserialized without error, but its preferences come
    back with a text where the [datetime] was. *)
Lemma C1_counterexample :
  exists P w1 text w2 P' w3,
    __init__ (VStr (py "Ada")) (VInt 36) (VStr (py "ada@example.com"))
      since_preferences world0 = (Ok P, w1) /\
    serialize_user_profile P None w1 = (Ok text, w2) /\
    deserialize_user_profile text None w2 = (Ok P', w3) /\
    preferences P = since_preferences /\
    preferences P'
    = VDict [(VStr (py "since"), VStr (py "2024-05-01T09:30:00"))] /\
    preferences P' <> preferences P.
Proof.
  do 6 eexists.
  split; [reflexivity|].
  split; [vm_compute; reflexivity|].
  split; [vm_compute; reflexivity|].
  split; [reflexivity|]. split; [reflexivity|].
  discriminate.
Qed.

(** ** The scanner has fuel enough

    [json_loads] gives the scanner more fuel than the text has characters;
    it never runs out, so that [json_loads] raises nothing but
    [JSONDecodeError]. *)

Lemma skip_ws_length s : (List.length (skip_ws s) <= List.length s)%nat.
Proof.
  induction s as [|c s IH]; simpl; [lia|].
  destruct (is_json_ws c); simpl; lia.
Qed.

Lemma push_ok c r t rest :
  push c r = POk t rest -> exists t', r = POk t' rest /\ t = c :: t'.
Proof. destruct r; simpl; try discriminate. intros [= <- <-]. eauto. Qed.

Lemma scanstring_shorter : forall m s, (List.length s < m)%nat ->
  scanstring s <> PFuel /\
  forall t rest, scanstring s = POk t rest ->
                 (List.length rest < List.length s)%nat.
Proof.
  induction m as [|m IH]; intros s Hm; [lia|].
  assert (Hpush : forall c s', (List.length s' < m)%nat ->
            push c (scanstring s') <> PFuel /\
            forall t rest, push c (scanstring s') = POk t rest ->
                           (List.length rest < List.length s')%nat).
  { intros c s' Hs'. destruct (IH s' Hs') as [H1 H2]. split.
    - destruct (scanstring s'); simpl; congruence.
    - intros t rest H. apply push_ok in H as (t' & H & _). eauto. }
  destruct s as [|c s1]; [split; [discriminate|discriminate]|].
  cbn [scanstring]. simpl in Hm.
  destruct (c =? 34); [split; [discriminate|intros ? ? [= <- <-]; simpl; lia]|].
  destruct (c =? 92).
  - destruct s1 as [|e s2]; [split; discriminate|]. simpl in Hm.
    destruct (e =? 117).
    + destruct s2 as [|a [|b [|c' [|d s3]]]]; try (split; discriminate).
      simpl in Hm.
      destruct (hex4_value a b c' d) as [u|]; [|split; discriminate].
      assert (H3 := Hpush u s3 ltac:(lia)).
      destruct s3 as [|bs [|uc [|h1 [|h2 [|h3 [|h4 s4]]]]]];
        try (destruct H3 as [H31 H32]; split;
             [exact H31|intros t rest H; specialize (H32 _ _ H); simpl in *; lia]).
      destruct (is_high_surrogate u && (bs =? 92) && (uc =? 117)).
      * destruct (hex4_value h1 h2 h3 h4) as [u2|]; [|split; discriminate].
        destruct (is_low_surrogate u2).
        -- destruct (Hpush (join_surrogates u u2) s4 ltac:(simpl in *; lia))
             as [H41 H42].
           split; [exact H41|].
           intros t rest H. specialize (H42 _ _ H). simpl in *. lia.
        -- destruct H3 as [H31 H32]. split; [exact H31|].
           intros t rest H. specialize (H32 _ _ H). simpl in *. lia.
      * destruct H3 as [H31 H32]. split; [exact H31|].
        intros t rest H. specialize (H32 _ _ H). simpl in *. lia.
    + destruct (unescape e) as [ch|]; [|split; discriminate].
      destruct (Hpush ch s2 ltac:(lia)) as [H1 H2]. split; [exact H1|].
      intros t rest H. specialize (H2 _ _ H). simpl. lia.
  - destruct (c <? 32); [split; discriminate|].
    destruct (Hpush c s1 ltac:(lia)) as [H1 H2]. split; [exact H1|].
    intros t rest H. specialize (H2 _ _ H). simpl. lia.
Qed.

Lemma scanstring_fuel s : scanstring s <> PFuel.
Proof. apply (@scanstring_shorter (S (List.length s))). lia. Qed.

Lemma scanstring_length s t rest :
  scanstring s = POk t rest -> (List.length rest < List.length s)%nat.
Proof. apply (@scanstring_shorter (S (List.length s))). lia. Qed.

Lemma span_digits_length s ds rest :
  span_digits s = (ds, rest) -> (List.length rest <= List.length s)%nat.
Proof.
  revert ds rest. induction s as [|c s IH]; simpl; intros ds rest.
  - intros [= <- <-]. simpl. lia.
  - destruct (is_ascii_digit c).
    + destruct (span_digits s) as [ds' rest'] eqn:E. intros [= <- <-].
      specialize (IH _ _ eq_refl). lia.
    + intros [= <- <-]. simpl. lia.
Qed.

Lemma strip_prefix_length p s rest :
  strip_prefix p s = Some rest ->
  (List.length rest + List.length p = List.length s)%nat.
Proof.
  revert s. induction p as [|x p IH]; intros s; simpl.
  - intros [= <-]. lia.
  - destruct s as [|y s]; [discriminate|].
    destruct (x =? y); [|discriminate]. intros H. apply IH in H. simpl. lia.
Qed.

Lemma scan_fraction_length s f rest :
  scan_fraction s = (f, rest) -> (List.length rest <= List.length s)%nat.
Proof.
  unfold scan_fraction. destruct s as [|c r]; [intros [= <- <-]; lia|].
  destruct (c =? 46); [|intros [= <- <-]; lia].
  destruct (span_digits r) as [[|x fd] rest'] eqn:E; intros [= <- <-]; [lia|].
  apply span_digits_length in E. simpl. lia.
Qed.

Lemma scan_exponent_length s f rest :
  scan_exponent s = (f, rest) -> (List.length rest <= List.length s)%nat.
Proof.
  unfold scan_exponent. destruct s as [|c r]; [intros [= <- <-]; lia|].
  destruct ((c =? 101) || (c =? 69)); [|intros [= <- <-]; lia].
  destruct (match r with
            | [] => ([], r)
            | x :: t => if (x =? 43) || (x =? 45) then ([x], t) else ([], r)
            end) as [sg r'] eqn:Er.
  assert (Hr : (List.length r' <= List.length r)%nat).
  { destruct r as [|x t]; [injection Er as <- <-; lia|].
    destruct ((x =? 43) || (x =? 45)); injection Er as <- <-; simpl; lia. }
  destruct (span_digits r') as [[|x ed] rest'] eqn:E; intros [= <- <-]; [lia|].
  apply span_digits_length in E. simpl. lia.
Qed.

Lemma scan_integer_length s i rest :
  scan_integer s = Some (i, rest) -> (List.length rest < List.length s)%nat.
Proof.
  unfold scan_integer. destruct s as [|c s']; [discriminate|].
  destruct (c =? 48); [intros [= <- <-]; simpl; lia|].
  destruct (is_ascii_digit c); [|discriminate].
  destruct (span_digits s') as [ds rest'] eqn:E. intros [= <- <-].
  apply span_digits_length in E. simpl. lia.
Qed.

Section Fuel.
Context {R : PyRuntime}.

Lemma match_number_length s v rest :
  match_number s = Some (v, rest) -> (List.length rest < List.length s)%nat.
Proof.
  unfold match_number.
  destruct (scan_sign s) as [neg s1] eqn:Es.
  assert (Hs : (List.length s1 <= List.length s)%nat).
  { unfold scan_sign in Es. destruct s as [|c t]; [injection Es as <- <-; lia|].
    destruct (c =? 45); injection Es as <- <-; simpl; lia. }
  destruct (scan_integer s1) as [[ichars r1]|] eqn:Ei; [|discriminate].
  apply scan_integer_length in Ei.
  destruct (scan_fraction r1) as [frac r2] eqn:Ef.
  apply scan_fraction_length in Ef.
  destruct (scan_exponent r2) as [expo r3] eqn:Ee.
  apply scan_exponent_length in Ee.
  destruct frac, expo; intros [= <- <-]; lia.
Qed.

Lemma constant_length word v s otherwise x rest :
  word <> [] ->
  (forall y r, otherwise = Some (y, r) -> (List.length r < List.length s)%nat) ->
  constant word v s otherwise = Some (x, rest) ->
  (List.length rest < List.length s)%nat.
Proof.
  intros Hw Ho. unfold constant.
  destruct (strip_prefix word s) as [r|] eqn:E.
  - intros [= <- <-]. apply strip_prefix_length in E.
    destruct word; [contradiction|]. simpl in E. lia.
  - apply Ho.
Qed.

Lemma parse_array_consumes bound scan :
  consumes bound scan ->
  forall loop acc s,
    (List.length s < loop)%nat -> (List.length s < bound)%nat ->
    parse_array scan loop acc s <> PFuel /\
    forall v rest, parse_array scan loop acc s = POk v rest ->
                   (List.length rest < List.length s)%nat.
Proof.
  intros Hscan. induction loop as [|loop IH]; intros acc s Hl Hb; [lia|].
  cbn [parse_array]. destruct (Hscan s Hb) as [H1 H2].
  destruct (scan s) as [v s1| |]; [|split; discriminate|contradiction].
  specialize (H2 _ _ eq_refl).
  assert (Hw := skip_ws_length s1).
  destruct (skip_ws s1) as [|c s2]; [split; discriminate|]. simpl in Hw.
  destruct (c =? 93); [split; [discriminate|intros ? ? [= <- <-]; lia]|].
  destruct (c =? 44); [|split; discriminate].
  assert (Hw2 := skip_ws_length s2).
  destruct (IH (acc ++ [v]) (skip_ws s2) ltac:(lia) ltac:(lia)) as [H3 H4].
  split; [exact H3|]. intros v' rest H. specialize (H4 _ _ H). lia.
Qed.

Lemma parse_object_consumes bound scan :
  consumes bound scan ->
  forall loop acc s,
    (List.length s < loop)%nat -> (List.length s < bound)%nat ->
    parse_object scan loop acc s <> PFuel /\
    forall v rest, parse_object scan loop acc s = POk v rest ->
                   (List.length rest < List.length s)%nat.
Proof.
  intros Hscan. induction loop as [|loop IH]; intros acc s Hl Hb; [lia|].
  cbn [parse_object].
  destruct s as [|c s1]; [split; discriminate|]. simpl in Hl, Hb.
  destruct (c =? 34); [|split; discriminate].
  assert (Hk := @scanstring_length s1). assert (Hkf := scanstring_fuel s1).
  destruct (scanstring s1) as [key s2| |]; [|split; discriminate|contradiction].
  specialize (Hk _ _ eq_refl).
  assert (Hw := skip_ws_length s2).
  destruct (skip_ws s2) as [|c2 s3]; [split; discriminate|]. simpl in Hw.
  destruct (c2 =? 58); [|split; discriminate].
  assert (Hw3 := skip_ws_length s3).
  destruct (Hscan (skip_ws s3) ltac:(lia)) as [H1 H2].
  destruct (scan (skip_ws s3)) as [v s4| |]; [|split; discriminate|contradiction].
  specialize (H2 _ _ eq_refl).
  assert (Hw4 := skip_ws_length s4).
  destruct (skip_ws s4) as [|c3 s5]; [split; discriminate|]. simpl in Hw4.
  destruct (c3 =? 125);
    [split; [discriminate|intros ? ? [= <- <-]; simpl; lia]|].
  destruct (c3 =? 44); [|split; discriminate].
  assert (Hw5 := skip_ws_length s5).
  destruct (IH (dict_setitem acc (VStr key) v) (skip_ws s5)
              ltac:(lia) ltac:(lia)) as [H3 H4].
  split; [exact H3|]. intros v' rest H. specialize (H4 _ _ H). simpl. lia.
Qed.

Lemma scan_once_consumes fuel : consumes fuel (scan_once fuel).
Proof.
  induction fuel as [|n IH]; intros s Hs; [lia|].
  cbn [scan_once].
  destruct s as [|c s']; [split; discriminate|]. simpl in Hs.
  destruct (c =? 34).
  { assert (Hk := @scanstring_length s'). assert (Hkf := scanstring_fuel s').
    destruct (scanstring s'); [|split; discriminate|contradiction].
    split; [discriminate|]. intros ? ? [= <- <-].
    specialize (Hk _ _ eq_refl). simpl. lia. }
  destruct (c =? 123).
  { assert (Hw := skip_ws_length s').
    destruct (skip_ws s') as [|c1 s1]; [split; discriminate|]. simpl in Hw.
    destruct (c1 =? 125);
      [split; [discriminate|intros ? ? [= <- <-]; simpl; lia]|].
    destruct (@parse_object_consumes n (scan_once n) IH n [] (c1 :: s1)
                ltac:(simpl; lia) ltac:(simpl; lia)) as [H1 H2].
    split; [exact H1|]. intros v rest H. specialize (H2 _ _ H).
    simpl in *. lia. }
  destruct (c =? 91).
  { assert (Hw := skip_ws_length s').
    destruct (skip_ws s') as [|c1 s1]; [split; discriminate|]. simpl in Hw.
    destruct (c1 =? 93);
      [split; [discriminate|intros ? ? [= <- <-]; simpl; lia]|].
    destruct (@parse_array_consumes n (scan_once n) IH n [] (c1 :: s1)
                ltac:(simpl; lia) ltac:(simpl; lia)) as [H1 H2].
    split; [exact H1|]. intros v rest H. specialize (H2 _ _ H).
    simpl in *. lia. }
  match goal with
  | |- context [match ?scalar with Some _ => _ | None => _ end] =>
      assert (Hsc : forall x rest, scalar = Some (x, rest) ->
                (List.length rest < List.length (c :: s'))%nat);
      [|destruct scalar as [[x rest]|];
        [split; [discriminate|intros ? ? [= <- <-]; exact (Hsc _ _ eq_refl)]
        |split; discriminate]]
  end.
  intros x rest.
  repeat match goal with
         | |- context [if ?b then _ else _] => destruct b
         end;
    intros H;
    try (apply match_number_length in H; exact H);
    (eapply constant_length in H;
     [exact H|discriminate
     |intros y r Hy; try discriminate Hy; now apply match_number_length in Hy]).
Qed.

Lemma scan_once_fuel (s s' : pystr) :
  (List.length s' <= List.length s)%nat ->
  scan_once (S (List.length s)) s' <> PFuel.
Proof. intros H. apply scan_once_consumes. lia. Qed.

(** [json.loads] raises nothing but [JSONDecodeError]. *)
Lemma json_loads_class s e : json_loads s = Raise e -> exn_cls e = JSONDecodeError.
Proof.
  unfold json_loads. destruct (has_bom s); [now intros [= <-]|].
  assert (Hf := @scan_once_fuel s (skip_ws s) (skip_ws_length s)).
  destruct (scan_once _ _) as [v rest|m|]; [| |contradiction].
  - destruct (skip_ws rest); [discriminate|now intros [= <-]].
  - now intros [= <-].
Qed.
End Fuel.

(** ** Where the recovered age agrees with the specification

    Outside the digit characters that have no decimal value, the recovery
    does what is specified: a text of ASCII digits gives the number it
    writes, and a value whose text has a character that is no digit gives
    age 0. *)

Lemma uint_chars_digits u : forallb is_ascii_digit (uint_chars u) = true.
Proof. induction u; simpl; auto. Qed.

Lemma lstrip_digit c s : is_ascii_digit c = true -> lstrip (c :: s) = c :: s.
Proof.
  intros H. simpl. replace (is_space c) with false; [reflexivity|].
  unfold is_ascii_digit in H. apply andb_prop in H as [H1 H2].
  apply N.leb_le in H1, H2. unfold is_space. symmetry.
  repeat (apply orb_false_intro);
    try (apply N.eqb_neq; lia);
    apply andb_false_iff; rewrite !N.leb_gt; lia.
Qed.

Lemma strip_digits s :
  forallb is_ascii_digit s = true -> strip s = s.
Proof.
  intros H. unfold strip.
  destruct s as [|c s]; [reflexivity|].
  cbn [forallb] in H. apply andb_prop in H as [Hc Hs].
  rewrite lstrip_digit by exact Hc.
  assert (Hr : forallb is_ascii_digit (List.rev (c :: s)) = true).
  { rewrite forallb_forall. intros x Hx. apply in_rev in Hx.
    destruct Hx as [<-|Hx]; [exact Hc|].
    rewrite forallb_forall in Hs. now apply Hs. }
  destruct (List.rev (c :: s)) as [|x r] eqn:E.
  - apply (f_equal (@List.length N)) in E. rewrite length_rev in E. discriminate.
  - cbn [forallb] in Hr. apply andb_prop in Hr as [Hx _].
    rewrite lstrip_digit by exact Hx. rewrite <- E. apply rev_involutive.
Qed.

Section RecoveredAgeAscii.
Context {R : PyRuntime}.

Lemma ascii_digit_tables c :
  is_ascii_digit c = true ->
  uni_isdigit c = true /\ uni_decimal c = Some (c - 48) /\ c <> 95 /\
  c <> 45 /\ c <> 43.
Proof.
  intros H. assert (H' := H). unfold is_ascii_digit in H'.
  apply andb_prop in H' as [H1 H2]. apply N.leb_le in H1, H2.
  rewrite uni_isdigit_latin1, uni_decimal_latin1 by lia.
  unfold latin1_isdigit, latin1_decimal. rewrite H.
  repeat split; lia.
Qed.

Lemma str_isdigit_ascii s :
  s <> [] -> forallb is_ascii_digit s = true -> str_isdigit s = true.
Proof.
  intros Hne H. unfold str_isdigit. destruct s as [|c s]; [contradiction|].
  rewrite forallb_forall in *. intros x Hx.
  now apply ascii_digit_tables, H.
Qed.

Lemma int_digits_ascii s :
  forall acc after,
    forallb is_ascii_digit s = true -> (s <> [] \/ after = true) ->
    int_digits s acc after =
    Some (fold_left (fun acc c => 10 * acc + (c - 48)) s acc).
Proof.
  induction s as [|c s IH]; intros acc after H Hne.
  - destruct Hne as [Hne| ->]; [contradiction|reflexivity].
  - cbn [forallb] in H. apply andb_prop in H as [Hc Hs].
    destruct (ascii_digit_tables c Hc) as (_ & Hd & H95 & _).
    cbn [int_digits fold_left].
    apply N.eqb_neq in H95. rewrite H95, Hd. apply IH; auto.
Qed.

Lemma int_of_str_ascii s :
  s <> [] -> forallb is_ascii_digit s = true ->
  int_of_str s = Ok (Z.of_N (decimal_value s)).
Proof.
  intros Hne H. unfold int_of_str. rewrite strip_digits by exact H.
  destruct s as [|c s]; [contradiction|].
  assert (Hc : is_ascii_digit c = true)
    by (cbn [forallb] in H; now apply andb_prop in H as [Hc _]).
  destruct (ascii_digit_tables c Hc) as (_ & _ & _ & H45 & H43).
  apply N.eqb_neq in H45, H43. rewrite H45, H43.
  rewrite int_digits_ascii by (auto; left; discriminate). reflexivity.
Qed.

(** A text of ASCII digits is accepted, as the number it writes. *)
Lemma backup_age_digits s :
  s <> [] -> forallb is_ascii_digit s = true ->
  backup_age (VStr s) = Ok (VInt (Z.of_N (decimal_value s))).
Proof.
  intros Hne H. unfold backup_age. cbn [is_int is_float is_str orb andb py_str].
  rewrite str_isdigit_ascii by assumption.
  cbn [py_int]. now rewrite int_of_str_ascii.
Qed.

(** An integer that is not negative is accepted as it is. *)
Lemma backup_age_natural z : (0 <= z)%Z -> backup_age (VInt z) = Ok (VInt z).
Proof.
  intros Hz. unfold backup_age. cbn [is_int orb andb py_str py_repr].
  assert (Hd : str_isdigit (int_repr z) = true).
  { apply str_isdigit_ascii.
    - destruct z; simpl; try discriminate.
      intros E. apply (DecimalPos.Unsigned.to_uint_nonnil p).
      destruct (Pos.to_uint p); [reflexivity|discriminate..].
    - destruct z; simpl; [reflexivity|apply uint_chars_digits|lia]. }
  now rewrite Hd.
Qed.

(** A negative integer, a boolean and a float give age 0. *)
Lemma backup_age_rejected v :
  (exists z, v = VInt z /\ (z < 0)%Z) \/ (exists b, v = VBool b) \/
  (exists f, v = VFloat f) ->
  backup_age v = Ok (VInt 0).
Proof.
  intros [(z & -> & Hz)|[(b & ->)|(f & ->)]]; apply backup_age_default.
  - destruct z; try lia. cbn [py_str py_repr int_repr].
    now rewrite isdigit_latin1 by reflexivity.
  - destruct b; cbn [py_str py_repr].
    + change (py "True") with (84 :: py "rue").
      now rewrite isdigit_latin1 by reflexivity.
    + change (py "False") with (70 :: py "alse").
      now rewrite isdigit_latin1 by reflexivity.
  - cbn [py_str py_repr]. unfold str_isdigit.
    destruct (float_repr f) eqn:E; [reflexivity|].
    rewrite <- E. apply float_repr_not_digits.
Qed.
End RecoveredAgeAscii.

(** * Further properties *)

(** ** What decoding accepts and how it fails *)

Lemma bind_inv_raise {A B} (m : M A) (k : A -> M B) w e w2 :
  bind m k w = (Raise e, w2) ->
  m w = (Raise e, w2) \/
  exists a w1, m w = (Ok a, w1) /\ k a w1 = (Raise e, w2).
Proof.
  unfold bind. destruct (m w) as [[a|e'] w1]; [eauto|].
  intros [= <- <-]. now left.
Qed.

Lemma try_inv_raise {A} (body : M A) clauses w e w2 :
  try_except body clauses w = (Raise e, w2) ->
  exists e0 w1, body w = (Raise e0, w1) /\ dispatch e0 clauses w1 = (Raise e, w2).
Proof.
  unfold try_except. destruct (body w) as [[a|e0] w1]; [discriminate|eauto].
Qed.

(** Whether the constructor raises, and what, does not depend on the
    world. *)
Lemma init_raises_anywhere name_ age_ email_ prefs w0 w1 e w :
  __init__ name_ age_ email_ prefs w0 = (Raise e, w1) ->
  __init__ name_ age_ email_ prefs w = (Raise e, w).
Proof.
  rewrite !init_spec.
  destruct (_validate_name name_); [|now intros [= <- _]].
  destruct (_validate_age age_); [|now intros [= <- _]].
  destruct (_validate_email email_); [discriminate|now intros [= <- _]].
Qed.

Section DecodeOutcome.
Context {R : PyRuntime}.

Lemma decoding_wraps msg w :
  dispatch (Exn DeserializationError msg)
    [ ([KeyError],
       fail_deserialization "Missing required field in JSON data: ");
      ([ValueError],
       fail_deserialization "Data validation error during deserialization: ");
      ([Exception],
       fail_deserialization "Unexpected error during deserialization: ") ] w
  = (Raise (Exn DeserializationError (unexpected_decoding ++ msg)),
     logged ERROR (unexpected_decoding ++ msg) w).
Proof. reflexivity. Qed.

Lemma deserialize_body_raises text w msg w1 :
  (json_data <- ret text ;;
   if str_eqb json_data []
   then raise DeserializationError
          (py "No JSON data provided for deserialization")
   else
   parsed_data <-
     try_except (lift (json_loads json_data))
       [ ([JSONDecodeError],
          fun e => raise DeserializationError
                     (py "Invalid JSON format: " ++ exn_msg e)) ] ;;
   match parsed_data with
   | VDict data =>
       let version := dict_get_default data (py "_version") (VStr (py "1.0")) in
       (if negb (eq_str version (py "1.0"))
        then logger WARNING
               (py "Loading data with different schema version: "
                ++ py_str version)
        else ret tt) ;;;
       profile <- from_dict data ;;
       logger INFO (py "Successfully deserialized profile for: "
                    ++ name profile) ;;;
       ret profile
   | _ => raise DeserializationError
            (py "JSON data must represent a dictionary")
   end) w = (Raise (Exn DeserializationError msg), w1) ->
  deserialize_user_profile text None w
  = (Raise (Exn DeserializationError (unexpected_decoding ++ msg)),
     logged ERROR (unexpected_decoding ++ msg) w1).
Proof.
  intros H. unfold deserialize_user_profile. cbn [given].
  erewrite try_raise by exact H. apply decoding_wraps.
Qed.

Lemma version_step d w :
  (if negb (eq_str (dict_get_default d (py "_version") (VStr (py "1.0")))
              (py "1.0"))
   then logger WARNING
          (py "Loading data with different schema version: "
           ++ py_str (dict_get_default d (py "_version") (VStr (py "1.0"))))
   else ret tt) w = (Ok tt, version_checked d w).
Proof. unfold version_checked. destruct (negb _); reflexivity. Qed.

(** Decoding a record whose [from_dict] raises. *)
Lemma deserialize_record_raises text d w msg w1 :
  json_loads text = Ok (VDict d) ->
  from_dict d (version_checked d w) = (Raise (Exn DeserializationError msg), w1) ->
  deserialize_user_profile text None w
  = (Raise (Exn DeserializationError (unexpected_decoding ++ msg)),
     logged ERROR (unexpected_decoding ++ msg) w1).
Proof.
  intros Hd Hf. apply deserialize_body_raises.
  erewrite bind_ok by reflexivity.
  destruct (str_eqb text []) eqn:E.
  { apply str_eqb_eq in E. now apply json_loads_nonempty in Hd. }
  erewrite bind_ok by (apply try_ok; unfold lift; rewrite Hd; reflexivity).
  cbv beta iota zeta.
  erewrite bind_ok by apply version_step.
  now apply bind_raise.
Qed.

Lemma check_required_missing d fields f w :
  find (fun f => negb (dict_has d f)) fields = Some f ->
  check_required d fields w
  = (Raise (Exn DeserializationError (py "Missing required field: " ++ f)), w).
Proof.
  induction fields as [|g fields IH]; simpl; [discriminate|].
  destruct (negb (dict_has d g)); [now intros [= ->]|exact IH].
Qed.

Lemma from_dict_missing d f w :
  first_missing d = Some f ->
  from_dict d w
  = (Raise (Exn DeserializationError (py "Missing required field: " ++ f)), w).
Proof.
  intros H. unfold from_dict.
  erewrite try_raise
    by (apply bind_raise; apply check_required_missing; exact H).
  reflexivity.
Qed.

Lemma from_dict_invalid d n a e e0 w w1 :
  dict_get d (py "name") = Some n ->
  dict_get d (py "age") = Some a ->
  dict_get d (py "email") = Some e ->
  __init__ n a e (dict_get_default d (py "preferences") (VDict [])) w
    = (Raise e0, w1) ->
  from_dict d w
  = (Raise (Exn DeserializationError
              (py "Invalid data in dictionary: " ++ exn_msg e0)), w).
Proof.
  intros Hn Ha He Hi. unfold from_dict.
  destruct (init_raises _ _ _ _ _ Hi) as [Hc ->].
  erewrite try_raise.
  2:{ erewrite bind_ok
        by (apply check_required_ok; unfold dict_has; cbn [forallb];
            rewrite Hn, Ha, He; reflexivity).
      unfold dict_getitem. rewrite Hn, Ha, He.
      do 3 (erewrite bind_ok by reflexivity).
      apply bind_raise. exact Hi. }
  cbn [dispatch]. unfold isinstance_exn. cbn [existsb]. rewrite Hc. reflexivity.
Qed.
End DecodeOutcome.

(** X1. Decoding succeeds exactly on the texts that parse to a record with
    a name, an age and an email the constructor accepts; nothing else of
    the record is looked at. *)
Theorem decode_succeeds_iff :
  forall (R : PyRuntime) (text : pystr) (w : world),
    succeeds (deserialize_user_profile text None) w <-> decodable text.
Proof.
  intros R text w. split.
  - intros (P & w' & H).
    destruct (deserialize_inv _ _ H)
      as (d & n & a & e & P0 & w1 & Hd & Hn & Ha & He & Hi & _).
    destruct (init_ok _ _ _ _ _ Hi) as (Vn & Va & Ve & _).
    exists d, n, a, e. repeat split; auto.
    + now exists (name P0).
    + now exists (email P0).
  - intros (d & n & a & e & Hd & Hn & [n' Vn] & Ha & Va & He & [e' Ve]).
    exists (restore_metadata d
              (new_profile n' a e' (dict_get_default d (py "preferences") (VDict []))
                 (version_checked d w))).
    eexists. eapply deserialize_record; [exact Hd|].
    eapply from_dict_ok; eauto.
    rewrite init_spec, Vn, Va, Ve. reflexivity.
Qed.

(** X2. Decoding a record that lacks a required field fails with
    [DeserializationError], and the message names the first field that is
    missing, in the order name, age, email. *)
Theorem decode_missing_field :
  forall (R : PyRuntime) (text : pystr) (d : dict) (f : pystr) (w : world),
    json_loads text = Ok (VDict d) ->
    first_missing d = Some f ->
    exists w',
      deserialize_user_profile text None w
      = (Raise (Exn DeserializationError
                  (unexpected_decoding ++ py "Missing required field: " ++ f)),
         w').
Proof.
  intros R text d f w Hd Hf. eexists.
  eapply deserialize_record_raises; [exact Hd|].
  now apply from_dict_missing.
Qed.

Lemma decode_missing_field_witness :
  exists w',
    deserialize_user_profile (jtext "{'name': 'Partial'}") None world0
    = (Raise (Exn DeserializationError
                (unexpected_decoding ++ py "Missing required field: " ++ py "age")),
       w').
Proof.
  apply (@decode_missing_field latin1_runtime (jtext "{'name': 'Partial'}")
           [(VStr (py "name"), VStr (py "Partial"))] (py "age") world0).
  - vm_compute. reflexivity.
  - reflexivity.
Defined.

(** X3. The other ways decoding fails, each with [DeserializationError]
    and its own message: the empty text; a text on which [json.loads]
    raises [JSONDecodeError] (the parser's message is kept); a text on which
    [json.loads] raises another [ValueError], which goes past the clause for
    [JSONDecodeError] to the clause for [ValueError] at the end; a text that
    parses to something that is no record; a record whose fields the
    constructor rejects (the constructor's message is kept). *)
Theorem decode_error_messages :
  forall (R : PyRuntime) (text : pystr) (w : world),
    (text = [] ->
     exists w',
       deserialize_user_profile text None w
       = (Raise (Exn DeserializationError
                   (unexpected_decoding
                    ++ py "No JSON data provided for deserialization")), w')) /\
    (forall e, text <> [] -> json_loads text = Raise e ->
     exn_cls e = JSONDecodeError ->
     exists w',
       deserialize_user_profile text None w
       = (Raise (Exn DeserializationError
                   (unexpected_decoding ++ py "Invalid JSON format: "
                    ++ exn_msg e)), w')) /\
    (forall e, text <> [] -> json_loads text = Raise e ->
     exn_cls e = ValueError ->
     exists w',
       deserialize_user_profile text None w
       = (Raise (Exn DeserializationError
                   (py "Data validation error during deserialization: "
                    ++ exn_msg e)), w')) /\
    (forall v, json_loads text = Ok v -> is_dict v = false ->
     exists w',
       deserialize_user_profile text None w
       = (Raise (Exn DeserializationError
                   (unexpected_decoding
                    ++ py "JSON data must represent a dictionary")), w')) /\
    (forall d n a e e0 w0 w1,
       json_loads text = Ok (VDict d) ->
       dict_get d (py "name") = Some n ->
       dict_get d (py "age") = Some a ->
       dict_get d (py "email") = Some e ->
       __init__ n a e (dict_get_default d (py "preferences") (VDict [])) w0
         = (Raise e0, w1) ->
     exists w',
       deserialize_user_profile text None w
       = (Raise (Exn DeserializationError
                   (unexpected_decoding ++ py "Invalid data in dictionary: "
                    ++ exn_msg e0)), w')).
Proof.
  intros R text w. repeat split.
  - intros ->. eexists. reflexivity.
  - intros e Hne He Hc. eexists. apply deserialize_body_raises.
    erewrite bind_ok by reflexivity.
    destruct (str_eqb text []) eqn:E; [now apply str_eqb_eq in E|].
    apply bind_raise.
    erewrite try_raise by (unfold lift; rewrite He; reflexivity).
    cbn [dispatch]. unfold isinstance_exn. cbn [existsb].
    rewrite Hc. reflexivity.
  - intros e Hne He Hc. eexists.
    unfold deserialize_user_profile. cbn [given].
    erewrite try_raise.
    2:{ erewrite bind_ok by reflexivity.
        destruct (str_eqb text []) eqn:E;
          [apply str_eqb_eq in E; contradiction|].
        apply bind_raise.
        erewrite try_raise by (unfold lift; rewrite He; reflexivity).
        cbn [dispatch]. unfold isinstance_exn. cbn [existsb].
        rewrite Hc. reflexivity. }
    cbn [dispatch]. unfold isinstance_exn. cbn [existsb].
    rewrite Hc. reflexivity.
  - intros v Hv Hd. eexists. apply deserialize_body_raises.
    erewrite bind_ok by reflexivity.
    destruct (str_eqb text []) eqn:E.
    { apply str_eqb_eq in E. now apply json_loads_nonempty in Hv. }
    erewrite bind_ok by (apply try_ok; unfold lift; rewrite Hv; reflexivity).
    destruct v; try discriminate; reflexivity.
  - intros d n a e e0 w0 w1 Hd Hn Ha He Hi. eexists.
    eapply deserialize_record_raises; [exact Hd|].
    eapply from_dict_invalid; eauto.
    eapply init_raises_anywhere. exact Hi.
Qed.

Lemma decode_error_messages_witness :
  exists w',
    deserialize_user_profile
      (jtext "{'name': 'Ann', 'age': 200, 'email': 'ann@example.com'}")
      None world0
    = (Raise (Exn DeserializationError
                (unexpected_decoding ++ py "Invalid data in dictionary: "
                 ++ py "Age must be between 0 and 150")), w').
Proof.
  apply (proj2 (proj2 (proj2 (proj2
           (@decode_error_messages latin1_runtime
              (jtext "{'name': 'Ann', 'age': 200, 'email': 'ann@example.com'}")
              world0))))
           [ (VStr (py "name"), VStr (py "Ann")); (VStr (py "age"), VInt 200);
             (VStr (py "email"), VStr (py "ann@example.com")) ]
           (VStr (py "Ann")) (VInt 200) (VStr (py "ann@example.com"))
           (Exn ValueError (py "Age must be between 0 and 150"))
           world0 world0).
  - vm_compute. reflexivity.
  - reflexivity.
  - reflexivity.
  - reflexivity.
  - reflexivity.
Defined.

Section DecodeFailure.
Context {R : PyRuntime}.

Lemma check_required_inv d fields w r w1 :
  check_required d fields w = (r, w1) ->
  w1 = w /\
  match r with
  | Ok _ => forallb (dict_has d) fields = true
  | Raise e => exn_cls e = DeserializationError
  end.
Proof.
  induction fields as [|f fields IH]; simpl.
  - intros [= <- <-]. auto.
  - destruct (dict_has d f); simpl; [exact IH|].
    intros [= <- <-]. auto.
Qed.

(** [from_dict] raises nothing but [DeserializationError]. *)
Lemma from_dict_raises d w e w1 :
  from_dict d w = (Raise e, w1) -> exn_cls e = DeserializationError.
Proof.
  unfold from_dict. intros H.
  apply try_inv_raise in H as (e0 & w0 & Hb & Hd).
  assert (He0 : exn_cls e0 = DeserializationError \/ exn_cls e0 = ValueError).
  { apply bind_inv_raise in Hb as [Hb|([] & w2 & Hc & Hb)].
    { left. now apply check_required_inv in Hb as [_ Hb]. }
    apply check_required_inv in Hc as [-> Hc].
    cbn [forallb] in Hc. unfold dict_has, dict_getitem in *.
    destruct (dict_get d (py "name")); [|discriminate].
    destruct (dict_get d (py "age")); [|discriminate].
    destruct (dict_get d (py "email")); [|discriminate].
    apply bind_inv_raise in Hb as [Hb|(? & ? & [= <- <-] & Hb)]; [discriminate|].
    apply bind_inv_raise in Hb as [Hb|(? & ? & [= <- <-] & Hb)]; [discriminate|].
    apply bind_inv_raise in Hb as [Hb|(? & ? & [= <- <-] & Hb)]; [discriminate|].
    apply bind_inv_raise in Hb as [Hb|(? & ? & _ & Hb)]; [|discriminate].
    right. now apply init_raises in Hb as [Hb _]. }
  cbn [dispatch] in Hd. unfold isinstance_exn in Hd. cbn [existsb] in Hd.
  destruct He0 as [He0|He0]; rewrite He0 in Hd; cbn in Hd.
  - injection Hd as <- _. exact He0.
  - now injection Hd as <- _.
Qed.

Lemma read_file_raises f w e w1 :
  read_file f w = (Raise e, w1) ->
  exn_cls e = FileNotFoundError \/ exn_cls e = PermissionError.
Proof.
  unfold read_file. destruct (lookup_file (files w) f) as [[t|]|];
    [discriminate|intros [= <- _]; now right|intros [= <- _]; now left].
Qed.

(** Whatever makes [deserialize_user_profile] fail, from a text or from a
    file, the body raises [DeserializationError]: the clauses for
    [KeyError] and [ValueError] have nothing to catch. *)
Lemma deserialize_failure text filename w e w' :
  deserialize_user_profile text filename w = (Raise e, w') ->
  exists msg w1,
    e = Exn DeserializationError (unexpected_decoding ++ msg) /\
    w' = logged ERROR (unexpected_decoding ++ msg) w1.
Proof.
  unfold deserialize_user_profile. intros H.
  apply try_inv_raise in H as (e0 & w0 & Hb & Hd).
  assert (He0 : exn_cls e0 = DeserializationError).
  { apply bind_inv_raise in Hb as [Hb|(json_data & w2 & _ & Hb)].
    { destruct (given filename) as [f|]; [|discriminate].
      apply try_inv_raise in Hb as (e1 & w2 & Hr & Hh).
      apply bind_inv_raise in Hr as [Hr|(? & ? & _ & Hr)].
      - cbn [dispatch] in Hh. unfold isinstance_exn in Hh. cbn [existsb] in Hh.
        apply read_file_raises in Hr as [Hr|Hr]; rewrite Hr in Hh; cbn in Hh;
          now injection Hh as <- _.
      - apply bind_inv_raise in Hr as [Hr|(? & ? & _ & Hr)]; discriminate. }
    destruct (str_eqb json_data []); [now injection Hb as <- _|].
    apply bind_inv_raise in Hb as [Hb|(v & w3 & _ & Hb)].
    { apply try_inv_raise in Hb as (e1 & w3 & Hl & Hh).
      unfold lift in Hl. injection Hl as Hl <-.
      cbn [dispatch] in Hh. unfold isinstance_exn in Hh. cbn [existsb] in Hh.
      rewrite (json_loads_class _ Hl) in Hh. cbn in Hh. now injection Hh as <- _. }
    destruct v; try (now injection Hb as <- _).
    apply bind_inv_raise in Hb as [Hb|([] & w4 & _ & Hb)].
    { destruct (negb _); discriminate. }
    apply bind_inv_raise in Hb as [Hb|(P & w5 & _ & Hb)].
    { now apply from_dict_raises in Hb. }
    apply bind_inv_raise in Hb as [Hb|(? & ? & _ & Hb)]; discriminate. }
  destruct e0 as [c msg]. simpl in He0. subst c.
  rewrite decoding_wraps in Hd. exists msg, w0. split; congruence.
Qed.
End DecodeFailure.

(** X4. Every failure of [deserialize_user_profile], from a text or from a
    file, is a [DeserializationError]: nothing else reaches the caller. Its
    message starts as one of the three clauses that close the function
    starts its message, and is the last line of the log, at the level of
    errors. *)
Theorem decode_failures_are_wrapped :
  forall (R : PyRuntime) (text : pystr) (filename : option pystr)
         (w : world) (e : exn) (w' : world),
    deserialize_user_profile text filename w = (Raise e, w') ->
    exists prefix msg,
      In prefix decoding_prefixes /\
      e = Exn DeserializationError (prefix ++ msg) /\
      exists entries, log w' = entries ++ [(ERROR, prefix ++ msg)].
Proof.
  intros R text filename w e w' H.
  destruct (deserialize_failure _ _ _ H) as (msg & w1 & -> & ->).
  exists unexpected_decoding, msg.
  split; [right; right; left; reflexivity|].
  split; [reflexivity|]. exists (log w1). reflexivity.
Qed.

Lemma decode_failures_are_wrapped_witness :
  exists prefix msg,
    In prefix decoding_prefixes /\
    Exn DeserializationError
      (unexpected_decoding ++ py "File not found: " ++ py "nonexistent_file.json")
    = Exn DeserializationError (prefix ++ msg) /\
    exists entries,
      log (logged ERROR
             (unexpected_decoding ++ py "File not found: "
              ++ py "nonexistent_file.json") world0)
      = entries ++ [(ERROR, prefix ++ msg)].
Proof.
  apply (@decode_failures_are_wrapped latin1_runtime (py "ignored")
           (Some (py "nonexistent_file.json")) world0).
  reflexivity.
Defined.

(** ** The schema version *)

Ltac other_key :=
  let E := fresh in intro E; vm_compute in E; discriminate E.

Section SchemaVersion.
Context {R : PyRuntime}.

(** [from_dict] reads the keys [name], [age], [email], [preferences],
    [created_at] and [last_updated], and no other. *)
Lemma from_dict_ext d d' w :
  (forall k, k <> py "_version" -> dict_get d' k = dict_get d k) ->
  from_dict d' w = from_dict d w.
Proof.
  intros H. unfold from_dict, check_required, dict_has, dict_getitem,
    dict_get_default.
  rewrite (H (py "name")) by other_key.
  rewrite (H (py "age")) by other_key.
  rewrite (H (py "email")) by other_key.
  rewrite (H (py "preferences")) by other_key.
  rewrite (H (py "created_at")) by other_key.
  rewrite (H (py "last_updated")) by other_key.
  reflexivity.
Qed.

(** [from_dict] takes one reading of the clock and nothing else from the
    world. *)
Lemma from_dict_clock d w P w1 w2 :
  from_dict d w = (Ok P, w1) ->
  clock w2 = clock w -> ticks w2 = ticks w ->
  w1 = tick w /\ from_dict d w2 = (Ok P, tick w2).
Proof.
  intros H Hc Ht.
  apply from_dict_inv in H as (n & a & e & P0 & Hn & Ha & He & Hi & ->).
  destruct (init_ok _ _ _ _ _ Hi) as (Vn & Va & Ve & HP & ->).
  split; [reflexivity|].
  erewrite from_dict_ok; [| exact Hn | exact Ha | exact He |].
  2:{ rewrite init_spec, Vn, Va, Ve. reflexivity. }
  do 2 f_equal. rewrite HP. unfold new_profile. now rewrite Hc, Ht.
Qed.

Lemma version_checked_log d w :
  log (version_checked d w) = log w ++ version_warning d /\
  files (version_checked d w) = files w.
Proof.
  unfold version_checked, version_warning.
  destruct (eq_str _ _); cbn; [now rewrite List.app_nil_r|auto].
Qed.
End SchemaVersion.

Lemma dict_get_setitem d k v k' :
  dict_get (dict_setitem d (VStr k) v) k'
  = if str_eqb k k' then Some v else dict_get d k'.
Proof.
  induction d as [|[k0 v0] d IH]; cbn [dict_setitem dict_get eq_str].
  - now destruct (str_eqb k k').
  - destruct (key_eqb k0 (VStr k)) eqn:E; cbn [dict_get].
    + destruct k0; try discriminate. cbn [key_eqb] in E.
      apply str_eqb_eq in E. subst. cbn [eq_str].
      now destruct (str_eqb k k').
    + rewrite IH. destruct (eq_str k0 k') eqn:E'; [|reflexivity].
      destruct k0; try discriminate. cbn [eq_str key_eqb] in *.
      apply str_eqb_eq in E'. subst.
      destruct (str_eqb k k') eqn:E2; [|reflexivity].
      apply str_eqb_eq in E2. subst. now rewrite str_eqb_refl in E.
Qed.

(** X5. The schema version is a marker and no more. Two records that agree
    on every key but [_version] decode to the same profile, whatever their
    versions; the only trace of the version is in the log, which gets one
    warning exactly when the version is not "1.0", before the line that
    reports the success. *)
Theorem schema_version_tolerance :
  forall (R : PyRuntime) (text text' : pystr) (d d' : dict) (w : world)
         (P : UserProfile) (w1 : world),
    json_loads text = Ok (VDict d) ->
    json_loads text' = Ok (VDict d') ->
    (forall k, k <> py "_version" -> dict_get d' k = dict_get d k) ->
    deserialize_user_profile text None w = (Ok P, w1) ->
    exists w1',
      deserialize_user_profile text' None w = (Ok P, w1') /\
      log w1' = log w ++ version_warning d'
                ++ [(INFO, py "Successfully deserialized profile for: " ++ name P)] /\
      ticks w1' = S (ticks w) /\ files w1' = files w.
Proof.
  intros R text text' d d' w P w1 Hd Hd' Hk H.
  apply deserialize_inv in H
    as (d0 & n & a & e & P0 & w0 & Hd0 & Hn & Ha & He & Hi & ->).
  rewrite Hd in Hd0. injection Hd0 as <-.
  assert (Hf : from_dict d (version_checked d w)
               = (Ok (restore_metadata d P0), w0))
    by (eapply from_dict_ok; eauto).
  destruct (version_checked_clock d w) as [Hc Ht].
  destruct (version_checked_clock d' w) as [Hc' Ht'].
  destruct (@from_dict_clock _ d _ _ _ (version_checked d' w) Hf) as [_ Hf'];
    [congruence|congruence|].
  erewrite <- from_dict_ext in Hf' by exact Hk.
  eexists. split; [eapply deserialize_record; eassumption|].
  destruct (version_checked_log d' w) as [Hl Hfs].
  cbn [log ticks files logged tick]. rewrite Hl, Hfs, Ht', <- List.app_assoc.
  auto.
Qed.

Lemma schema_version_tolerance_witness :
  exists w1',
    deserialize_user_profile
      (jtext "{'name': 'Ann', 'age': 30, 'email': 'ann@example.com', '_version': '2.0'}")
      None world0
    = (Ok (new_profile (py "Ann") (VInt 30) (py "ann@example.com") VNone world0),
       w1') /\
    log w1'
    = log world0
      ++ [(WARNING, py "Loading data with different schema version: 2.0")]
      ++ [(INFO, py "Successfully deserialized profile for: "
                 ++ name (new_profile (py "Ann") (VInt 30) (py "ann@example.com")
                            VNone world0))] /\
    ticks w1' = S (ticks world0) /\ files w1' = files world0.
Proof.
  apply (@schema_version_tolerance latin1_runtime
    (jtext "{'name': 'Ann', 'age': 30, 'email': 'ann@example.com'}")
    (jtext "{'name': 'Ann', 'age': 30, 'email': 'ann@example.com', '_version': '2.0'}")
    [ (VStr (py "name"), VStr (py "Ann")); (VStr (py "age"), VInt 30);
      (VStr (py "email"), VStr (py "ann@example.com")) ]
    (dict_setitem
       [ (VStr (py "name"), VStr (py "Ann")); (VStr (py "age"), VInt 30);
         (VStr (py "email"), VStr (py "ann@example.com")) ]
       (VStr (py "_version")) (VStr (py "2.0")))
    world0 _ (tick (logged INFO (py "Successfully deserialized profile for: Ann") world0 ))).
  - vm_compute. reflexivity.
  - vm_compute. reflexivity.
  - intros k Hk. rewrite dict_get_setitem.
    destruct (str_eqb (py "_version") k) eqn:E; [|reflexivity].
    apply str_eqb_eq in E. congruence.
  - vm_compute. reflexivity.
Defined.

(** ** Decoding from a file *)

Section DecodeFile.
Context {R : PyRuntime}.

Lemma deserialize_from_file text f w :
  str_eqb f [] = false ->
  deserialize_user_profile text (Some f) w =
  match lookup_file (files w) f with
  | Some (Readable t) =>
      deserialize_user_profile t None
        (logged INFO (py "Successfully read data from: " ++ f) w)
  | Some Denied =>
      let msg := unexpected_decoding ++ py "Error reading file '" ++ f
                 ++ py "': " ++ py "Permission denied" in
      (Raise (Exn DeserializationError msg), logged ERROR msg w)
  | None =>
      let msg := unexpected_decoding ++ py "File not found: " ++ f in
      (Raise (Exn DeserializationError msg), logged ERROR msg w)
  end.
Proof.
  intros Hf. unfold deserialize_user_profile, given. rewrite Hf.
  unfold try_except at 1 3. unfold bind at 1 8.
  unfold try_except at 1. unfold bind at 1. unfold read_file.
  destruct (lookup_file (files w) f) as [[t|]|]; reflexivity.
Qed.
End DecodeFile.

(** X6. Decoding from a file, for a file name that is not empty. The text
    passed as [json_data] is ignored: a readable file is decoded as its
    content would be, after one line of log; a file that is missing, under
    a plain name (printable ASCII characters, no slash, 255 at most), is
    reported as "File not found: "; a file that denies access is reported
    by the clause for [OSError], as "Error reading file" with the reason
    the system gives, and never by the clause for [PermissionError] that
    follows it. *)
Theorem decode_from_file :
  forall (R : PyRuntime) (text f : pystr) (w : world),
    f <> [] ->
    match lookup_file (files w) f with
    | Some (Readable t) =>
        deserialize_user_profile text (Some f) w
        = deserialize_user_profile t None
            (logged INFO (py "Successfully read data from: " ++ f) w)
    | Some Denied =>
        exists reason,
          fst (deserialize_user_profile text (Some f) w)
          = Raise (Exn DeserializationError
                     (unexpected_decoding ++ py "Error reading file '" ++ f
                      ++ py "': " ++ reason))
    | None =>
        simple_name f = true ->
        fst (deserialize_user_profile text (Some f) w)
        = Raise (Exn DeserializationError
                   (unexpected_decoding ++ py "File not found: " ++ f))
    end.
Proof.
  intros R text f w Hf.
  assert (E : str_eqb f [] = false) by (destruct f; [congruence|reflexivity]).
  erewrite deserialize_from_file by exact E.
  destruct (lookup_file (files w) f) as [[t|]|]; try reflexivity.
  eexists. reflexivity.
Qed.

Lemma decode_from_file_witness :
  fst (deserialize_user_profile (py "{}") (Some (py "missing.json")) world0)
  = Raise (Exn DeserializationError
             (unexpected_decoding ++ py "File not found: "
              ++ py "missing.json")).
Proof.
  apply (@decode_from_file latin1_runtime (py "{}") (py "missing.json") world0).
  - discriminate.
  - reflexivity.
Defined.

(** ** The constraints a profile keeps *)

Section WellFormed.
Context {R : PyRuntime}.

Lemma init_well_formed n a e p w P w' :
  __init__ n a e p w = (Ok P, w') -> well_formed P.
Proof.
  intros H. destruct (init_ok _ _ _ _ _ H) as (Vn & Va & Ve & HP & _).
  apply validate_name_ok in Vn as En. apply validate_email_ok in Ve as Ee.
  unfold well_formed, valid_name, valid_email, valid_age.
  rewrite <- En, <- Ee.
  repeat split; eauto.
  - rewrite HP. exact Va.
  - rewrite HP. cbn [preferences new_profile].
    destruct (truthy p) eqn:E; [left; exact E|now right].
Qed.

Lemma restore_well_formed d P :
  well_formed P -> well_formed (restore_metadata d P).
Proof.
  unfold restore_metadata, well_formed.
  destruct (dict_get d (py "created_at")), (dict_get d (py "last_updated"));
    trivial.
Qed.

Lemma deserialize_source text filename w P w' :
  deserialize_user_profile text filename w = (Ok P, w') ->
  exists t w0, deserialize_user_profile t None w0 = (Ok P, w').
Proof.
  destruct filename as [f|]; [|eauto].
  destruct (str_eqb f []) eqn:E.
  - apply str_eqb_eq in E. subst f. eauto.
  - erewrite deserialize_from_file by exact E.
    destruct (lookup_file (files w) f) as [[t|]|]; [eauto|discriminate..].
Qed.

Lemma deserialize_well_formed text filename w P w' :
  deserialize_user_profile text filename w = (Ok P, w') -> well_formed P.
Proof.
  intros H. apply deserialize_source in H as (t & w0 & H).
  apply deserialize_inv in H
    as (d & n & a & e & P0 & w1 & _ & _ & _ & _ & Hi & ->).
  apply restore_well_formed. eapply init_well_formed; eassumption.
Qed.

Lemma update_well_formed self new w r self' w' :
  well_formed self ->
  update_preferences self new w = (r, self', w') -> well_formed self'.
Proof.
  intros Hwf. unfold update_preferences.
  destruct new as [| | | | | | |items| | |]; try (now intros [= _ <- _]).
  destruct (check_preferences items); [|now intros [= _ <- _]].
  destruct (preferences self) as [| | | | | | |d| | |] eqn:Ep;
    try (now intros [= _ <- _]).
  cbn. intros [= _ <- _].
  destruct Hwf as (Hn & Ha & He & _).
  unfold well_formed. cbn. repeat split; trivial.
  destruct (dict_update d items); [now right|now left].
Qed.
End WellFormed.

(** X7. Every profile the code hands out keeps the constraints on its
    fields: a name, an age and an email the validators accept, and
    preferences that are truthy or the empty mapping. This holds of a
    profile from the constructor, from [deserialize_user_profile] (text or
    file) and from [backup_deserialization_attempt], and
    [update_preferences] keeps it, whether it succeeds or raises. *)
Theorem profiles_well_formed :
  forall (R : PyRuntime),
    (forall n a e p w P w',
        __init__ n a e p w = (Ok P, w') -> well_formed P) /\
    (forall text filename w P w',
        deserialize_user_profile text filename w = (Ok P, w') ->
        well_formed P) /\
    (forall text w P w',
        backup_deserialization_attempt text w = (Ok (Some P), w') ->
        well_formed P) /\
    (forall self new w r self' w',
        well_formed self ->
        update_preferences self new w = (r, self', w') ->
        well_formed self').
Proof.
  intros R. split; [|split; [|split]].
  - intros. eapply init_well_formed; eassumption.
  - intros. eapply deserialize_well_formed; eassumption.
  - intros text w P w' H.
    apply backup_inv in H as (n & a & e & p & w0 & H).
    eapply init_well_formed; eassumption.
  - intros. eapply update_well_formed; eassumption.
Qed.

Lemma profiles_well_formed_witness :
  well_formed
    (updated
       (new_profile (py "Ann") (VInt 30) (py "ann@example.com") VNone world0)
       [] [(VStr (py "theme"), VStr (py "dark"))] (tick world0)).
Proof.
  apply (proj2 (proj2 (proj2 (@profiles_well_formed latin1_runtime)))
           (new_profile (py "Ann") (VInt 30) (py "ann@example.com") VNone world0)
           (VDict [(VStr (py "theme"), VStr (py "dark"))])
           (tick world0) (Ok tt) _ (tick (tick world0))).
  - repeat split.
    + exists (py "Ann"). reflexivity.
    + exists (py "ann@example.com"). reflexivity.
    + right. reflexivity.
  - vm_compute. reflexivity.
Defined.

(** ** The record of a profile *)

Section Record.
Context {R : PyRuntime}.

Lemma from_dict_of_to_dict P d w :
  well_formed P -> to_dict P = VDict d ->
  from_dict d w = (Ok P, tick w).
Proof.
  intros ([n Vn] & Va & [e Ve] & Hp) [= <-].
  apply validate_name_ok in Vn as En. apply validate_email_ok in Ve as Ee.
  injection En as <-. injection Ee as <-.
  erewrite from_dict_ok; [| reflexivity | reflexivity | reflexivity |].
  2:{ rewrite init_spec, Vn, Va, Ve. reflexivity. }
  f_equal. unfold restore_metadata.
  match goal with
  | |- context [dict_get ?d0 (py "created_at")] =>
      change (dict_get d0 (py "created_at")) with (Some (created_at P));
      change (dict_get d0 (py "last_updated")) with (Some (last_updated P));
      change (dict_get_default d0 (py "preferences") (VDict []))
        with (preferences P)
  end.
  assert (Hpi : (if truthy (preferences P) then preferences P else VDict [])
                = preferences P).
  { destruct Hp as [-> | ->]; reflexivity. }
  unfold new_profile. rewrite Hpi. destruct P. reflexivity.
Qed.
End Record.

(** X8. [from_dict] undoes [to_dict]: from the record of a profile that keeps
    the constraints on its fields, [from_dict] builds that very profile,
    stored timestamps included, at the cost of one call of
    [datetime.now()]. *)
Theorem from_dict_to_dict :
  forall (R : PyRuntime) (P : UserProfile) (d : dict) (w : world),
    well_formed P -> to_dict P = VDict d ->
    from_dict d w = (Ok P, tick w).
Proof. intros. now apply from_dict_of_to_dict. Qed.

Lemma from_dict_to_dict_witness :
  from_dict
    [ (VStr (py "name"), VStr (py "Ann")); (VStr (py "age"), VInt 30);
      (VStr (py "email"), VStr (py "ann@example.com"));
      (VStr (py "preferences"), VDict [(VStr (py "theme"), VStr (py "dark"))]);
      (VStr (py "created_at"), VStr (py "2023-05-01T10:00:00"));
      (VStr (py "last_updated"), VStr (py "2023-06-01T10:00:00"));
      (VStr (py "_version"), VStr (py "1.0")) ] world0
  = (Ok {| name := py "Ann"; age := VInt 30; email := py "ann@example.com";
           preferences := VDict [(VStr (py "theme"), VStr (py "dark"))];
           created_at := VStr (py "2023-05-01T10:00:00");
           last_updated := VStr (py "2023-06-01T10:00:00") |}, tick world0).
Proof.
  apply (@from_dict_to_dict latin1_runtime
    {| name := py "Ann"; age := VInt 30; email := py "ann@example.com";
       preferences := VDict [(VStr (py "theme"), VStr (py "dark"))];
       created_at := VStr (py "2023-05-01T10:00:00");
       last_updated := VStr (py "2023-06-01T10:00:00") |}).
  - repeat split.
    + exists (py "Ann"). reflexivity.
    + exists (py "ann@example.com"). reflexivity.
    + left. reflexivity.
  - reflexivity.
Defined.

(** ** Updating the preferences *)

Section Update.
Context {R : PyRuntime}.

Lemma check_preferences_ok items :
  check_preferences items = Ok tt <-> Forall acceptable_entry items.
Proof.
  induction items as [|[k v] items IH]; cbn [check_preferences].
  - split; [constructor|reflexivity].
  - split.
    + destruct (is_str k) eqn:Ek; [|discriminate]. cbn [negb].
      destruct (json_dumps v) as [t|e] eqn:Ev.
      * intros H. constructor; [|now apply IH].
        split; [exact Ek|now exists t].
      * destruct (isinstance_exn e _); discriminate.
    + intros H. inversion H as [|? ? [Ek [t Ev]] Hrest]; subst.
      cbn [fst snd] in *. rewrite Ek, Ev. cbn [negb]. now apply IH.
Qed.

Lemma dict_get_app d1 d2 k :
  dict_get (d1 ++ d2) k
  = match dict_get d1 k with Some v => Some v | None => dict_get d2 k end.
Proof.
  induction d1 as [|[k0 v0] d1 IH]; cbn [List.app dict_get]; [reflexivity|].
  now destruct (eq_str k0 k).
Qed.

Lemma dict_get_update d items k :
  Forall (fun kv => is_str (fst kv) = true) items ->
  dict_get (dict_update d items) k
  = match dict_get (List.rev items) k with
    | Some v => Some v
    | None => dict_get d k
    end.
Proof.
  intros H. revert d. induction H as [|[k0 v0] items Hk _ IH]; intros d.
  - reflexivity.
  - cbn [dict_update fold_left fst snd List.rev] in *.
    unfold dict_update in IH. rewrite IH, dict_get_app.
    destruct (dict_get (List.rev items) k); [reflexivity|].
    destruct k0; try discriminate. rewrite dict_get_setitem.
    cbn [dict_get eq_str]. now destruct (str_eqb _ k).
Qed.

Lemma update_preferences_succeeds_iff_aux self new w self' w' :
  update_preferences self new w = (Ok tt, self', w') ->
  exists items d,
    new = VDict items /\ Forall acceptable_entry items /\
    preferences self = VDict d /\
    self' = updated self d items w /\ w' = tick w.
Proof.
  unfold update_preferences.
  destruct new as [| | | | | | |items| | |]; try discriminate.
  destruct (check_preferences items) as [[]|] eqn:Ec; [|discriminate].
  destruct (preferences self) as [| | | | | | |d| | |] eqn:Ep;
    try discriminate.
  cbn. intros [= <- <-]. exists items, d.
  repeat split; trivial. now apply check_preferences_ok.
Qed.

Lemma update_preferences_ok self items d w :
  Forall acceptable_entry items -> preferences self = VDict d ->
  update_preferences self (VDict items) w
  = (Ok tt, updated self d items w, tick w).
Proof.
  intros Hc Hp. unfold update_preferences.
  apply check_preferences_ok in Hc. rewrite Hc, Hp. reflexivity.
Qed.
End Update.

(** X9. When [update_preferences] succeeds, and what it leaves alone. On a
    profile whose preferences are a value of one of Python's own types, and
    for an argument of one of these types, the call succeeds exactly when
    the argument is a mapping whose keys are texts and whose values
    [json.dumps] accepts, and the profile's preferences are a mapping (which
    the constructor does not check). The name, the age, the email and
    [created_at] are then as before, and [last_updated] is the reading of
    [datetime.now()]. *)
Theorem update_preferences_succeeds_iff :
  forall (R : PyRuntime) (self : UserProfile) (new : pyval) (w : world),
    builtin (preferences self) = true -> builtin new = true ->
    ((exists self' w', update_preferences self new w = (Ok tt, self', w')) <->
     (exists items d,
        new = VDict items /\ Forall acceptable_entry items /\
        preferences self = VDict d)) /\
    (forall self' w',
       update_preferences self new w = (Ok tt, self', w') ->
       name self' = name self /\ age self' = age self /\
       email self' = email self /\ created_at self' = created_at self /\
       last_updated self' = VStr (clock w (ticks w)) /\ w' = tick w).
Proof.
  intros R self new w _ _. split; [split|].
  - intros (self' & w' & H).
    apply update_preferences_succeeds_iff_aux in H
      as (items & d & -> & Hi & Hp & _).
    now exists items, d.
  - intros (items & d & -> & Hi & Hp).
    do 2 eexists. eapply update_preferences_ok; eassumption.
  - intros self' w' H.
    apply update_preferences_succeeds_iff_aux in H
      as (items & d & -> & Hi & Hp & -> & ->).
    repeat split.
Qed.

Lemma update_preferences_succeeds_iff_witness :
  name (updated
          (new_profile (py "Ann") (VInt 30) (py "ann@example.com") VNone world0)
          [] [(VStr (py "theme"), VStr (py "dark"))] (tick world0))
  = py "Ann" /\
  tick (tick world0) = tick (tick world0).
Proof.
  destruct (proj2 (@update_preferences_succeeds_iff latin1_runtime
    (new_profile (py "Ann") (VInt 30) (py "ann@example.com") VNone world0)
    (VDict [(VStr (py "theme"), VStr (py "dark"))]) (tick world0) eq_refl eq_refl)
    (updated
       (new_profile (py "Ann") (VInt 30) (py "ann@example.com") VNone world0)
       [] [(VStr (py "theme"), VStr (py "dark"))] (tick world0))
    (tick (tick world0)))
    as (Hn & _ & _ & _ & _ & Hw).
  - vm_compute. reflexivity.
  - split; [exact Hn|exact Hw].
Defined.

(** X10. What the merged preferences hold. After a successful
    [update_preferences], a text key reads as the update's entry for it (the
    last one, should the update list the key more than once) and, where the
    update has none, as it read before. *)
Theorem update_preferences_lookup :
  forall (R : PyRuntime) (self : UserProfile) (items d : dict) (w : world)
         (self' : UserProfile) (w' : world),
    preferences self = VDict d ->
    update_preferences self (VDict items) w = (Ok tt, self', w') ->
    exists d',
      preferences self' = VDict d' /\
      forall k,
        dict_get d' k = match dict_get (List.rev items) k with
                        | Some v => Some v
                        | None => dict_get d k
                        end.
Proof.
  intros R self items d w self' w' Hp H.
  unfold update_preferences in H.
  destruct (check_preferences items) as [[]|] eqn:Ec; [|discriminate].
  rewrite Hp in H. cbn in H. injection H as <- _.
  exists (dict_update d items). split; [reflexivity|].
  intros k. apply dict_get_update.
  apply check_preferences_ok in Ec.
  eapply Forall_impl; [|exact Ec]. now intros kv [Hk _].
Qed.

Lemma update_preferences_lookup_witness :
  exists d',
    preferences
      (updated
         (new_profile (py "Ann") (VInt 30) (py "ann@example.com")
            (VDict [(VStr (py "theme"), VStr (py "dark"));
                    (VStr (py "lang"), VStr (py "en"))]) world0)
         [(VStr (py "theme"), VStr (py "dark"));
          (VStr (py "lang"), VStr (py "en"))]
         [(VStr (py "theme"), VStr (py "light"));
          (VStr (py "size"), VInt 12)]
         (tick world0))
    = VDict d' /\
    forall k,
      dict_get d' k
      = match dict_get (List.rev [(VStr (py "theme"), VStr (py "light"));
                                  (VStr (py "size"), VInt 12)]) k with
        | Some v => Some v
        | None => dict_get [(VStr (py "theme"), VStr (py "dark"));
                            (VStr (py "lang"), VStr (py "en"))] k
        end.
Proof.
  apply (@update_preferences_lookup latin1_runtime
    (new_profile (py "Ann") (VInt 30) (py "ann@example.com")
       (VDict [(VStr (py "theme"), VStr (py "dark"));
               (VStr (py "lang"), VStr (py "en"))]) world0)
    _ _ (tick world0) _ (tick (tick world0))).
  - reflexivity.
  - vm_compute. reflexivity.
Defined.

(** ** Encoding, and writing to a file *)

Lemma lookup_store_file fs f text g :
  lookup_file (store_file fs f text) g
  = if str_eqb f g then Some (Readable text) else lookup_file fs g.
Proof.
  induction fs as [|[n x] fs IH]; cbn [store_file lookup_file].
  - reflexivity.
  - destruct (str_eqb n f) eqn:E; cbn [lookup_file].
    + apply str_eqb_eq in E. subst n. now destruct (str_eqb f g).
    + rewrite IH. destruct (str_eqb n g) eqn:E'; [|reflexivity].
      apply str_eqb_eq in E'. subst g.
      destruct (str_eqb f n) eqn:E2; [|reflexivity].
      apply str_eqb_eq in E2. subst n. now rewrite str_eqb_refl in E.
Qed.

Section Serialize.
Context {R : PyRuntime}.

(** The three clauses of [serialize_user_profile] catch every exception,
    and each raises [SerializationError] after a line of log. *)
Lemma serialize_dispatch e w :
  exists msg,
    dispatch e
      [ ([TypeError; ValueError],
         fail_serialization "Data type error during serialization: ");
        ([AttributeError],
         fail_serialization "Invalid object structure during serialization: ");
        ([Exception],
         fail_serialization "Unexpected error during serialization: ") ] w
    = (Raise (Exn SerializationError (msg ++ exn_msg e)),
       logged ERROR (msg ++ exn_msg e) w) /\
    (exn_cls e = SerializationError -> msg = unexpected_encoding).
Proof.
  cbn [dispatch].
  destruct (isinstance_exn e [TypeError; ValueError]) eqn:E1.
  { eexists. split; [reflexivity|]. intros Hc. unfold isinstance_exn in E1.
    rewrite Hc in E1. discriminate. }
  destruct (isinstance_exn e [AttributeError]) eqn:E2.
  { eexists. split; [reflexivity|]. intros Hc. unfold isinstance_exn in E2.
    rewrite Hc in E2. discriminate. }
  rewrite isinstance_Exception. eexists. split; reflexivity.
Qed.

Lemma integrity_check_world P t w r w' :
  integrity_check P t w = (r, w') -> w' = w.
Proof.
  unfold integrity_check, try_except, bind, lift.
  destruct (json_loads t) as [v|e].
  - destruct (py_getitem v (py "name")) as [n|e].
    + destruct (negb (eq_str n (name P))); cbn; now intros [= _ <-].
    + cbn [dispatch]. destruct (isinstance_exn e _); cbn; now intros [= _ <-].
  - cbn [dispatch]. destruct (isinstance_exn e _); cbn; now intros [= _ <-].
Qed.

Lemma integrity_check_ok P t d w :
  json_loads t = Ok (VDict d) ->
  dict_get d (py "name") = Some (VStr (name P)) ->
  integrity_check P t w = (Ok tt, w).
Proof.
  intros Hl Hn. unfold integrity_check, try_except, bind, lift.
  rewrite Hl. cbn [py_getitem]. unfold dict_getitem. rewrite Hn.
  cbn [eq_str]. now rewrite str_eqb_refl.
Qed.

(** [serialize_user_profile], step by step. *)
Lemma serialize_cases P filename w :
  serialize_user_profile P filename w =
  match json_dumps_profile (to_dict P) with
  | Raise e => dispatch e serialization_clauses (started P w)
  | Ok text =>
      match fst (integrity_check P text (started P w)) with
      | Raise e => dispatch e serialization_clauses (started P w)
      | Ok _ =>
          match given filename with
          | None => (Ok text, serialized P filename text w)
          | Some f =>
              match lookup_file (files w) f with
              | Some Denied =>
                  dispatch
                    (Exn SerializationError
                       (py "Failed to write to file '" ++ f ++ py "': "
                        ++ py "Permission denied"))
                    serialization_clauses (started P w)
              | _ => (Ok text, serialized P filename text w)
              end
          end
      end
  end.
Proof.
  unfold serialize_user_profile. fold serialization_clauses.
  unfold try_except at 1. unfold bind at 1. cbn [logger].
  fold (logged INFO (py "Starting serialization for user: " ++ name P) w).
  fold (started P w).
  unfold bind at 1. unfold lift at 1.
  destruct (json_dumps_profile (to_dict P)) as [text|e]; [|reflexivity].
  fold (integrity_check P text). unfold bind at 1.
  destruct (integrity_check P text (started P w)) as [[[]|e] w1] eqn:Ei;
    apply integrity_check_world in Ei; subst w1; [|reflexivity].
  cbn [fst]. unfold serialized, serialization_log, written.
  destruct (given filename) as [f|].
  2:{ unfold bind, ret, logger, started, logged.
      cbn [log files clock ticks]. now rewrite <- List.app_assoc. }
  unfold bind at 1. unfold try_except at 1. unfold bind at 1.
  unfold write_file. cbn [files started logged].
  destruct (lookup_file (files w) f) as [[t|]|]; try reflexivity;
    unfold bind, ret, logger, started, logged; cbn [log files clock ticks];
    now rewrite <- !List.app_assoc.
Qed.
End Serialize.

(** X11. What a successful [serialize_user_profile] does. The text returned
    is the encoder's text of the profile's record, whatever the world and
    the file name; [datetime.now()] is not called; the log gets the lines
    of the steps; and the file named, if one is, holds the text returned,
    every other file being as it was. *)
Theorem serialize_success :
  forall (R : PyRuntime) (P : UserProfile) (filename : option pystr)
         (w : world) (text : pystr) (w' : world),
    serialize_user_profile P filename w = (Ok text, w') ->
    json_dumps_profile (to_dict P) = Ok text /\
    clock w' = clock w /\ ticks w' = ticks w /\
    log w' = log w ++ serialization_log P filename /\
    forall g,
      lookup_file (files w') g
      = match given filename with
        | Some f => if str_eqb f g then Some (Readable text)
                    else lookup_file (files w) g
        | None => lookup_file (files w) g
        end.
Proof.
  intros R P filename w text w'. rewrite serialize_cases.
  assert (Hno : forall e w0,
             dispatch e serialization_clauses w0 <> (Ok text, w')).
  { intros e w0 H. destruct (serialize_dispatch e w0) as (msg & Hd & _).
    unfold serialization_clauses in H. rewrite Hd in H. discriminate. }
  assert (Hyes : (Ok text, serialized P filename text w) = (Ok text, w') ->
                 clock w' = clock w /\ ticks w' = ticks w /\
                 log w' = log w ++ serialization_log P filename /\
                 forall g,
                   lookup_file (files w') g
                   = match given filename with
                     | Some f => if str_eqb f g then Some (Readable text)
                                 else lookup_file (files w) g
                     | None => lookup_file (files w) g
                     end).
  { intros [= <-]. cbn [serialized clock ticks log files].
    repeat split. intros g. unfold written.
    destruct (given filename); [apply lookup_store_file|reflexivity]. }
  destruct (json_dumps_profile (to_dict P)) as [t|e]; [|intros H; now apply Hno in H].
  destruct (fst (integrity_check P t (started P w))); [|intros H; now apply Hno in H].
  destruct (given filename) as [f|] eqn:Eg.
  - destruct (lookup_file (files w) f) as [[c|]|];
      try (intros H; now apply Hno in H);
      intros H; injection H as -> H; (split; [reflexivity|]);
      apply Hyes; now rewrite H.
  - intros H; injection H as -> H. split; [reflexivity|].
    apply Hyes. now rewrite H.
Qed.

Lemma serialize_success_witness :
  json_dumps_profile
    (to_dict (new_profile (py "Ann") (VInt 30) (py "ann@example.com")
                VNone world0))
  = Ok (jtext "{
  'name': 'Ann',
  'age': 30,
  'email': 'ann@example.com',
  'preferences': {},
  'created_at': '2024-01-01T00:00:00',
  'last_updated': '2024-01-01T00:00:00',
  '_version': '1.0'
}").
Proof.
  match goal with
  | |- json_dumps_profile (to_dict ?P) = Ok ?T =>
      apply (@serialize_success latin1_runtime P (Some (py "ann.json"))
               (tick world0) T
               (serialized P (Some (py "ann.json")) T (tick world0)))
  end.
  vm_compute. reflexivity.
Defined.

(** X12. How [serialize_user_profile] fails. Whatever goes wrong, the
    exception that comes out is a [SerializationError]; the call has added
    two lines to the log, the one that opens it and the message of the
    exception as an error; [datetime.now()] has not been called; and when
    no file name was given, or [json.dumps] refused the record, the files
    are as they were. *)
Theorem serialize_failure :
  forall (R : PyRuntime) (P : UserProfile) (filename : option pystr)
         (w : world) (e : exn) (w' : world),
    serialize_user_profile P filename w = (Raise e, w') ->
    exn_cls e = SerializationError /\
    clock w' = clock w /\ ticks w' = ticks w /\
    log w' = log w ++ [(INFO, py "Starting serialization for user: " ++ name P);
                       (ERROR, exn_msg e)] /\
    (given filename = None \/
     (exists e0, json_dumps_profile (to_dict P) = Raise e0) ->
     files w' = files w).
Proof.
  intros R P filename w e w' H.
  assert (Hw : exn_cls e = SerializationError /\
               w' = logged ERROR (exn_msg e) (started P w)).
  { revert H. rewrite serialize_cases.
    assert (Hd : forall e0,
               dispatch e0 serialization_clauses (started P w) = (Raise e, w') ->
               exn_cls e = SerializationError /\
               w' = logged ERROR (exn_msg e) (started P w)).
    { intros e0 H. destruct (serialize_dispatch e0 (started P w)) as (msg & Hd & _).
      unfold serialization_clauses in H. rewrite Hd in H.
      injection H as <- <-. split; reflexivity. }
    destruct (json_dumps_profile (to_dict P)) as [t|e0]; [|apply Hd].
    destruct (fst (integrity_check P t (started P w))); [|apply Hd].
    destruct (given filename) as [f|]; [|discriminate].
    destruct (lookup_file (files w) f) as [[c|]|]; try discriminate. apply Hd. }
  destruct Hw as [Hc ->]. split; [exact Hc|].
  unfold started, logged. cbn [clock ticks log files].
  rewrite <- List.app_assoc. repeat split.
Qed.

Lemma serialize_failure_witness :
  exn_cls (Exn SerializationError
             (py "Data type error during serialization: Object of type <class 'object'> is not JSON serializable"))
  = SerializationError /\
  clock (logged ERROR
           (py "Data type error during serialization: Object of type <class 'object'> is not JSON serializable")
           (started (example_profile scenario_preferences) (tick world0)))
  = clock (tick world0) /\
  ticks (logged ERROR
           (py "Data type error during serialization: Object of type <class 'object'> is not JSON serializable")
           (started (example_profile scenario_preferences) (tick world0)))
  = ticks (tick world0) /\
  log (logged ERROR
         (py "Data type error during serialization: Object of type <class 'object'> is not JSON serializable")
         (started (example_profile scenario_preferences) (tick world0)))
  = log (tick world0)
    ++ [(INFO, py "Starting serialization for user: "
               ++ name (example_profile scenario_preferences));
        (ERROR,
         exn_msg (Exn SerializationError
           (py "Data type error during serialization: Object of type <class 'object'> is not JSON serializable")))] /\
  (given None = None \/
   (exists e0,
      json_dumps_profile (to_dict (example_profile scenario_preferences))
      = Raise e0) ->
   files (logged ERROR
            (py "Data type error during serialization: Object of type <class 'object'> is not JSON serializable")
            (started (example_profile scenario_preferences) (tick world0)))
   = files (tick world0)).
Proof.
  apply (@serialize_failure latin1_runtime
           (example_profile scenario_preferences) None (tick world0)).
  vm_compute. reflexivity.
Defined.

(** X13. A file that denies access. When the profile itself can be
    serialized, and the file named denies access, [serialize_user_profile]
    raises a [SerializationError] whose message is that of the clause for
    [IOError], with the reason the system gives, wrapped once more by the
    last clause of the function; the clause for [PermissionError] is never
    reached. *)
Theorem serialize_write_denied :
  forall (R : PyRuntime) (P : UserProfile) (f : pystr) (w : world),
    f <> [] ->
    lookup_file (files w) f = Some Denied ->
    succeeds (serialize_user_profile P None) w ->
    exists reason,
      fst (serialize_user_profile P (Some f) w)
      = Raise (Exn SerializationError
                 (unexpected_encoding ++ py "Failed to write to file '" ++ f
                  ++ py "': " ++ reason)).
Proof.
  intros R P f w Hf Hl (text & w' & Hs).
  assert (E : str_eqb f [] = false) by (destruct f; [congruence|reflexivity]).
  rewrite serialize_cases in Hs |- *.
  assert (Hno : forall e w0 t w1,
             dispatch e serialization_clauses w0 <> (Ok t, w1)).
  { intros e w0 t w1 H. destruct (serialize_dispatch e w0) as (msg & Hd & _).
    unfold serialization_clauses in H. rewrite Hd in H. discriminate. }
  destruct (json_dumps_profile (to_dict P)) as [t|e]; [|now apply Hno in Hs].
  destruct (fst (integrity_check P t (started P w)));
    [|now apply Hno in Hs].
  cbn [given]. rewrite E, Hl.
  match goal with
  | |- context [dispatch ?e0 _ ?w0] =>
      destruct (serialize_dispatch e0 w0) as (msg & Hd & Hm)
  end.
  unfold serialization_clauses. rewrite Hd. rewrite Hm by reflexivity.
  eexists. reflexivity.
Qed.

Lemma serialize_write_denied_witness :
  exists reason,
    fst (serialize_user_profile
           (new_profile (py "Ann") (VInt 30) (py "ann@example.com") VNone world0)
           (Some (py "locked.json"))
           (World (clock world0) 1 [] [(py "locked.json", Denied)]))
    = Raise (Exn SerializationError
               (unexpected_encoding ++ py "Failed to write to file '"
                ++ py "locked.json" ++ py "': " ++ reason)).
Proof.
  apply (@serialize_write_denied latin1_runtime).
  - discriminate.
  - reflexivity.
  - do 2 eexists. vm_compute. reflexivity.
Defined.

(** ** Round trips *)

Section FileRoundTrip.
Context {R : PyRuntime}.

Lemma well_formed_plain P :
  well_formed P -> plain (preferences P) = true ->
  plain (created_at P) = true -> plain (last_updated P) = true ->
  plain (to_dict P) = true.
Proof.
  intros (_ & Ha & _) Hp Hc Hu.
  apply to_dict_plain; trivial. now apply validate_age_plain.
Qed.

Lemma well_formed_floats P :
  well_formed P ->
  Forall float_reads_back (floats (preferences P)) ->
  Forall float_reads_back (floats (created_at P)) ->
  Forall float_reads_back (floats (last_updated P)) ->
  Forall float_reads_back (floats (to_dict P)).
Proof.
  intros (_ & Ha & _). apply to_dict_floats. now apply validate_age_floats.
Qed.

(** A text that reads as the record of a profile decodes to the profile. *)
Lemma deserialize_own_record P text w :
  well_formed P -> json_loads text = Ok (to_dict P) ->
  deserialize_user_profile text None w
  = (Ok P, logged INFO (py "Successfully deserialized profile for: " ++ name P)
             (tick w)).
Proof.
  intros Hwf Hl. unfold to_dict in Hl.
  erewrite deserialize_record; [reflexivity|exact Hl|].
  erewrite from_dict_of_to_dict; [|exact Hwf|reflexivity].
  reflexivity.
Qed.

(** What a call of [serialize_user_profile] that returned a text has
    done. *)
Lemma serialize_ok_inv P filename w text w' :
  serialize_user_profile P filename w = (Ok text, w') ->
  json_dumps_profile (to_dict P) = Ok text /\
  w' = serialized P filename text w.
Proof.
  rewrite serialize_cases.
  assert (Hno : forall e w0,
             dispatch e serialization_clauses w0 <> (Ok text, w')).
  { intros e w0 H. destruct (serialize_dispatch e w0) as (msg & Hd & _).
    unfold serialization_clauses in H. rewrite Hd in H. discriminate. }
  destruct (json_dumps_profile (to_dict P)) as [t|e];
    [|intros H; now apply Hno in H].
  destruct (fst (integrity_check P t (started P w)));
    [|intros H; now apply Hno in H].
  destruct (given filename) as [f|].
  - destruct (lookup_file (files w) f) as [[c|]|];
      [|intros H; now apply Hno in H|];
      intros [= <- <-]; split; reflexivity.
  - intros [= <- <-]; split; reflexivity.
Qed.

(** The text of a plain profile reads as the profile's record. *)
Lemma serialized_plain_loads P filename w text w' :
  well_formed P -> plain (preferences P) = true ->
  plain (created_at P) = true -> plain (last_updated P) = true ->
  Forall float_reads_back (floats (preferences P)) ->
  Forall float_reads_back (floats (created_at P)) ->
  Forall float_reads_back (floats (last_updated P)) ->
  serialize_user_profile P filename w = (Ok text, w') ->
  json_loads text = Ok (to_dict P) /\ w' = serialized P filename text w.
Proof.
  intros Hwf Hp Hc Hu Fp Fc Fu Hs.
  apply serialize_ok_inv in Hs as [Henc ->]. split; [|reflexivity].
  unfold json_dumps_profile in Henc.
  eapply loads_dumps; [| |exact Henc].
  - now apply well_formed_plain.
  - now apply well_formed_floats.
Qed.
End FileRoundTrip.

(** X14. The round trip through a file. Take a profile that keeps the
    constraints on its fields, with plain preferences and timestamps whose
    floats are read back from their [repr]. Once [serialize_user_profile]
    has written it to a file and returned, [deserialize_user_profile] on
    that file gives the same profile back, whatever text it is passed
    beside the file name. *)
Theorem file_round_trip :
  forall (R : PyRuntime) (P : UserProfile) (f : pystr) (w : world)
         (text : pystr) (w1 : world),
    well_formed P -> plain (preferences P) = true ->
    plain (created_at P) = true -> plain (last_updated P) = true ->
    Forall float_reads_back (floats (preferences P)) ->
    Forall float_reads_back (floats (created_at P)) ->
    Forall float_reads_back (floats (last_updated P)) ->
    f <> [] ->
    serialize_user_profile P (Some f) w = (Ok text, w1) ->
    exists w2,
      forall other,
        deserialize_user_profile other (Some f) w1 = (Ok P, w2).
Proof.
  intros R P f w text w1 Hwf Hp Hc Hu Fp Fc Fu Hf Hs.
  assert (E : str_eqb f [] = false) by (destruct f; [congruence|reflexivity]).
  destruct (serialized_plain_loads _ _ Hwf Hp Hc Hu Fp Fc Fu Hs) as [Hl ->].
  eexists. intros other. erewrite deserialize_from_file by exact E.
  cbn [serialized files]. unfold written, given. rewrite E.
  rewrite lookup_store_file, str_eqb_refl.
  now apply deserialize_own_record.
Qed.

Lemma file_round_trip_witness :
  exists w2,
    forall other,
      deserialize_user_profile other (Some (py "ann.json"))
        (serialized
           (example_profile
              (VDict [(VStr (py "theme"), VStr (py "dark"));
                      (VStr (py "zoom"), VFloat (S754_zero false))]))
           (Some (py "ann.json"))
           (jtext "{
  'name': 'Ann',
  'age': 30,
  'email': 'ann@example.com',
  'preferences': {
    'theme': 'dark',
    'zoom': 0.0
  },
  'created_at': '2024-01-01T00:00:00',
  'last_updated': '2024-01-01T00:00:00',
  '_version': '1.0'
}")
           (tick world0))
      = (Ok (example_profile
               (VDict [(VStr (py "theme"), VStr (py "dark"));
                       (VStr (py "zoom"), VFloat (S754_zero false))])), w2).
Proof.
  match goal with
  | |- exists w2, forall other,
         deserialize_user_profile other (Some ?f) (serialized ?P _ ?T ?w)
         = _ =>
      apply (@file_round_trip latin1_runtime P f w T)
  end.
  - repeat split.
    + exists (py "Ann"). reflexivity.
    + exists (py "ann@example.com"). reflexivity.
    + left. reflexivity.
  - reflexivity.
  - reflexivity.
  - reflexivity.
  - apply Forall_cons; [split; reflexivity|apply Forall_nil].
  - apply Forall_nil.
  - apply Forall_nil.
  - discriminate.
  - vm_compute. reflexivity.
Defined.

(** ** Recovery *)

Section RecoveryOutcome.
Context {R : PyRuntime}.

Lemma valid_name_truthy v s : _validate_name v = Ok s -> truthy v = true.
Proof.
  unfold _validate_name, value_error. destruct v as [| | | |t| | | | | |];
    try discriminate.
  destruct t; [discriminate|reflexivity].
Qed.

Lemma valid_email_truthy v s : _validate_email v = Ok s -> truthy v = true.
Proof.
  unfold _validate_email, value_error. destruct v as [| | | |t| | | | | |];
    try discriminate.
  destruct t; [discriminate|reflexivity].
Qed.

Lemma valid_age_recovered a :
  _validate_age a = Ok tt ->
  backup_age a = Ok (recovered_valid_age a) /\
  _validate_age (recovered_valid_age a) = Ok tt.
Proof.
  intros H. unfold _validate_age, value_error in H.
  destruct a as [|b|z| | | | | | | |]; try discriminate.
  - split; [|reflexivity]. apply backup_age_rejected. right. left. eauto.
  - cbn [is_int negb int_value] in H.
    destruct ((z <? 0)%Z) eqn:E; [discriminate|].
    split.
    + apply backup_age_natural. apply Z.ltb_ge in E. exact E.
    + unfold _validate_age. cbn [recovered_valid_age is_int negb int_value].
      rewrite E. cbn [orb] in *. destruct (150 <? z)%Z; [discriminate|reflexivity].
Qed.

Lemma recovered_preferences_default d :
  recovered_preferences d
  = let p := dict_get_default d (py "preferences") (VDict []) in
    let stored := if truthy p then p else VDict [] in
    if is_dict stored then stored else VDict [].
Proof.
  unfold recovered_preferences. cbv zeta.
  destruct (dict_get_default d (py "preferences") (VDict []))
    as [|b|z|f|s|l|l|l| | |]; try reflexivity.
  - now destruct b.
  - now destruct (truthy (VInt z)).
  - now destruct (truthy (VFloat f)).
  - now destruct (truthy (VStr s)).
  - now destruct l.
  - now destruct l.
  - now destruct l.
Qed.

Lemma restore_metadata_fields d P :
  name (restore_metadata d P) = name P /\
  email (restore_metadata d P) = email P /\
  age (restore_metadata d P) = age P /\
  preferences (restore_metadata d P) = preferences P.
Proof.
  unfold restore_metadata.
  destruct (dict_get d (py "created_at")), (dict_get d (py "last_updated"));
    repeat split.
Qed.

(** The recovery of a record, when it gives a profile. *)
Lemma backup_record_inv text d w P w' :
  json_loads text = Ok (VDict d) ->
  backup_deserialization_attempt text w = (Ok (Some P), w') ->
  exists a,
    backup_age (raw_age d) = Ok a /\
    __init__ (recovered_name d) a (recovered_email d)
      (recovered_preferences d) (warned w) = (Ok P, tick (warned w)) /\
    w' = recovered P w.
Proof.
  intros Hl. erewrite backup_record by exact Hl.
  destruct (backup_age (raw_age d)) as [a|e]; [|discriminate].
  destruct (__init__ _ _ _ _ _) as [[P0|e] w1] eqn:Hi; [|discriminate].
  intros [= -> <-]. exists a. split; [reflexivity|].
  destruct (init_ok _ _ _ _ _ Hi) as (_ & _ & _ & _ & ->).
  split; [exact Hi|reflexivity].
Qed.

Lemma backup_not_record_inv text w P w' :
  backup_deserialization_attempt text w = (Ok (Some P), w') ->
  exists d, json_loads text = Ok (VDict d).
Proof.
  intros H. destruct (json_loads text) as [v|e] eqn:Hl.
  - destruct v; try (destruct (@backup_not_a_record _ text w _ Hl eq_refl)
                       as [e He]; rewrite He in H; discriminate).
    eauto.
  - erewrite backup_parse_failure in H by exact Hl. discriminate.
Qed.
End RecoveryOutcome.

(** X15. When the recovery gives a profile, and which. It returns a profile
    exactly when the text parses to a record, [int()] accepts the age the
    record leads to, and the constructor accepts the recovered fields: the
    name and the email of the record as texts, or the defaults where the
    record has none or a falsy one. A blank name, an email without [@] or an
    age of digits above 150 is not replaced by a default: the recovery then
    returns nothing. *)
Theorem recovery_succeeds_iff :
  forall (R : PyRuntime) (text : pystr) (w : world) (P : UserProfile)
         (w' : world),
    backup_deserialization_attempt text w = (Ok (Some P), w') <->
    exists d a,
      json_loads text = Ok (VDict d) /\
      backup_age (raw_age d) = Ok a /\
      valid_name (recovered_name d) /\ valid_age a /\
      valid_email (recovered_email d) /\
      recovered_name d = VStr (name P) /\
      recovered_email d = VStr (email P) /\
      P = new_profile (name P) a (email P) (recovered_preferences d) (warned w) /\
      w' = recovered P w.
Proof.
  intros R text w P w'. split.
  - intros H. destruct (backup_not_record_inv _ _ H) as [d Hl].
    destruct (@backup_record_inv _ _ _ _ _ _ Hl H) as (a & Ha & Hi & ->).
    destruct (init_ok _ _ _ _ _ Hi) as (Vn & Va & Ve & HP & _).
    exists d, a. repeat split; trivial.
    + now exists (name P).
    + now exists (email P).
    + now apply validate_name_ok.
    + now apply validate_email_ok.
  - intros (d & a & Hl & Ha & [n Vn] & Va & [e Ve] & Hn & He & HP & ->).
    erewrite backup_record by exact Hl. rewrite Ha, init_spec, Vn, Va, Ve.
    apply validate_name_ok in Vn. apply validate_email_ok in Ve.
    rewrite Hn in Vn. rewrite He in Ve.
    injection Vn as <-. injection Ve as <-. rewrite <- HP. reflexivity.
Qed.

(** X16. The recovery accepts what strict decoding accepts. Whenever
    [deserialize_user_profile] decodes a text, the recovery of the same text
    gives a profile, with the same name and email, the same age if it is an
    integer (a boolean age, which the validator lets through, becomes 0),
    and the same preferences if they are a mapping (the empty mapping
    otherwise). The stored timestamps are not restored: both are the
    reading of the clock. *)
Theorem recovery_agrees_with_decode :
  forall (R : PyRuntime) (text : pystr) (w w0 : world) (P : UserProfile)
         (w1 : world),
    deserialize_user_profile text None w = (Ok P, w1) ->
    exists P',
      backup_deserialization_attempt text w0 = (Ok (Some P'), recovered P' w0) /\
      name P' = name P /\ email P' = email P /\
      age P' = recovered_valid_age (age P) /\
      preferences P'
      = (if is_dict (preferences P) then preferences P else VDict []) /\
      created_at P' = VStr (clock w0 (ticks w0)) /\
      last_updated P' = VStr (clock w0 (ticks w0)).
Proof.
  intros R text w w0 P w1 H.
  apply deserialize_inv in H
    as (d & n & a & e & P0 & w2 & Hl & Hn & Ha & He & Hi & ->).
  destruct (init_ok _ _ _ _ _ Hi) as (Vn & Va & Ve & HP & _).
  destruct (valid_age_recovered _ Va) as [Hb Va'].
  assert (En : recovered_name d = VStr (name P0)).
  { unfold recovered_name, dict_get_default. rewrite Hn.
    rewrite (valid_name_truthy _ Vn).
    apply validate_name_ok in Vn. now subst n. }
  assert (Ee : recovered_email d = VStr (email P0)).
  { unfold recovered_email, dict_get_default. rewrite He.
    rewrite (valid_email_truthy _ Ve).
    apply validate_email_ok in Ve. now subst e. }
  assert (Hr : raw_age d = a).
  { unfold raw_age, dict_get_default. now rewrite Ha. }
  exists (new_profile (name P0) (recovered_valid_age a) (email P0)
            (recovered_preferences d) (warned w0)).
  split.
  - erewrite backup_record by exact Hl. rewrite Hr, Hb, init_spec, En, Ee.
    apply validate_name_ok in Vn as Hn'. apply validate_email_ok in Ve as He'.
    rewrite <- Hn', <- He', Vn, Ve, Va'. reflexivity.
  - assert (Hage : age P0 = a) by (rewrite HP; reflexivity).
    assert (Hprefs : preferences P0
                     = (if truthy (dict_get_default d (py "preferences") (VDict []))
                        then dict_get_default d (py "preferences") (VDict [])
                        else VDict [])) by (rewrite HP; reflexivity).
    destruct (restore_metadata_fields d P0) as (-> & -> & -> & ->).
    rewrite Hage, Hprefs.
    cbn [name email age preferences created_at last_updated new_profile].
    rewrite recovered_preferences_default. cbv zeta.
    repeat split.
    destruct (if truthy (dict_get_default d (py "preferences") (VDict []))
              then dict_get_default d (py "preferences") (VDict [])
              else VDict []) as [| | | | | | |items| | |]; try reflexivity.
    now destruct items.
Qed.

Lemma recovery_agrees_with_decode_witness :
  exists P',
    backup_deserialization_attempt stale_record world0
    = (Ok (Some P'), recovered P' world0) /\
    name P' = py "Ann" /\ email P' = py "ann@example.com" /\
    age P' = VInt 30 /\ preferences P' = VDict [] /\
    created_at P' = VStr (py "2024-01-01T00:00:00") /\
    last_updated P' = VStr (py "2024-01-01T00:00:00").
Proof.
  apply (@recovery_agrees_with_decode latin1_runtime stale_record world0 world0
    {| name := py "Ann"; age := VInt 30; email := py "ann@example.com";
       preferences := VDict [];
       created_at := VStr (py "2025-06-01T12:00:00");
       last_updated := VStr (py "2020-01-01T08:30:00") |}
    (logged INFO (py "Successfully deserialized profile for: Ann")
       (tick world0))).
  vm_compute. reflexivity.
Defined.

(** ** The general round trip *)

Lemma existsb_names (f : pyval -> pyval) (s : pystr) (d : dict) :
  existsb (fun kv => key_eqb (VStr s) (fst kv))
    (map (fun kv => let '(k, x) := kv in (VStr (key_name k), f x)) d)
  = existsb (str_eqb s) (map (fun kv => key_name (fst kv)) d).
Proof.
  induction d as [|[k x] d IH]; [reflexivity|].
  cbn [map existsb]. rewrite IH. reflexivity.
Qed.

Lemma keys_distinct_names (f : pyval -> pyval) (d : dict) :
  keys_distinct (map (fun kv => let '(k, x) := kv in (VStr (key_name k), f x)) d)
  = names_distinct (map (fun kv => key_name (fst kv)) d).
Proof.
  induction d as [|[k x] d IH]; [reflexivity|].
  cbn [map keys_distinct names_distinct]. rewrite IH, existsb_names.
  reflexivity.
Qed.

Section Portable.
Context {R : PyRuntime}.
Variable n : nat.

Lemma elems_come_back l lvl :
  Forall (comes_back n) l -> forallb portable l = true ->
  exists ts,
    encode_elems (encode (Some n) false true lvl) l = Ok ts /\
    Forall2 read_back (map jsonify l) ts.
Proof.
  induction 1 as [|x l Hx _ IH]; cbn [forallb map encode_elems]; intros Hp.
  - exists []. split; [reflexivity|constructor].
  - apply andb_prop in Hp as [Hpx Hpl].
    destruct (Hx Hpx lvl) as (t & -> & Ht).
    destruct (IH Hpl) as (ts & Hts & H2).
    cbn [encode_elems] in Hts. rewrite Hts.
    exists (t :: ts). split; [reflexivity|now constructor].
Qed.

Lemma key_text_name k : is_key k = true -> key_text k = Ok (key_name k).
Proof. destruct k as [|[]| | | | | | | | |]; try discriminate; reflexivity. Qed.

Lemma items_come_back d lvl :
  Forall (fun kv => comes_back n (fst kv) /\ comes_back n (snd kv)) d ->
  forallb (fun kv => let '(k, x) := kv in is_key k && portable x) d = true ->
  exists parts,
    encode_items false (encode (Some n) false true lvl) d = Ok parts /\
    Forall2 (fun kv part =>
               exists k t, fst kv = VStr k /\
                           part = encode_str false k ++ key_separator ++ t /\
                           read_back (snd kv) t)
      (map (fun kv => let '(k, x) := kv in (VStr (key_name k), jsonify x)) d)
      parts.
Proof.
  induction 1 as [|[k x] d [_ Hx] _ IH]; cbn [forallb map encode_items];
    intros Hp.
  - exists []. split; [reflexivity|constructor].
  - apply andb_prop in Hp as [Hpx Hpl]. apply andb_prop in Hpx as [Hk Hpx].
    cbn [fst snd] in Hx. rewrite (key_text_name _ Hk).
    destruct (Hx Hpx lvl) as (t & -> & Ht).
    destruct (IH Hpl) as (parts & Hparts & H2).
    cbn [encode_items] in Hparts. rewrite Hparts.
    eexists. split; [reflexivity|]. constructor; [|exact H2].
    exists (key_name k), t. auto.
Qed.

Lemma read_back_text s : read_back (VStr s) (encode_str false s).
Proof.
  split; [simpl; repeat split; discriminate|]. split; [simpl; lia|].
  intros [|f] rest Hf Hr; [lia|apply scan_once_str].
Qed.

Lemma portable_comes_back v : comes_back n v.
Proof.
  induction v as [| [] | | | | l IH | l IH | d IH | | c t attrs IH |]
    using pyval_rect'; intros Hp lvl; try discriminate.
  - exists (py "null"). split; [reflexivity|].
    apply read_back_word; [reflexivity| |reflexivity].
    cbv. repeat split; discriminate.
  - exists (py "true"). split; [reflexivity|].
    apply read_back_word; [reflexivity| |reflexivity].
    cbv. repeat split; discriminate.
  - exists (py "false"). split; [reflexivity|].
    apply read_back_word; [reflexivity| |reflexivity].
    cbv. repeat split; discriminate.
  - exists (int_repr z). split; [reflexivity|].
    assert (Hst := int_repr_starts_value z []). rewrite List.app_nil_r in Hst.
    split; [exact Hst|]. split.
    + destruct (int_repr z); [contradiction|simpl; lia].
    + intros [|f] rest Hf Hr; [lia|now apply scan_once_int].
  - exists (encode_str false s). split; [reflexivity|apply read_back_text].
  - cbn [portable] in Hp.
    destruct (elems_come_back (S lvl) IH Hp) as (ts & Hts & H2).
    exists (bracket (Some n) 91 93 lvl ts). cbn [encode]. rewrite Hts.
    split; [reflexivity|]. cbn [jsonify]. now apply read_back_list.
  - cbn [portable] in Hp.
    destruct (elems_come_back (S lvl) IH Hp) as (ts & Hts & H2).
    exists (bracket (Some n) 91 93 lvl ts). cbn [encode]. rewrite Hts.
    split; [reflexivity|]. cbn [jsonify]. now apply read_back_list.
  - cbn [portable] in Hp. apply andb_prop in Hp as [Hp Hkeys].
    destruct (items_come_back (S lvl) IH Hp) as (parts & Hparts & H2).
    exists (bracket (Some n) 123 125 lvl parts). cbn [encode]. rewrite Hparts.
    split; [reflexivity|]. cbn [jsonify]. apply read_back_dict; [exact H2|].
    now rewrite keys_distinct_names.
  - eexists. split; [reflexivity|]. apply read_back_text.
  - cbn [portable] in Hp. apply andb_prop in Hp as [Hp Hkeys].
    destruct (items_come_back (S lvl) IH Hp) as (parts & Hparts & H2).
    exists (bracket (Some n) 123 125 lvl parts). cbn [encode]. rewrite Hparts.
    split; [reflexivity|]. cbn [jsonify]. apply read_back_dict; [exact H2|].
    now rewrite keys_distinct_names.
Qed.

Lemma read_back_loads x t : read_back x t -> json_loads t = Ok x.
Proof.
  intros (Hst & Hsize & Hscan). unfold json_loads.
  replace (has_bom t) with false.
  - rewrite skip_ws_value by exact Hst.
    specialize (Hscan (S (List.length t)) [] ltac:(lia) I).
    rewrite List.app_nil_r in Hscan. now rewrite Hscan.
  - destruct t as [|c t]; [reflexivity|].
    destruct Hst as (_ & _ & _ & Hb). symmetry. now apply N.eqb_neq.
Qed.
End Portable.

Section GeneralRoundTrip.
Context {R : PyRuntime}.

Lemma valid_age_portable a :
  _validate_age a = Ok tt -> portable a = true /\ jsonify a = a.
Proof.
  unfold _validate_age, value_error.
  destruct a; try discriminate; split; reflexivity.
Qed.

Lemma to_dict_portable P :
  well_formed P -> portable (preferences P) = true ->
  portable (created_at P) = true -> portable (last_updated P) = true ->
  portable (to_dict P) = true.
Proof.
  intros (_ & Ha & _) Hp Hc Hu.
  destruct (valid_age_portable _ Ha) as [Hpa _].
  unfold to_dict. cbn [portable forallb is_key andb].
  rewrite Hpa, Hp, Hc, Hu. reflexivity.
Qed.

(** The text of a profile whose fields are portable reads as the record
    [jsonify] gives. *)
Lemma serialized_portable_loads P filename w text w' :
  well_formed P -> portable (preferences P) = true ->
  portable (created_at P) = true -> portable (last_updated P) = true ->
  serialize_user_profile P filename w = (Ok text, w') ->
  json_loads text = Ok (jsonify (to_dict P)).
Proof.
  intros Hwf Hp Hc Hu Hs.
  apply serialize_ok_inv in Hs as [Henc _].
  assert (Hd : portable (to_dict P) = true) by now apply to_dict_portable.
  destruct (portable_comes_back 2 (to_dict P) Hd 0%nat) as (t & Ht & Hrb).
  unfold json_dumps_profile in Henc. rewrite Henc in Ht.
  injection Ht as <-. eapply read_back_loads. exact Hrb.
Qed.

(** A text that reads as the record [jsonify] gives decodes to the profile
    [read_profile] gives. *)
Lemma deserialize_jsonified P text w :
  well_formed P -> json_loads text = Ok (jsonify (to_dict P)) ->
  deserialize_user_profile text None w
  = (Ok (read_profile P),
     logged INFO (py "Successfully deserialized profile for: " ++ name P)
       (tick w)).
Proof.
  intros ([n Vn] & Va & [e Ve] & _) Hl.
  apply validate_name_ok in Vn as En. apply validate_email_ok in Ve as Ee.
  injection En as <-. injection Ee as <-.
  destruct (valid_age_portable _ Va) as [_ Hja].
  unfold to_dict in Hl. cbn [jsonify map key_name] in Hl. rewrite Hja in Hl.
  match type of Hl with _ = Ok (VDict ?d0) => set (d := d0) in * end.
  assert (Hf : from_dict d (version_checked d w)
               = (Ok (read_profile P), tick w)).
  { erewrite from_dict_ok; [| reflexivity | reflexivity | reflexivity |].
    2:{ rewrite init_spec, Vn, Va, Ve. reflexivity. }
    reflexivity. }
  erewrite deserialize_record by eassumption. reflexivity.
Qed.
End GeneralRoundTrip.

(** X17. The round trip in general. Take a profile that keeps the
    constraints on its fields, whose preferences and timestamps hold no
    float and no object without a [__dict__] and have in every mapping keys
    that are written differently. Once [serialize_user_profile] has
    returned a text for it, deserializing the text gives the profile back
    with each value as the interchange format returns it: a tuple as a
    list, a key as its text, a [datetime] as its [isoformat()] text, an
    object as the mapping of its attributes. *)
Theorem round_trip_general :
  forall (R : PyRuntime) (P : UserProfile) (w : world)
         (text : pystr) (w1 : world),
    well_formed P -> portable (preferences P) = true ->
    portable (created_at P) = true -> portable (last_updated P) = true ->
    serialize_user_profile P None w = (Ok text, w1) ->
    exists w2,
      deserialize_user_profile text None w1 = (Ok (read_profile P), w2).
Proof.
  intros R P w text w1 Hwf Hp Hc Hu Hs.
  eexists. apply deserialize_jsonified; [exact Hwf|].
  eapply serialized_portable_loads; eassumption.
Qed.

Lemma round_trip_general_witness :
  exists w2,
    deserialize_user_profile
      (jtext "{
  'name': 'Ann',
  'age': 30,
  'email': 'ann@example.com',
  'preferences': {
    'since': '2024-05-01T09:30:00',
    '7': [
      true,
      null
    ]
  },
  'created_at': '2024-01-01T00:00:00',
  'last_updated': '2024-01-01T00:00:00',
  '_version': '1.0'
}")
      None
      (logged INFO (py "Successfully serialized profile for: Ann")
         (logged INFO (py "Starting serialization for user: Ann")
            (tick world0)))
    = (Ok (example_profile
             (VDict [(VStr (py "since"), VStr (py "2024-05-01T09:30:00"));
                     (VStr (py "7"), VList [VBool true; VNone])])), w2).
Proof.
  apply (@round_trip_general latin1_runtime
    (example_profile
       (VDict [(VStr (py "since"),
                VDatetime (py "2024-05-01T09:30:00")
                          (py "datetime.datetime(2024, 5, 1, 9, 30)"));
               (VInt 7, VTuple [VBool true; VNone])]))
    (tick world0)).
  - repeat split.
    + exists (py "Ann"). reflexivity.
    + exists (py "ann@example.com"). reflexivity.
    + left. reflexivity.
  - reflexivity.
  - reflexivity.
  - reflexivity.
  - vm_compute. reflexivity.
Defined.

(** ** Updates and the round trip *)

Lemma existsb_setitem (a : pyval) (d : dict) (k v : pyval) :
  existsb (fun kv => key_eqb a (fst kv)) (dict_setitem d k v) = true ->
  existsb (fun kv => key_eqb a (fst kv)) d = true \/ key_eqb a k = true.
Proof.
  induction d as [|[k' v'] d IH]; cbn [dict_setitem existsb fst].
  - rewrite orb_false_r. now right.
  - destruct (key_eqb k' k); cbn [existsb fst]; [now left|].
    intros H. apply orb_prop in H as [H|H].
    + left. now rewrite H.
    + destruct (IH H) as [H'|H']; [left|now right].
      rewrite H'. apply orb_true_r.
Qed.

Lemma keys_distinct_setitem (d : dict) (k v : pyval) :
  keys_distinct d = true -> keys_distinct (dict_setitem d k v) = true.
Proof.
  induction d as [|[k' v'] d IH]; [reflexivity|].
  cbn [dict_setitem keys_distinct]. intros H.
  apply andb_prop in H as [H1 H2].
  destruct (key_eqb k' k) eqn:E; cbn [keys_distinct].
  - now rewrite H1, H2.
  - rewrite (IH H2), andb_true_r.
    apply negb_true_iff. apply negb_true_iff in H1.
    destruct (existsb _ (dict_setitem d k v)) eqn:E'; [|reflexivity].
    apply existsb_setitem in E' as [E'|E']; congruence.
Qed.

Lemma plain_setitem (d : dict) (k : pystr) (v : pyval) :
  plain (VDict d) = true -> plain v = true ->
  plain (VDict (dict_setitem d (VStr k) v)) = true.
Proof.
  cbn [plain]. intros H Hv. apply andb_prop in H as [H1 H2].
  rewrite keys_distinct_setitem, andb_true_r by exact H2.
  clear H2. induction d as [|[k' v'] d IH]; cbn [dict_setitem forallb].
  - cbn [is_str andb]. now rewrite Hv.
  - cbn [forallb] in H1. apply andb_prop in H1 as [Hk Hd].
    apply andb_prop in Hk as [Hk Hv'].
    destruct (key_eqb k' (VStr k)); cbn [forallb].
    + now rewrite Hk, Hv, Hd.
    + now rewrite Hk, Hv', IH.
Qed.

Lemma plain_update (d items : dict) :
  plain (VDict d) = true -> plain (VDict items) = true ->
  plain (VDict (dict_update d items)) = true.
Proof.
  intros Hd Hi. cbn [plain] in Hi. apply andb_prop in Hi as [Hi _].
  revert d Hd. unfold dict_update.
  induction items as [|[k v] items IH]; intros d Hd; [exact Hd|].
  cbn [forallb] in Hi. apply andb_prop in Hi as [Hkv Hi].
  apply andb_prop in Hkv as [Hk Hv].
  cbn [fold_left fst snd]. apply IH; [exact Hi|].
  destruct k; try discriminate. now apply plain_setitem.
Qed.

(** The floats of the merged mapping are floats of one of the two. *)
Lemma floats_setitem (Q : spec_float -> Prop) (d : dict) (k v : pyval) :
  Forall Q (floats (VDict d)) -> Forall Q (floats v) ->
  Forall Q (floats (VDict (dict_setitem d k v))).
Proof.
  cbn [floats]. intros Hd Hv.
  induction d as [|[k' v'] d IH]; cbn [dict_setitem flat_map] in *.
  - rewrite List.app_nil_r. exact Hv.
  - apply Forall_app in Hd as [H1 H2].
    destruct (key_eqb k' k); cbn [flat_map]; apply Forall_app; split; auto.
Qed.

Lemma floats_update (Q : spec_float -> Prop) (d items : dict) :
  Forall Q (floats (VDict d)) -> Forall Q (floats (VDict items)) ->
  Forall Q (floats (VDict (dict_update d items))).
Proof.
  unfold dict_update. revert d.
  induction items as [|[k v] items IH]; intros d Hd Hi; [exact Hd|].
  cbn [floats flat_map] in Hi. apply Forall_app in Hi as [Hv Hi].
  cbn [fold_left fst snd]. apply IH; [|exact Hi].
  now apply floats_setitem.
Qed.

(** X18. Updates keep the round trip. Take a profile that keeps the
    constraints on its fields, with plain preferences and a plain
    [created_at], and a plain mapping of new preferences, the floats of
    both being read back from their [repr]. Once [update_preferences] has
    merged the mapping and [serialize_user_profile] has returned a text for
    the updated profile, deserializing the text gives the updated profile
    back. *)
Theorem update_then_round_trip :
  forall (R : PyRuntime) (P : UserProfile) (items : dict) (w : world)
         (P' : UserProfile) (w' : world) (text : pystr) (w1 : world),
    well_formed P -> plain (preferences P) = true ->
    plain (created_at P) = true ->
    Forall float_reads_back (floats (preferences P)) ->
    Forall float_reads_back (floats (created_at P)) ->
    plain (VDict items) = true ->
    Forall float_reads_back (floats (VDict items)) ->
    update_preferences P (VDict items) w = (Ok tt, P', w') ->
    serialize_user_profile P' None w' = (Ok text, w1) ->
    exists w2, deserialize_user_profile text None w1 = (Ok P', w2).
Proof.
  intros R P items w P' w' text w1 Hwf Hp Hc Fp Fc Hi Fi Hu Hs.
  assert (Hwf' : well_formed P')
    by (eapply update_well_formed; eassumption).
  apply update_preferences_succeeds_iff_aux in Hu
    as (items' & d & [= <-] & _ & Hd & -> & ->).
  rewrite Hd in Hp, Fp.
  assert (Hpl : plain (preferences (updated P d items w)) = true)
    by now apply plain_update.
  assert (Fpl : Forall float_reads_back
                  (floats (preferences (updated P d items w))))
    by now apply floats_update.
  destruct (@serialized_plain_loads _ (updated P d items w) None (tick w)
              text w1 Hwf' Hpl Hc eq_refl Fpl Fc (Forall_nil _) Hs)
    as [Hl _].
  eexists. now apply deserialize_own_record.
Qed.

Lemma update_then_round_trip_witness :
  exists w2,
    deserialize_user_profile
      (jtext "{
  'name': 'Ann',
  'age': 30,
  'email': 'ann@example.com',
  'preferences': {
    'theme': 'light',
    'sizes': [
      12,
      14
    ]
  },
  'created_at': '2024-01-01T00:00:00',
  'last_updated': '2024-01-01T00:00:01',
  '_version': '1.0'
}")
      None
      (logged INFO (py "Successfully serialized profile for: Ann")
         (logged INFO (py "Starting serialization for user: Ann")
            (tick (tick world0))))
    = (Ok (updated
             (example_profile (VDict [(VStr (py "theme"), VStr (py "dark"))]))
             [(VStr (py "theme"), VStr (py "dark"))]
             [(VStr (py "theme"), VStr (py "light"));
              (VStr (py "sizes"), VList [VInt 12; VInt 14])]
             (tick world0)), w2).
Proof.
  apply (@update_then_round_trip latin1_runtime
    (example_profile (VDict [(VStr (py "theme"), VStr (py "dark"))]))
    [(VStr (py "theme"), VStr (py "light"));
     (VStr (py "sizes"), VList [VInt 12; VInt 14])]
    (tick world0) _ (tick (tick world0))).
  - repeat split.
    + exists (py "Ann"). reflexivity.
    + exists (py "ann@example.com"). reflexivity.
    + left. reflexivity.
  - reflexivity.
  - reflexivity.
  - apply Forall_nil.
  - apply Forall_nil.
  - reflexivity.
  - apply Forall_nil.
  - vm_compute. reflexivity.
  - vm_compute. reflexivity.
Defined.

(** ** What decoding leaves alone *)

Lemma kf_ret {A} (a : A) : keeps_files (ret a).
Proof. intros w r w' [= _ <-]. reflexivity. Qed.

Lemma kf_raise {A} c msg : keeps_files (@raise A c msg).
Proof. intros w r w' [= _ <-]. reflexivity. Qed.

Lemma kf_lift {A} (o : outcome A) : keeps_files (lift o).
Proof. intros w r w' [= _ <-]. reflexivity. Qed.

Lemma kf_logger l msg : keeps_files (logger l msg).
Proof. intros w r w' [= _ <-]. reflexivity. Qed.

Lemma kf_now : keeps_files now_isoformat.
Proof. intros w r w' [= _ <-]. reflexivity. Qed.

Lemma kf_read_file f : keeps_files (read_file f).
Proof.
  intros w r w'. unfold read_file.
  destruct (lookup_file (files w) f) as [[t|]|]; now intros [= _ <-].
Qed.

Lemma kf_bind {A B} (m : M A) (k : A -> M B) :
  keeps_files m -> (forall a, keeps_files (k a)) -> keeps_files (bind m k).
Proof.
  intros Hm Hk w r w'. unfold bind.
  destruct (m w) as [[a|e] w1] eqn:E.
  - intros H. apply Hk in H. apply Hm in E. congruence.
  - intros [= _ <-]. now apply Hm in E.
Qed.

Lemma kf_dispatch {A} e (clauses : list (clause A)) :
  Forall (fun c => forall e, keeps_files (snd c e)) clauses ->
  keeps_files (dispatch e clauses).
Proof.
  induction 1 as [|[cs h] clauses Hh _ IH]; cbn [dispatch].
  - intros w r w' [= _ <-]. reflexivity.
  - destruct (isinstance_exn e cs); [apply Hh|exact IH].
Qed.

Lemma kf_try {A} (body : M A) clauses :
  keeps_files body ->
  Forall (fun c => forall e, keeps_files (snd c e)) clauses ->
  keeps_files (try_except body clauses).
Proof.
  intros Hb Hc w r w'. unfold try_except.
  destruct (body w) as [[a|e] w1] eqn:E.
  - intros [= _ <-]. now apply Hb in E.
  - intros H. apply (kf_dispatch e Hc) in H. apply Hb in E. congruence.
Qed.

Ltac keeps_files_step :=
  first
    [ apply kf_ret | apply kf_raise | apply kf_lift | apply kf_logger
    | apply kf_now | apply kf_read_file
    | apply kf_bind; [|intros ?]
    | apply kf_try; [|repeat constructor; intros ?; cbn [snd]]
    | match goal with
      | |- keeps_files (match ?x with _ => _ end) => destruct x
      end ].

Section KeepsFiles.
Context {R : PyRuntime}.

Lemma kf_init n a e p : keeps_files (__init__ n a e p).
Proof. unfold __init__. repeat keeps_files_step. Qed.

Lemma kf_check_required d fields : keeps_files (check_required d fields).
Proof.
  induction fields as [|f fields IH]; cbn [check_required];
    [apply kf_ret|].
  destruct (negb (dict_has d f)); [apply kf_raise|exact IH].
Qed.

Lemma kf_from_dict d : keeps_files (from_dict d).
Proof.
  unfold from_dict.
  apply kf_try; [|repeat constructor; intros ?; apply kf_raise].
  apply kf_bind; [apply kf_check_required|intros ?].
  repeat (apply kf_bind; [apply kf_lift|intros ?]).
  apply kf_bind; [apply kf_init|intros ?]. apply kf_ret.
Qed.

Lemma kf_deserialize text filename :
  keeps_files (deserialize_user_profile text filename).
Proof.
  unfold deserialize_user_profile.
  apply kf_try.
  2:{ repeat constructor; intros ?; cbn [snd]; unfold fail_deserialization;
      repeat keeps_files_step. }
  apply kf_bind.
  { destruct (given filename); repeat keeps_files_step. }
  intros json_data. destruct (str_eqb json_data []); [apply kf_raise|].
  apply kf_bind; [repeat keeps_files_step|].
  intros v. destruct v; try apply kf_raise.
  apply kf_bind; [destruct (negb _); repeat keeps_files_step|intros ?].
  apply kf_bind; [apply kf_from_dict|intros ?].
  repeat keeps_files_step.
Qed.

Lemma kf_backup text : keeps_files (backup_deserialization_attempt text).
Proof.
  unfold backup_deserialization_attempt.
  apply kf_try; [|repeat constructor; intros ?; cbn [snd];
                  repeat keeps_files_step].
  apply kf_bind; [apply kf_logger|intros ?].
  repeat (apply kf_bind; [apply kf_lift|intros ?]).
  apply kf_bind; [apply kf_init|intros ?].
  repeat keeps_files_step.
Qed.
End KeepsFiles.

(** X20. Decoding writes nothing. Whatever their outcome, the constructor,
    [deserialize_user_profile] (which may read a file) and
    [backup_deserialization_attempt] leave every file as it was. *)
Theorem decoding_keeps_files :
  forall (R : PyRuntime) (text : pystr) (filename : option pystr)
         (n a e p : pyval),
    keeps_files (__init__ n a e p) /\
    keeps_files (deserialize_user_profile text filename) /\
    keeps_files (backup_deserialization_attempt text).
Proof.
  intros R text filename n a e p. split; [apply kf_init|].
  split; [apply kf_deserialize|apply kf_backup].
Qed.

Lemma decoding_keeps_files_witness :
  files (logged INFO (py "Successfully deserialized profile for: Ann")
           (tick (logged INFO (py "Successfully read data from: ann.json")
                    (World (clock world0) 0 []
                       [(py "ann.json", Readable stale_record)]))))
  = files (World (clock world0) 0 [] [(py "ann.json", Readable stale_record)]).
Proof.
  apply (proj1 (proj2 (@decoding_keeps_files latin1_runtime (py "ignored")
                         (Some (py "ann.json")) VNone VNone VNone VNone))
           (World (clock world0) 0 [] [(py "ann.json", Readable stale_record)])
           (Ok {| name := py "Ann"; age := VInt 30;
                  email := py "ann@example.com"; preferences := VDict [];
                  created_at := VStr (py "2025-06-01T12:00:00");
                  last_updated := VStr (py "2020-01-01T08:30:00") |})).
  vm_compute. reflexivity.
Defined.

(** ** What the constructor accepts *)

Lemma str_eqb_neq (a b : pystr) : str_eqb a b = false <-> a <> b.
Proof.
  split.
  - intros H E. subst. now rewrite str_eqb_refl in H.
  - intros H. destruct (str_eqb a b) eqn:E; [|reflexivity].
    apply str_eqb_eq in E. contradiction.
Qed.

Lemma str_contains_In c s : str_contains c s = true <-> In c s.
Proof.
  unfold str_contains. rewrite existsb_exists. split.
  - intros (x & Hx & E). apply N.eqb_eq in E. now subst.
  - intros H. exists c. split; [exact H|apply N.eqb_refl].
Qed.

Lemma valid_name_iff v : valid_name v <-> acceptable_name v.
Proof.
  unfold valid_name, acceptable_name, _validate_name, value_error. split.
  - intros [n H]. destruct v as [| | | |s| | | | | |]; try discriminate.
    destruct (str_eqb (strip s) []) eqn:E; [discriminate|].
    destruct (100 <? List.length s)%nat eqn:E'; [discriminate|].
    exists s. split; [reflexivity|]. split.
    + now apply str_eqb_neq.
    + now apply Nat.ltb_ge.
  - intros (s & -> & Hs & Hl). exists s.
    apply str_eqb_neq in Hs. apply Nat.ltb_ge in Hl. now rewrite Hs, Hl.
Qed.

Lemma valid_age_iff v : valid_age v <-> acceptable_age v.
Proof.
  unfold valid_age, acceptable_age, _validate_age, value_error. split.
  - destruct v as [|b|z| | | | | | | |]; try discriminate.
    + intros _. right. now exists b.
    + cbn [is_int negb int_value].
      destruct (z <? 0)%Z eqn:E1; [discriminate|].
      destruct (150 <? z)%Z eqn:E2; [discriminate|]. intros _.
      left. exists z. split; [reflexivity|].
      apply Z.ltb_ge in E1, E2. lia.
  - intros [(z & -> & Hz) | (b & ->)].
    + cbn [is_int negb int_value].
      assert (E1 : (z <? 0)%Z = false) by (apply Z.ltb_ge; lia).
      assert (E2 : (150 <? z)%Z = false) by (apply Z.ltb_ge; lia).
      now rewrite E1, E2.
    + now destruct b.
Qed.

Lemma valid_email_iff v : valid_email v <-> acceptable_email v.
Proof.
  unfold valid_email, acceptable_email, _validate_email, value_error. split.
  - intros [e H]. destruct v as [| | | |s| | | | | |]; try discriminate.
    destruct (str_contains 64 s) eqn:E1; [|discriminate].
    destruct (str_contains 46 s) eqn:E2; [|discriminate].
    exists s. split; [reflexivity|]. split; now apply str_contains_In.
  - intros (s & -> & H1 & H2). exists s.
    apply str_contains_In in H1, H2. now rewrite H1, H2.
Qed.

(** X21. What the constructor accepts. [UserProfile(name, age, email,
    preferences)] returns a profile exactly when the name is a text that is
    not blank and has at most 100 characters (counted before any trimming),
    the age is an integer from 0 to 150 or a boolean, and the email is a
    text with an [@] and a full stop; the preferences play no part. The
    profile then holds the name and the email as given, untrimmed. *)
Theorem constructor_accepts_iff :
  forall (R : PyRuntime) (n a e p : pyval) (w : world),
    (succeeds (__init__ n a e p) w <->
     acceptable_name n /\ acceptable_age a /\ acceptable_email e) /\
    (forall P w',
       __init__ n a e p w = (Ok P, w') ->
       n = VStr (name P) /\ age P = a /\ e = VStr (email P)).
Proof.
  intros R n a e p w. split; [split|].
  - intros (P & w' & H).
    destruct (init_ok _ _ _ _ _ H) as (Vn & Va & Ve & _).
    split; [apply valid_name_iff; eexists; exact Vn|].
    split; [apply valid_age_iff; exact Va|].
    apply valid_email_iff. eexists. exact Ve.
  - intros (Hn & Ha & He).
    apply init_succeeds;
      [now apply valid_name_iff|now apply valid_age_iff|now apply valid_email_iff].
  - intros P w' H.
    destruct (init_ok _ _ _ _ _ H) as (Vn & Va & Ve & HP & _).
    split; [now apply validate_name_ok|].
    split; [rewrite HP; reflexivity|now apply validate_email_ok].
Qed.

Lemma constructor_accepts_iff_witness :
  VStr (py " Ann ") = VStr (name (new_profile (py " Ann ") (VBool true)
                                   (py "@.") VNone world0)) /\
  age (new_profile (py " Ann ") (VBool true) (py "@.") VNone world0)
  = VBool true /\
  VStr (py "@.") = VStr (email (new_profile (py " Ann ") (VBool true)
                                  (py "@.") VNone world0)).
Proof.
  apply (proj2 (@constructor_accepts_iff latin1_runtime (VStr (py " Ann "))
                  (VBool true) (VStr (py "@.")) VNone world0)
           _ (tick world0)).
  reflexivity.
Defined.

(** ** How an update fails *)

(** X22. How [update_preferences] fails. Whatever makes it fail, the
    profile and the world are as before the call. An argument of one of
    Python's own types that is no mapping is refused with a [ValueError].
    An argument that passes the check (a mapping with text keys and values
    [json.dumps] accepts) fails only on a profile whose own preferences are
    no mapping, and, these being of one of Python's own types, with an
    [AttributeError]. *)
Theorem update_preferences_failure :
  forall (R : PyRuntime) (self : UserProfile) (new : pyval) (w : world)
         (e : exn) (self' : UserProfile) (w' : world),
    builtin (preferences self) = true ->
    update_preferences self new w = (Raise e, self', w') ->
    self' = self /\ w' = w /\
    (builtin new = true -> is_dict new = false ->
     e = Exn ValueError (py "Preferences must be a dictionary")) /\
    (forall items,
       new = VDict items -> Forall acceptable_entry items ->
       exn_cls e = AttributeError /\ is_dict (preferences self) = false).
Proof.
  intros R self new w e self' w' _. unfold update_preferences.
  destruct new as [| | | | | | |items| | |];
    try (intros [= <- <- <-];
         split; [reflexivity|]; split; [reflexivity|];
         split; [intros _ _; reflexivity|intros items' Hn; discriminate Hn]).
  destruct (check_preferences items) as [[]|e0] eqn:Ec.
  - destruct (preferences self) as [| | | | | | |d| | |] eqn:Ep;
      try (intros [= <- <- <-];
           split; [reflexivity|]; split; [reflexivity|];
           split; [intros _ Hn; discriminate Hn|];
           intros items' _ _; split; reflexivity).
    cbn. discriminate.
  - intros [= <- <- <-].
    split; [reflexivity|]. split; [reflexivity|].
    split; [intros _ Hn; discriminate Hn|].
    intros items' [= <-] Hi. apply check_preferences_ok in Hi. congruence.
Qed.

Lemma update_preferences_failure_witness :
  example_profile (VList [VStr (py "dark")])
  = example_profile (VList [VStr (py "dark")]) /\
  tick world0 = tick world0 /\
  (builtin (VDict [(VStr (py "theme"), VStr (py "light"))]) = true ->
   is_dict (VDict [(VStr (py "theme"), VStr (py "light"))]) = false ->
   Exn AttributeError (py "'list' object has no attribute 'update'")
   = Exn ValueError (py "Preferences must be a dictionary")) /\
  (forall items,
     VDict [(VStr (py "theme"), VStr (py "light"))] = VDict items ->
     Forall (@acceptable_entry latin1_runtime) items ->
     exn_cls (Exn AttributeError (py "'list' object has no attribute 'update'"))
     = AttributeError /\
     is_dict (preferences (example_profile (VList [VStr (py "dark")])))
     = false).
Proof.
  apply (@update_preferences_failure latin1_runtime
    (example_profile (VList [VStr (py "dark")]))
    (VDict [(VStr (py "theme"), VStr (py "light"))]) (tick world0)).
  - reflexivity.
  - vm_compute. reflexivity.
Defined.

(** ** The round trip, a second time *)

Section Stable.
Context {R : PyRuntime}.

Lemma forallb_map {A B} (f : B -> bool) (g : A -> B) (l : list A) :
  forallb f (map g l) = forallb (fun x => f (g x)) l.
Proof. induction l as [|x l IH]; [reflexivity|]. cbn. now rewrite IH. Qed.

(** What comes back is plain. *)
Lemma jsonify_plain v : portable v = true -> plain (jsonify v) = true.
Proof.
  induction v as [| [] | | | | l IH | l IH | d IH | | c t attrs IH |]
    using pyval_rect'; intros Hp; try discriminate; try reflexivity.
  - cbn [portable jsonify plain] in *. rewrite forallb_map.
    rewrite forallb_forall in *. rewrite Forall_forall in IH. auto.
  - cbn [portable jsonify plain] in *. rewrite forallb_map.
    rewrite forallb_forall in *. rewrite Forall_forall in IH. auto.
  - cbn [portable jsonify plain] in *. apply andb_prop in Hp as [Hp Hk].
    rewrite keys_distinct_names, Hk, andb_true_r, forallb_map.
    rewrite forallb_forall in *. rewrite Forall_forall in IH.
    intros [k x] Hin. specialize (Hp _ Hin). cbn in Hp.
    apply andb_prop in Hp as [_ Hp]. cbn [is_str andb].
    now apply (IH _ Hin).
  - cbn [portable jsonify plain] in *. apply andb_prop in Hp as [Hp Hk].
    rewrite keys_distinct_names, Hk, andb_true_r, forallb_map.
    rewrite forallb_forall in *. rewrite Forall_forall in IH.
    intros [k x] Hin. specialize (Hp _ Hin). cbn in Hp.
    apply andb_prop in Hp as [_ Hp]. cbn [is_str andb].
    now apply (IH _ Hin).
Qed.

Lemma elems_no_floats l :
  Forall (fun x => portable x = true -> floats (jsonify x) = []) l ->
  forallb portable l = true ->
  flat_map floats (map jsonify l) = [].
Proof.
  induction 1 as [|x l Hx _ IH]; cbn [forallb map flat_map]; intros Hp;
    [reflexivity|].
  apply andb_prop in Hp as [Hpx Hpl]. now rewrite (Hx Hpx), (IH Hpl).
Qed.

Lemma items_no_floats d :
  Forall (fun kv => (portable (fst kv) = true -> floats (jsonify (fst kv)) = [])
                    /\ (portable (snd kv) = true ->
                        floats (jsonify (snd kv)) = [])) d ->
  forallb (fun kv => let '(k, x) := kv in is_key k && portable x) d = true ->
  flat_map (fun kv => let '(_, x) := kv in floats x)
    (map (fun kv => let '(k, x) := kv in (VStr (key_name k), jsonify x)) d)
  = [].
Proof.
  induction 1 as [|[k x] d [_ Hx] _ IH]; cbn [forallb map flat_map];
    intros Hp; [reflexivity|].
  apply andb_prop in Hp as [Hpx Hpl]. apply andb_prop in Hpx as [_ Hpx].
  cbn [snd] in Hx. now rewrite (Hx Hpx), (IH Hpl).
Qed.

(** What comes back holds no float, the value being portable. *)
Lemma jsonify_floats v : portable v = true -> floats (jsonify v) = [].
Proof.
  induction v as [| [] | | | | l IH | l IH | d IH | | c t attrs IH |]
    using pyval_rect'; intros Hp; try discriminate; try reflexivity.
  - cbn [portable jsonify floats] in *. now apply elems_no_floats.
  - cbn [portable jsonify floats] in *. now apply elems_no_floats.
  - cbn [portable jsonify floats] in *. apply andb_prop in Hp as [Hp _].
    now apply items_no_floats.
  - cbn [portable jsonify floats] in *. apply andb_prop in Hp as [Hp _].
    now apply items_no_floats.
Qed.

Lemma read_profile_well_formed P :
  well_formed P -> well_formed (read_profile P).
Proof.
  intros (Hn & Ha & He & _). unfold well_formed, read_profile.
  cbn [name age email preferences]. repeat split; trivial.
  destruct (truthy (jsonify (preferences P))) eqn:E; [now left|now right].
Qed.

Lemma read_profile_plain P :
  portable (preferences P) = true ->
  plain (preferences (read_profile P)) = true.
Proof.
  intros Hp. unfold read_profile. cbn [preferences].
  destruct (truthy _); [now apply jsonify_plain|reflexivity].
Qed.

Lemma read_profile_floats P :
  portable (preferences P) = true ->
  floats (preferences (read_profile P)) = [].
Proof.
  intros Hp. unfold read_profile. cbn [preferences].
  destruct (truthy _); [now apply jsonify_floats|reflexivity].
Qed.
End Stable.

(** X23. One round trip is enough. Take a portable profile for which
    [serialize_user_profile] has returned a text. The profile that
    deserializing the text gives is plain, preferences and timestamps; and
    whenever this profile is serialized in its turn, deserializing the text
    gives it back as it is. What a round trip changes (tuples, keys,
    [datetime] values, objects), it changes the first time and never
    again. *)
Theorem round_trip_stabilises :
  forall (R : PyRuntime) (P : UserProfile) (w : world)
         (text : pystr) (w1 : world),
    well_formed P -> portable (preferences P) = true ->
    portable (created_at P) = true -> portable (last_updated P) = true ->
    serialize_user_profile P None w = (Ok text, w1) ->
    exists P' w2,
      deserialize_user_profile text None w1 = (Ok P', w2) /\
      plain (preferences P') = true /\
      plain (created_at P') = true /\ plain (last_updated P') = true /\
      forall (v : world) (text' : pystr) (v1 : world),
        serialize_user_profile P' None v = (Ok text', v1) ->
        exists v2, deserialize_user_profile text' None v1 = (Ok P', v2).
Proof.
  intros R P w text w1 Hwf Hp Hc Hu Hs.
  exists (read_profile P). eexists. split; [|split; [|split; [|split]]].
  - apply deserialize_jsonified; [exact Hwf|].
    eapply serialized_portable_loads; eassumption.
  - now apply read_profile_plain.
  - now apply jsonify_plain.
  - now apply jsonify_plain.
  - intros v text' v1 Hs'.
    assert (Hwf' : well_formed (read_profile P))
      by now apply read_profile_well_formed.
    destruct (@serialized_plain_loads _ (read_profile P) None v text' v1)
      as [Hl _]; trivial.
    + now apply read_profile_plain.
    + now apply jsonify_plain.
    + now apply jsonify_plain.
    + rewrite read_profile_floats by exact Hp. constructor.
    + cbn [read_profile created_at].
      rewrite jsonify_floats by exact Hc. constructor.
    + cbn [read_profile last_updated].
      rewrite jsonify_floats by exact Hu. constructor.
    + eexists. now apply deserialize_own_record.
Qed.

Lemma round_trip_stabilises_witness :
  exists P' w2,
    deserialize_user_profile
      (jtext "{
  'name': 'Ann',
  'age': 30,
  'email': 'ann@example.com',
  'preferences': {
    '7': [
      true,
      null
    ]
  },
  'created_at': '2024-01-01T00:00:00',
  'last_updated': '2024-01-01T00:00:00',
  '_version': '1.0'
}")
      None
      (logged INFO (py "Successfully serialized profile for: Ann")
         (logged INFO (py "Starting serialization for user: Ann")
            (tick world0)))
    = (Ok P', w2) /\
    plain (preferences P') = true /\
    plain (created_at P') = true /\ plain (last_updated P') = true /\
    forall (v : world) (text' : pystr) (v1 : world),
      serialize_user_profile P' None v = (Ok text', v1) ->
      exists v2, deserialize_user_profile text' None v1 = (Ok P', v2).
Proof.
  apply (@round_trip_stabilises latin1_runtime
    (example_profile (VDict [(VInt 7, VTuple [VBool true; VNone])]))
    (tick world0)).
  - repeat split.
    + exists (py "Ann"). reflexivity.
    + exists (py "ann@example.com"). reflexivity.
    + left. reflexivity.
  - reflexivity.
  - reflexivity.
  - reflexivity.
  - vm_compute. reflexivity.
Defined.
